(** * M4 sensor hub: panic recovery and init-call registry

    A shallow embedding of the panic subsystem (m4sensorhub_panic_init,
    _shutdown, _register, _unregister, _process) and of the init-call
    registry of the core driver (m4sensorhub_register_initcall,
    m4sensorhub_unregister_initcall, m4sensorhub_initialize), followed by
    the properties established about them.

    Conventions.  C [int] values are [Z]; pointers and function pointers
    are [Z] addresses with [NULL = 0]; the enum
    [m4sensorhub_panichdl_index] is the unsigned value of the enumerator
    ([N]).  A pointer to the single [struct m4sensorhub_data] is an
    [option]: [None] is the NULL pointer, [Some m] a pointer to a structure
    whose current contents are [m]. *)

From Stdlib Require Import ZArith Lia Bool Sorted.
From stdpp Require Import gmap list.

Local Open Scope Z_scope.

Abbreviation fnptr := Z (only parsing).
Abbreviation ptr := Z (only parsing).

Definition NULL : Z := 0.

(** errno values used by the driver *)
Definition EPERM : Z := 1.
Definition ENOMEM : Z := 12.
Definition EINVAL : Z := 22.

(** enum m4sensorhub_mode *)
Inductive m4sensorhub_mode :=
| UNINITIALIZED
| BOOTMODE
| NORMALMODE
| FACTORYMODE.

(* ===================================================================== *)
(** ** The board functions of the core driver *)
(* ===================================================================== *)

From Stdlib Require String.

Module Board.
Import Stdlib.Strings.String.

Definition ENODEV : Z := 19.
Definition ENODATA : Z := 61.

(** enum m4sensorhub_bootmode, as the unsigned value of the enumerator *)
Definition BOOTMODE00 : N := 0.
Definition BOOTMODE01 : N := 1.
Definition BOOTMODE10 : N := 2.
Definition BOOTMODE11 : N := 3.

(** struct m4sensorhub_hwconfig *)
Record m4sensorhub_hwconfig := {
  irq_gpio : Z;
  reset_gpio : Z;
  wake_gpio : Z;
  boot0_gpio : Z;
  boot1_gpio : Z;
  mpu_9150_en_gpio : Z
}.

(** struct m4sensorhub_data, restricted to the members the board
    functions use: the i2c client (NULL, or a client with its address),
    the GPIO numbers and the firmware file name. *)
Record m4sensorhub_data := {
  i2c_client : option Z;
  hwconfig : m4sensorhub_hwconfig;
  filename : option String.string
}.

Definition set_hwconfig (c : m4sensorhub_hwconfig) (m : m4sensorhub_data)
  : m4sensorhub_data :=
  {| i2c_client := i2c_client m; hwconfig := c; filename := filename m |}.

Definition set_filename (f : option String.string) (m : m4sensorhub_data)
  : m4sensorhub_data :=
  {| i2c_client := i2c_client m; hwconfig := hwconfig m; filename := f |}.

Definition set_irq_gpio (g : Z) (m : m4sensorhub_data) : m4sensorhub_data :=
  set_hwconfig
    {| irq_gpio := g; reset_gpio := reset_gpio (hwconfig m);
       wake_gpio := wake_gpio (hwconfig m);
       boot0_gpio := boot0_gpio (hwconfig m);
       boot1_gpio := boot1_gpio (hwconfig m);
       mpu_9150_en_gpio := mpu_9150_en_gpio (hwconfig m) |} m.

Definition set_reset_gpio (g : Z) (m : m4sensorhub_data) : m4sensorhub_data :=
  set_hwconfig
    {| irq_gpio := irq_gpio (hwconfig m); reset_gpio := g;
       wake_gpio := wake_gpio (hwconfig m);
       boot0_gpio := boot0_gpio (hwconfig m);
       boot1_gpio := boot1_gpio (hwconfig m);
       mpu_9150_en_gpio := mpu_9150_en_gpio (hwconfig m) |} m.

Definition set_wake_gpio (g : Z) (m : m4sensorhub_data) : m4sensorhub_data :=
  set_hwconfig
    {| irq_gpio := irq_gpio (hwconfig m);
       reset_gpio := reset_gpio (hwconfig m); wake_gpio := g;
       boot0_gpio := boot0_gpio (hwconfig m);
       boot1_gpio := boot1_gpio (hwconfig m);
       mpu_9150_en_gpio := mpu_9150_en_gpio (hwconfig m) |} m.

Definition set_boot0_gpio (g : Z) (m : m4sensorhub_data) : m4sensorhub_data :=
  set_hwconfig
    {| irq_gpio := irq_gpio (hwconfig m);
       reset_gpio := reset_gpio (hwconfig m);
       wake_gpio := wake_gpio (hwconfig m); boot0_gpio := g;
       boot1_gpio := boot1_gpio (hwconfig m);
       mpu_9150_en_gpio := mpu_9150_en_gpio (hwconfig m) |} m.

Definition set_boot1_gpio (g : Z) (m : m4sensorhub_data) : m4sensorhub_data :=
  set_hwconfig
    {| irq_gpio := irq_gpio (hwconfig m);
       reset_gpio := reset_gpio (hwconfig m);
       wake_gpio := wake_gpio (hwconfig m);
       boot0_gpio := boot0_gpio (hwconfig m); boot1_gpio := g;
       mpu_9150_en_gpio := mpu_9150_en_gpio (hwconfig m) |} m.

Definition set_mpu_9150_en_gpio (g : Z) (m : m4sensorhub_data)
  : m4sensorhub_data :=
  set_hwconfig
    {| irq_gpio := irq_gpio (hwconfig m);
       reset_gpio := reset_gpio (hwconfig m);
       wake_gpio := wake_gpio (hwconfig m);
       boot0_gpio := boot0_gpio (hwconfig m);
       boot1_gpio := boot1_gpio (hwconfig m); mpu_9150_en_gpio := g |} m.

(** What the board functions do to the GPIO library and the clock. *)
Inductive event :=
| EvGpioSetValue (gpio value : Z)
| EvUsleepRange (min max : Z)
| EvMsleep (ms : Z)
| EvGpioRequest (gpio : Z) (label : String.string) (ret : Z)
| EvGpioFree (gpio : Z)
| EvGpioDirectionInput (gpio : Z)
| EvGpioDirectionOutput (gpio value : Z).

(** The GPIO library decides whether a request succeeds; [World] is what
    it decides on. *)
Class Gpiolib (World : Type) := {
  gpio_request : Z -> String.string -> World -> Z * World
}.

(** The lines: the level last driven on each output, the world of the
    GPIO library, and the events so far. *)
Record pins (World : Type) := {
  world : World;
  level : gmap Z Z;
  trace : list event
}.
Arguments world {World} _.
Arguments level {World} _.
Arguments trace {World} _.

(** The part of a device tree node that m4sensorhub_hw_init reads: the
    "mot,fw-filename"%string string, and the GPIO number each named property
    resolves to (negative when it does not). *)
Record device_node := {
  fw_filename : option String.string;
  of_get_named_gpio_flags : String.string -> Z
}.

(** A call returns, or stores through a NULL pointer. *)
Inductive result (A : Type) :=
| Ret (a : A)
| NullDeref.
Arguments Ret {A} a.
Arguments NullDeref {A}.

Section Pins.
Context {World : Type} `{Gpiolib World}.

Definition emit (ev : event) (p : pins World) : pins World :=
  {| world := world p; level := level p; trace := trace p ++ [ev] |}.

Definition gpio_set_value (gpio value : Z) (p : pins World) : pins World :=
  emit (EvGpioSetValue gpio value)
    {| world := world p; level := <[gpio := value]> (level p);
       trace := trace p |}.

Definition gpio_direction_output (gpio value : Z) (p : pins World)
  : pins World :=
  emit (EvGpioDirectionOutput gpio value)
    {| world := world p; level := <[gpio := value]> (level p);
       trace := trace p |}.

Definition gpio_direction_input (gpio : Z) (p : pins World) : pins World :=
  emit (EvGpioDirectionInput gpio) p.

Definition gpio_free (gpio : Z) (p : pins World) : pins World :=
  emit (EvGpioFree gpio) p.

Definition usleep_range (min max : Z) (p : pins World) : pins World :=
  emit (EvUsleepRange min max) p.

Definition msleep (ms : Z) (p : pins World) : pins World :=
  emit (EvMsleep ms) p.

(** m4sensorhub_set_bootmode *)
Definition m4sensorhub_set_bootmode (m4sensorhub : option m4sensorhub_data)
    (bootmode : N) (p : pins World) : Z * pins World :=
  match m4sensorhub with
  | None => (- EINVAL, p)
  | Some m =>
      let boot0 := boot0_gpio (hwconfig m) in
      let boot1 := boot1_gpio (hwconfig m) in
      let p :=
        match bootmode with
        | 0%N => gpio_set_value boot1 0 (gpio_set_value boot0 0 p)
        | 1%N => gpio_set_value boot1 0 (gpio_set_value boot0 1 p)
        | 2%N => gpio_set_value boot1 1 (gpio_set_value boot0 0 p)
        | 3%N => gpio_set_value boot1 1 (gpio_set_value boot0 1 p)
        | _ => p
        end in
      (0, p)
  end.

(** m4sensorhub_hw_reset *)
Definition m4sensorhub_hw_reset (m4sensorhub : option m4sensorhub_data)
    (p : pins World) : pins World :=
  match m4sensorhub with
  | None => p
  | Some m =>
      match i2c_client m with
      | None => p
      | Some client_addr =>
          let reset := reset_gpio (hwconfig m) in
          if client_addr =? 0x39 then
            let '(err, p) := m4sensorhub_set_bootmode (Some m) BOOTMODE01 p in
            if err <? 0 then p
            else
              let p := usleep_range 5000 10000 p in
              let p := gpio_set_value reset 0 p in
              let p := usleep_range 10000 12000 p in
              let p := gpio_set_value reset 1 p in
              msleep 400 p
          else
            let '(err, p) := m4sensorhub_set_bootmode (Some m) BOOTMODE00 p in
            if err <? 0 then p
            else
              let p := gpio_set_value reset 1 p in
              let p := usleep_range 5000 10000 p in
              let p := gpio_set_value reset 0 p in
              let p := usleep_range 5000 10000 p in
              gpio_set_value reset 1 p
      end
  end.

(** The two lines each GPIO of m4sensorhub_hw_init starts with:
    [gpio = of_get_named_gpio_flags(node, name, 0, NULL)] and
    [err = (gpio < 0) ? -ENODEV : gpio_request(gpio, label)]. *)
Definition lookup_and_request (node : device_node)
    (name label : String.string) (p : pins World) : Z * Z * pins World :=
  let gpio := of_get_named_gpio_flags node name in
  if gpio <? 0 then (gpio, - ENODEV, p)
  else
    let '(err, w) := gpio_request gpio label (world p) in
    (gpio, err,
     emit (EvGpioRequest gpio label err)
       {| world := w; level := level p; trace := trace p |}).

(** The labels m4sensorhub_hw_init jumps to, each falling through to the
    next. *)
Definition hw_init_error (err : Z) (m : m4sensorhub_data) (p : pins World)
  : Z * m4sensorhub_data * pins World :=
  (err, set_filename None m, p).

Definition hw_init_error_reset (err : Z) (m : m4sensorhub_data)
    (p : pins World) : Z * m4sensorhub_data * pins World :=
  hw_init_error err (set_irq_gpio (-1) m)
    (gpio_free (irq_gpio (hwconfig m)) p).

Definition hw_init_error_wake (err : Z) (m : m4sensorhub_data)
    (p : pins World) : Z * m4sensorhub_data * pins World :=
  hw_init_error_reset err (set_reset_gpio (-1) m)
    (gpio_free (reset_gpio (hwconfig m)) p).

Definition hw_init_error_boot0 (err : Z) (m : m4sensorhub_data)
    (p : pins World) : Z * m4sensorhub_data * pins World :=
  hw_init_error_wake err (set_wake_gpio (-1) m)
    (gpio_free (wake_gpio (hwconfig m)) p).

Definition hw_init_error_boot1 (err : Z) (m : m4sensorhub_data)
    (p : pins World) : Z * m4sensorhub_data * pins World :=
  hw_init_error_boot0 err (set_boot0_gpio (-1) m)
    (gpio_free (boot0_gpio (hwconfig m)) p).

Definition hw_init_error_enable (err : Z) (m : m4sensorhub_data)
    (p : pins World) : Z * m4sensorhub_data * pins World :=
  hw_init_error_boot1 err (set_boot1_gpio (-1) m)
    (gpio_free (boot1_gpio (hwconfig m)) p).

(** m4sensorhub_hw_init *)
Definition m4sensorhub_hw_init (m4sensorhub : option m4sensorhub_data)
    (node : option device_node) (p : pins World)
  : result (Z * m4sensorhub_data * pins World) :=
  match m4sensorhub with
  | None => NullDeref
  | Some m =>
      match node with
      | None => Ret (hw_init_error (- ENODATA) m p)
      | Some node =>
          match fw_filename node with
          | None => Ret (hw_init_error (- EINVAL) m p)
          | Some fp =>
              let m := set_filename (Some fp) m in
              let '(gpio, err, p) :=
                lookup_and_request node "mot,irq-gpio"%string "m4sensorhub-intr"%string p in
              if negb (err =? 0) then Ret (hw_init_error err m p)
              else
              let p := gpio_direction_input gpio p in
              let m := set_irq_gpio gpio m in
              let '(gpio, err, p) :=
                lookup_and_request node "mot,reset-gpio"%string "m4sensorhub-reset"%string
                  p in
              if negb (err =? 0) then Ret (hw_init_error_reset err m p)
              else
              let p := gpio_direction_output gpio 0 p in
              let m := set_reset_gpio gpio m in
              let '(gpio, err, p) :=
                lookup_and_request node "mot,wake-gpio"%string "m4sensorhub-wake"%string p in
              if negb (err =? 0) then Ret (hw_init_error_wake err m p)
              else
              let p := gpio_direction_output gpio 0 p in
              let m := set_wake_gpio gpio m in
              let '(gpio, err, p) :=
                lookup_and_request node "mot,boot0-gpio"%string "m4sensorhub-boot0"%string
                  p in
              if negb (err =? 0) then Ret (hw_init_error_boot0 err m p)
              else
              let p := gpio_direction_output gpio 0 p in
              let m := set_boot0_gpio gpio m in
              let '(gpio, err, p) :=
                lookup_and_request node "mot,boot1-gpio"%string "m4sensorhub-boot1"%string
                  p in
              if negb (err =? 0) then Ret (hw_init_error_boot1 err m p)
              else
              let p := gpio_direction_output gpio 0 p in
              let m := set_boot1_gpio gpio m in
              let '(gpio, err, p) :=
                lookup_and_request node "mot,enable-gpio"%string
                  "m4sensorhub-enable"%string p in
              if negb (err =? 0) then Ret (hw_init_error_enable err m p)
              else
              let p := gpio_direction_output gpio 0 p in
              let m := set_mpu_9150_en_gpio gpio m in
              Ret (0, m, p)
          end
      end
  end.

(** one block of m4sensorhub_hw_free *)
Definition free_if_held (gpio : Z) (p : pins World) : pins World :=
  if 0 <=? gpio then gpio_free gpio p else p.

Definition released (gpio : Z) : Z := if 0 <=? gpio then -1 else gpio.

(** m4sensorhub_hw_free *)
Definition m4sensorhub_hw_free (m4sensorhub : option m4sensorhub_data)
    (p : pins World) : option m4sensorhub_data * pins World :=
  match m4sensorhub with
  | None => (None, p)
  | Some m =>
      let p := free_if_held (irq_gpio (hwconfig m)) p in
      let m := set_irq_gpio (released (irq_gpio (hwconfig m))) m in
      let p := free_if_held (reset_gpio (hwconfig m)) p in
      let m := set_reset_gpio (released (reset_gpio (hwconfig m))) m in
      let p := free_if_held (wake_gpio (hwconfig m)) p in
      let m := set_wake_gpio (released (wake_gpio (hwconfig m))) m in
      let p := free_if_held (boot0_gpio (hwconfig m)) p in
      let m := set_boot0_gpio (released (boot0_gpio (hwconfig m))) m in
      let p := free_if_held (boot1_gpio (hwconfig m)) p in
      let m := set_boot1_gpio (released (boot1_gpio (hwconfig m))) m in
      let p := free_if_held (mpu_9150_en_gpio (hwconfig m)) p in
      let m :=
        set_mpu_9150_en_gpio (released (mpu_9150_en_gpio (hwconfig m))) m in
      (Some (set_filename None m), p)
  end.

End Pins.

(** The boot mode the two boot lines select, when both have been driven
    to 0 or 1: boot1 is the high bit, boot0 the low one. *)
Definition selected_bootmode {World : Type} (m : m4sensorhub_data)
    (p : pins World) : option N :=
  match level p !! boot0_gpio (hwconfig m),
        level p !! boot1_gpio (hwconfig m) with
  | Some b0, Some b1 =>
      if ((b0 =? 0) || (b0 =? 1)) && ((b1 =? 0) || (b1 =? 1))
      then Some (Z.to_N (b0 + 2 * b1))
      else None
  | _, _ => None
  end.

(** the values written to a line with gpio_set_value, oldest first *)
Definition writes_to (gpio : Z) (t : list event) : list Z :=
  flat_map (fun ev => match ev with
                      | EvGpioSetValue g v => if g =? gpio then [v] else []
                      | _ => []
                      end) t.

(** the lines a trace writes to with gpio_set_value *)
Definition lines_written (t : list event) : list Z :=
  flat_map (fun ev => match ev with
                      | EvGpioSetValue g _ => [g]
                      | _ => []
                      end) t.

(** the GPIOs a trace has requested with success, and those it has
    freed, oldest first *)
Definition acquired (t : list event) : list Z :=
  flat_map (fun ev => match ev with
                      | EvGpioRequest g _ ret => if ret =? 0 then [g] else []
                      | _ => []
                      end) t.

Definition freed (t : list event) : list Z :=
  flat_map (fun ev => match ev with
                      | EvGpioFree g => [g]
                      | _ => []
                      end) t.

(** From [p0] to [p] the GPIOs [A] were acquired and the GPIOs [F] were
    freed, in these orders. *)
Definition between {World : Type} (p0 p : pins World) (A F : list Z) : Prop :=
  exists new,
    trace p = trace p0 ++ new /\ acquired new = A /\ freed new = F.

(** the device tree properties m4sensorhub_hw_init reads, in its order *)
Definition gpio_properties : list String.string :=
  ["mot,irq-gpio"%string; "mot,reset-gpio"%string; "mot,wake-gpio"%string;
   "mot,boot0-gpio"%string; "mot,boot1-gpio"%string;
   "mot,enable-gpio"%string].

(** the six GPIO numbers of a configuration, in the order of the struct *)
Definition gpios_of (c : m4sensorhub_hwconfig) : list Z :=
  [irq_gpio c; reset_gpio c; wake_gpio c; boot0_gpio c; boot1_gpio c;
   mpu_9150_en_gpio c].

(** Sample board: a GPIO library that grants every request but the one
    for GPIO 7, and a device tree with the six lines. *)
Definition grudging_gpiolib : Gpiolib unit :=
  {| gpio_request := fun g _ w => (if g =? 7 then -16 else 0, w) |}.

Definition sample_node (wake : Z) : device_node :=
  {| fw_filename := Some "m4sensorhub.bin"%string;
     of_get_named_gpio_flags := fun name =>
       if String.eqb name "mot,irq-gpio"%string then 11
       else if String.eqb name "mot,reset-gpio"%string then 12
       else if String.eqb name "mot,wake-gpio"%string then wake
       else if String.eqb name "mot,boot0-gpio"%string then 14
       else if String.eqb name "mot,boot1-gpio"%string then 15
       else if String.eqb name "mot,enable-gpio"%string then 16
       else -2 |}.

Definition unset_config : m4sensorhub_hwconfig :=
  {| irq_gpio := 0; reset_gpio := 0; wake_gpio := 0; boot0_gpio := 0;
     boot1_gpio := 0; mpu_9150_en_gpio := 0 |}.

Definition sample_config : m4sensorhub_hwconfig :=
  {| irq_gpio := 11; reset_gpio := 12; wake_gpio := 13; boot0_gpio := 14;
     boot1_gpio := 15; mpu_9150_en_gpio := 16 |}.

Definition sample_board (client : option Z) : m4sensorhub_data :=
  {| i2c_client := client; hwconfig := sample_config; filename := None |}.

Definition idle_pins : pins unit :=
  {| world := tt; level := ∅; trace := [] |}.

End Board.

(* ===================================================================== *)
(** ** The panic subsystem *)
(* ===================================================================== *)

Module Panic.

Definition PANIC_BANK : Z := 0xFF.
Definition PANIC_CMD_CHECK : Z := 0xCD.
Definition PANIC_RESP_CHECK : Z := 0xDEADBEEF.

(** enum m4sensorhub_panichdl_index: the order of the enumerators is the
    order in which the handlers are called. *)
Definition PANICHDL_DISPLAY_RESTORE : N := 0.
Definition PANICHDL_IRQ_RESTORE : N := 1.
Definition PANICHDL_MAX : N := PANICHDL_IRQ_RESTORE + 1.

(** struct m4sensorhub_panic_callback *)
Record m4sensorhub_panic_callback := {
  callback : fnptr;
  data : ptr
}.

(** what kzalloc leaves in a slot *)
Definition no_handler : m4sensorhub_panic_callback :=
  {| callback := NULL; data := NULL |}.

#[export] Instance m4sensorhub_panic_callback_inhabited :
  Inhabited m4sensorhub_panic_callback := populate no_handler.

(** struct m4sensorhub_panicdata: [lock] tells whether the mutex is held,
    [funcs] is the array of PANICHDL_MAX slots. *)
Record m4sensorhub_panicdata := {
  lock : bool;
  funcs : list m4sensorhub_panic_callback
}.

(** struct m4sensorhub_platform_data, restricted to the member the panic
    code calls through: the address of the board's reset hook (NULL when
    the board file has not set it). *)
Record m4sensorhub_platform_data := {
  hw_reset : fnptr
}.

(** struct m4sensorhub_data, restricted to the members the panic code
    uses ([panicdata = None] and [pdev = None] are NULL pointers). *)
Record m4sensorhub_data := {
  panicdata : option m4sensorhub_panicdata;
  mode : m4sensorhub_mode;
  pdev : option m4sensorhub_platform_data
}.

Definition set_funcs (pd : m4sensorhub_panicdata)
    (fs : list m4sensorhub_panic_callback) : m4sensorhub_panicdata :=
  {| lock := lock pd; funcs := fs |}.

Definition set_panicdata (m : m4sensorhub_data)
    (pd : option m4sensorhub_panicdata) : m4sensorhub_data :=
  {| panicdata := pd; mode := mode m; pdev := pdev m |}.

Definition set_mode (m : m4sensorhub_data) (md : m4sensorhub_mode)
  : m4sensorhub_data :=
  {| panicdata := panicdata m; mode := md; pdev := pdev m |}.

(** A call either returns or dereferences a NULL pointer (kernel oops). *)
Inductive result (A : Type) :=
| Ret (a : A)
| NullDeref.
Arguments Ret {A} a.
Arguments NullDeref {A}.

(** m4sensorhub_panic_init.  [kzalloc_ok] tells whether kzalloc returned
    memory; the function does not test [m4sensorhub] before storing to
    it. *)
Definition m4sensorhub_panic_init (m4sensorhub : option m4sensorhub_data)
    (kzalloc_ok : bool) : result (Z * option m4sensorhub_data) :=
  if kzalloc_ok then
    match m4sensorhub with
    | None => NullDeref
    | Some m =>
        let data := {| lock := false;
                       funcs := replicate (N.to_nat PANICHDL_MAX) no_handler |} in
        Ret (0, Some (set_panicdata m (Some data)))
    end
  else Ret (- ENOMEM, m4sensorhub).

(** m4sensorhub_panic_shutdown *)
Definition m4sensorhub_panic_shutdown (m4sensorhub : option m4sensorhub_data)
  : option m4sensorhub_data :=
  match m4sensorhub with
  | None => None
  | Some m =>
      match panicdata m with
      | None => Some m
      | Some _ => Some (set_panicdata m None)
      end
  end.

(** m4sensorhub_panic_register.  The mutex is taken and released inside
    the call, so [lock] is the same before and after. *)
Definition m4sensorhub_panic_register (m4sensorhub : option m4sensorhub_data)
    (index : N) (cb_func : fnptr) (cb_data : ptr)
  : result (Z * option m4sensorhub_data) :=
  match m4sensorhub with
  | None => Ret (- EINVAL, None)
  | Some m =>
      if (PANICHDL_MAX <=? index)%N || (cb_func =? NULL) then
        Ret (- EINVAL, Some m)
      else
        match panicdata m with
        | None => NullDeref
        | Some pd =>
            let i := N.to_nat index in
            if callback (funcs pd !!! i) =? NULL then
              let h := {| callback := cb_func; data := cb_data |} in
              Ret (0, Some (set_panicdata m
                              (Some (set_funcs pd (<[i := h]> (funcs pd))))))
            else
              Ret (- EPERM, Some m)
        end
  end.

(** m4sensorhub_panic_unregister *)
Definition m4sensorhub_panic_unregister (m4sensorhub : option m4sensorhub_data)
    (index : N) : result (Z * option m4sensorhub_data) :=
  match m4sensorhub with
  | None => Ret (- EINVAL, None)
  | Some m =>
      if (PANICHDL_MAX <=? index)%N then Ret (- EINVAL, Some m)
      else
        match panicdata m with
        | None => NullDeref
        | Some pd =>
            let i := N.to_nat index in
            Ret (0, Some (set_panicdata m
                            (Some (set_funcs pd (<[i := no_handler]> (funcs pd))))))
        end
  end.

(** union panic_buf: four bytes of storage.  [in] is the first two of
    them, [data] the 32-bit little-endian reading of all four (the driver
    runs on a little-endian ARM). *)
Record panic_buf := {
  b0 : Z;
  b1 : Z;
  b2 : Z;
  b3 : Z
}.

Definition u8 (b : Z) : Z := b mod 256.

Definition buf_data (buf : panic_buf) : Z :=
  Z.lor (u8 (b0 buf))
    (Z.lor (Z.shiftl (u8 (b1 buf)) 8)
       (Z.lor (Z.shiftl (u8 (b2 buf)) 16) (Z.shiftl (u8 (b3 buf)) 24))).

Definition sizeof_buf_in : Z := 2.
Definition sizeof_buf_data : Z := 4.

(** What m4sensorhub_panic_process does that is visible outside of it. *)
Inductive event :=
| EvRegAccessLock
| EvRegAccessUnlock
| EvI2cWriteRead (wbuf : list Z) (writelen readlen : Z)
| EvHwReset (hook : fnptr)
| EvMsleep (ms : Z)
| EvLoadFirmware (force_upgrade : Z)
| EvPanicCallback (i : N) (m4sensorhub : m4sensorhub_data)
    (h : m4sensorhub_panic_callback).

(** The code the panic subsystem calls and that lies outside of it: the
    bus transport, the board's reset hook, the firmware loader and the
    clients' recovery callbacks.  [World] is everything they act on
    besides the structure (the hub, the wire, the clients' own driver
    data).  The transport gets the bytes to write and the two lengths and
    gives back its return value and the contents of the caller's buffer
    after the call.  The reset hook, the firmware loader and a recovery
    callback are handed the structure itself and give it back as they
    leave it: they may change the mode and, through the registration
    interface, the registry.  [call_hw_reset f] and [run_panic_callback f]
    are the functions at the address [f]. *)
Class Collaborators (World : Type) := {
  m4sensorhub_i2c_write_read :
    list Z -> Z -> Z -> World -> Z * panic_buf * World;
  call_hw_reset :
    fnptr -> m4sensorhub_data -> World -> m4sensorhub_data * World;
  m4sensorhub_load_firmware :
    m4sensorhub_data -> Z -> World -> Z * m4sensorhub_data * World;
  run_panic_callback :
    fnptr -> m4sensorhub_data -> ptr -> World -> m4sensorhub_data * World
}.

(** The environment of a run: the outside world, the state of the
    register access mutex, and the events so far (oldest first). *)
Record env (World : Type) := {
  world : World;
  reg_access_locked : bool;
  trace : list event
}.
Arguments world {World} _.
Arguments reg_access_locked {World} _.
Arguments trace {World} _.

(** How a run of m4sensorhub_panic_process ends: it returns, it stops in
    BUG(), or it goes through a NULL pointer. *)
Inductive outcome :=
| Returned
| Bugged
| Faulted.

Section Process.
Context {World : Type} `{Collaborators World}.

Definition emit (ev : event) (e : env World) : env World :=
  {| world := world e;
     reg_access_locked := reg_access_locked e;
     trace := trace e ++ [ev] |}.

Definition on_world (f : World -> World) (e : env World) : env World :=
  {| world := f (world e);
     reg_access_locked := reg_access_locked e;
     trace := trace e |}.

Definition m4sensorhub_reg_access_lock (e : env World) : env World :=
  emit EvRegAccessLock
    {| world := world e; reg_access_locked := true; trace := trace e |}.

Definition m4sensorhub_reg_access_unlock (e : env World) : env World :=
  emit EvRegAccessUnlock
    {| world := world e; reg_access_locked := false; trace := trace e |}.

(** handler.callback(m4sensorhub, handler.data) *)
Definition call_handler (i : N) (m : m4sensorhub_data)
    (h : m4sensorhub_panic_callback) (e : env World)
  : m4sensorhub_data * env World :=
  let e := emit (EvPanicCallback i m h) e in
  let '(m', w) := run_panic_callback (callback h) m (data h) (world e) in
  (m', on_world (fun _ => w) e).

(** The loop [for (i = ...; i < PANICHDL_MAX; i++)], with [n] iterations
    left to run from index [i]; each iteration reads
    m4sensorhub->panicdata->funcs[i] anew. *)
Fixpoint panic_walk (n : nat) (i : N) (m : m4sensorhub_data)
    (e : env World) : outcome * m4sensorhub_data * env World :=
  match n with
  | O => (Returned, m, e)
  | S k =>
      match panicdata m with
      | None => (Faulted, m, e)
      | Some pd =>
          let handler := funcs pd !!! N.to_nat i in
          if callback handler =? NULL then panic_walk k (i + 1)%N m e
          else
            let '(m', e') := call_handler i m handler e in
            panic_walk k (i + 1)%N m' e'
      end
  end.

(** m4sensorhub_panic_process *)
Definition m4sensorhub_panic_process (m4sensorhub : option m4sensorhub_data)
    (e : env World) : outcome * option m4sensorhub_data * env World :=
  match m4sensorhub with
  | None => (Returned, None, e)
  | Some m =>
      match panicdata m with
      | None => (Returned, Some m, e)
      | Some pd =>
          let e := m4sensorhub_reg_access_lock e in
          let wbuf := [PANIC_BANK; PANIC_CMD_CHECK] in
          let '(ret, buf, w) :=
            m4sensorhub_i2c_write_read wbuf sizeof_buf_in sizeof_buf_data
              (world e) in
          let e :=
            on_world (fun _ => w)
              (emit (EvI2cWriteRead wbuf sizeof_buf_in sizeof_buf_data) e) in
          if negb (ret =? sizeof_buf_data)
             || negb (buf_data buf =? PANIC_RESP_CHECK) then
            (Returned, Some m, m4sensorhub_reg_access_unlock e)
          else
            (* m4sensorhub->pdev->hw_reset(m4sensorhub) *)
            match pdev m with
            | None => (Faulted, Some m, e)
            | Some board =>
                if hw_reset board =? NULL then (Faulted, Some m, e)
                else
                  let e := emit (EvHwReset (hw_reset board)) e in
                  let '(m, w) :=
                    call_hw_reset (hw_reset board) m (world e) in
                  let e := on_world (fun _ => w) e in
                  let e := emit (EvMsleep 100) e in
                  let e := emit (EvLoadFirmware 0) e in
                  let '(ret, m, w) :=
                    m4sensorhub_load_firmware m 0 (world e) in
                  let e := on_world (fun _ => w) e in
                  if ret <? 0 then (Bugged, Some m, e)
                  else
                    let e := m4sensorhub_reg_access_unlock e in
                    let '(o, m, e) :=
                      panic_walk (N.to_nat PANICHDL_MAX) 0%N m e in
                    (o, Some m, e)
            end
      end
  end.

End Process.

End Panic.

(* ===================================================================== *)
(** ** The init-call registry of the core driver *)
(* ===================================================================== *)

Module Core.

(** struct init_call *)
Record init_call := {
  initcb : fnptr;
  pdata : ptr;
  next : ptr
}.

Definition zeroed : init_call :=
  {| initcb := NULL; pdata := NULL; next := NULL |}.

Definition set_next (n : init_call) (v : ptr) : init_call :=
  {| initcb := initcb n; pdata := pdata n; next := v |}.

(** The init_call objects of the kernel heap.  [cells] holds the contents
    of every object handed out so far, [live] the addresses of those that
    are allocated.  The kernel promises nothing about an object once it
    is freed; the model leaves its contents where they are, which is what
    the allocator does until the memory is handed out again, so that a
    run can be followed past an access to a freed object, and it records
    every such access (a read, a write, a second kfree), in order, in
    [uaf]. *)
Record slab := {
  cells : gmap Z init_call;
  live : gset Z;
  uaf : list ptr
}.

Definition touch (a : ptr) (h : slab) : slab :=
  if decide (a ∈ live h) then h
  else {| cells := cells h; live := live h; uaf := uaf h ++ [a] |}.

(** reading a member of [*a]; [None] when [a] points to no object *)
Definition load (a : ptr) (h : slab) : option (init_call * slab) :=
  match cells h !! a with
  | Some n => Some (n, touch a h)
  | None => None
  end.

(** [a->next = v] *)
Definition store_next (a v : ptr) (h : slab) : option slab :=
  match cells h !! a with
  | Some n =>
      Some (touch a {| cells := <[a := set_next n v]> (cells h);
                       live := live h; uaf := uaf h |})
  | None => None
  end.

(** the object at [a] as kzalloc hands it out *)
Definition kzalloc (a : ptr) (h : slab) : slab :=
  {| cells := <[a := zeroed]> (cells h);
     live := {[a]} ∪ live h;
     uaf := uaf h |}.

(** kfree(a): nothing for NULL; otherwise the object is no longer live,
    and freeing an object that is not live is recorded *)
Definition kfree (a : ptr) (h : slab) : slab :=
  if a =? NULL then h
  else
    let h := touch a h in
    {| cells := cells h; live := live h ∖ {[a]}; uaf := uaf h |}.

Definition write (a : ptr) (n : init_call) (h : slab) : slab :=
  {| cells := <[a := n]> (cells h); live := live h; uaf := uaf h |}.

Inductive event :=
| EvLoadFirmware401 (force_upgrade : Z)
| EvLoadFirmware (force_upgrade : Z)
| EvIrqInit
| EvInitcb (f : fnptr) (p_data : ptr)
| EvDumpStack
| EvKfree (a : ptr).

(** What the core file shares with the code it calls.  A function that
    is handed &m4sensorhub_misc_data can read and write the structure:
    its i2c client, GPIO numbers and file name ([hub]) and its [mode];
    and, like any kernel code, it can drive the GPIO lines and act on the
    rest of the world ([lines]). *)
Record shared (World : Type) := {
  hub : Board.m4sensorhub_data;
  mode : m4sensorhub_mode;
  lines : Board.pins World
}.
Arguments hub {World} _.
Arguments mode {World} _.
Arguments lines {World} _.

Definition set_mode {World : Type} (md : m4sensorhub_mode)
    (o : shared World) : shared World :=
  {| hub := hub o; mode := md; lines := lines o |}.

Definition set_lines {World : Type} (p : Board.pins World)
    (o : shared World) : shared World :=
  {| hub := hub o; mode := mode o; lines := p |}.

(** The code m4sensorhub_initialize calls and that lies outside the core
    file: the two firmware loaders, the set-up of the interrupt table, and
    the clients' init callbacks (which return an int).  Each of them is
    handed &m4sensorhub_misc_data: it gets what the core file shares as it
    finds it and gives back its return value and what it has made of it.
    [run_initcb f] is the function at the address [f].  The list of init
    calls, [inithead] and [firmware_download_status] are static to the
    core file; the code called is taken not to re-enter the registration
    interface while m4sensorhub_initialize runs. *)
Class Collaborators (World : Type) := {
  m4sensorhub_401_load_firmware : Z -> shared World -> Z * shared World;
  m4sensorhub_load_firmware : Z -> shared World -> Z * shared World;
  m4sensorhub_irq_init : shared World -> Z * shared World;
  run_initcb : fnptr -> ptr -> shared World -> Z * shared World
}.

(** The static data of the core file, what it shares with the code it
    calls ([common]), and the events so far. *)
Record state (World : Type) := {
  mem : slab;
  inithead : ptr;
  firmware_download_status : Z;
  force_upgrade : Z;
  common : shared World;
  trace : list event
}.
Arguments mem {World} _.
Arguments inithead {World} _.
Arguments firmware_download_status {World} _.
Arguments force_upgrade {World} _.
Arguments common {World} _.
Arguments trace {World} _.

(** How a run ends: it completes, it goes through a pointer that points
    to no object (a NULL function pointer included), or the model's loop
    bound is used up. *)
Inductive run (A : Type) :=
| Done (a : A)
| Fault
| OutOfFuel.
Arguments Done {A} a.
Arguments Fault {A}.
Arguments OutOfFuel {A}.

Section Registry.
Context {World : Type} `{Collaborators World}.

Definition set_mem (h : slab) (s : state World) : state World :=
  {| mem := h; inithead := inithead s;
     firmware_download_status := firmware_download_status s;
     force_upgrade := force_upgrade s; common := common s;
     trace := trace s |}.

Definition set_inithead (p : ptr) (s : state World) : state World :=
  {| mem := mem s; inithead := p;
     firmware_download_status := firmware_download_status s;
     force_upgrade := force_upgrade s; common := common s;
     trace := trace s |}.

Definition set_status (st : Z) (s : state World) : state World :=
  {| mem := mem s; inithead := inithead s;
     firmware_download_status := st;
     force_upgrade := force_upgrade s; common := common s;
     trace := trace s |}.

Definition set_common (o : shared World) (s : state World) : state World :=
  {| mem := mem s; inithead := inithead s;
     firmware_download_status := firmware_download_status s;
     force_upgrade := force_upgrade s; common := o;
     trace := trace s |}.

Definition note (ev : event) (s : state World) : state World :=
  {| mem := mem s; inithead := inithead s;
     firmware_download_status := firmware_download_status s;
     force_upgrade := force_upgrade s; common := common s;
     trace := trace s ++ [ev] |}.

(** m4sensorhub_register_initcall; [inc] is the pointer kzalloc returns. *)
Definition m4sensorhub_register_initcall (inc : ptr) (initfunc : fnptr)
    (p_data : ptr) (s : state World) : Z * state World :=
  if inc =? NULL then (- ENOMEM, s)
  else
    let nxt := if inithead s =? NULL then NULL else inithead s in
    let node := {| initcb := initfunc; pdata := p_data; next := nxt |} in
    (0, set_inithead inc (set_mem (write inc node (kzalloc inc (mem s))) s)).

(** The loop of m4sensorhub_unregister_initcall, entered with the current
    [node] and [prev]; one unit of [fuel] per evaluation of the loop
    test. *)
Fixpoint unregister_loop (fuel : nat) (initfunc : fnptr) (node prev : ptr)
    (s : state World) : run (state World) :=
  match fuel with
  | O => OutOfFuel
  | S k =>
      if node =? NULL then Done s
      else
        match load node (mem s) with
        | None => Fault
        | Some (n, h) =>
            let s := set_mem h s in
            let removed :=
              if initcb n =? initfunc then
                (* remove this node *)
                let unlinked :=
                  if node =? inithead s then Some (set_inithead (next n) s)
                  else
                    match store_next prev (next n) (mem s) with
                    | Some h' => Some (set_mem h' s)
                    | None => None
                    end in
                match unlinked with
                | Some s' => Some (set_mem (kfree node (mem s')) s')
                | None => None
                end
              else Some s in
            match removed with
            | None => Fault
            | Some s =>
                (* prev = node, node = node->next *)
                match load node (mem s) with
                | None => Fault
                | Some (n', h') =>
                    unregister_loop k initfunc (next n') node (set_mem h' s)
                end
            end
        end
  end.

Definition m4sensorhub_unregister_initcall (fuel : nat) (initfunc : fnptr)
    (s : state World) : run (state World) :=
  unregister_loop fuel initfunc (inithead s) NULL s.

(** The loop [while (inc)] of m4sensorhub_initialize. *)
Fixpoint drain (fuel : nat) (inc : ptr) (s : state World)
  : run (state World) :=
  match fuel with
  | O => OutOfFuel
  | S k =>
      if inc =? NULL then Done s
      else
        match load inc (mem s) with
        | None => Fault
        | Some (n, h) =>
            let s := set_mem h s in
            (* err = inc->initcb(&arg) *)
            if initcb n =? NULL then Fault
            else
              let s := note (EvInitcb (initcb n) (pdata n)) s in
              let '(err, o) := run_initcb (initcb n) (pdata n) (common s) in
              let s := set_common o s in
              let s := if err <? 0 then note EvDumpStack s else s in
              (* prev = inc; inc = inc->next; kfree(prev) *)
              match load inc (mem s) with
              | None => Fault
              | Some (n', h') =>
                  drain k (next n')
                    (note (EvKfree inc) (set_mem (kfree inc h') s))
              end
        end
  end.

(** m4sensorhub_initialize; [firmware] tells whether the firmware pointer
    is non-NULL.  The i2c client is read without a test. *)
Definition m4sensorhub_initialize (firmware : bool) (fuel : nat)
    (s : state World) : run (state World) :=
  if negb firmware then Done s
  else
    match Board.i2c_client (hub (common s)) with
    | None => Fault
    | Some client_addr =>
        let s :=
          note (if client_addr =? 0x39
                then EvLoadFirmware401 (force_upgrade s)
                else EvLoadFirmware (force_upgrade s)) s in
        let '(st, o) :=
          if client_addr =? 0x39
          then m4sensorhub_401_load_firmware (force_upgrade s) (common s)
          else m4sensorhub_load_firmware (force_upgrade s) (common s) in
        let s := set_status st (set_common o s) in
        if firmware_download_status s <? 0 then
          Done (set_common
                  (set_lines
                     (Board.m4sensorhub_hw_reset (Some (hub (common s)))
                        (lines (common s)))
                     (common s)) s)
        else
          let s := note EvIrqInit s in
          let '(err, o) := m4sensorhub_irq_init (common s) in
          let s := set_common o s in
          if err <? 0 then Done s
          else
            match drain fuel (inithead s) s with
            | Done s => Done (set_common (set_mode NORMALMODE (common s)) s)
            | Fault => Fault
            | OutOfFuel => OutOfFuel
            end
    end.

End Registry.

End Core.

(* ===================================================================== *)
(** ** Specification-level vocabulary and sample environments *)
(* ===================================================================== *)

Module PanicSpec.
Import Panic.

(** The slots of an array, each with its index, from index [i] on. *)
Fixpoint slots_from (i : N) (fs : list m4sensorhub_panic_callback)
  : list (N * m4sensorhub_panic_callback) :=
  match fs with
  | [] => []
  | h :: t => (i, h) :: slots_from (i + 1)%N t
  end.

Definition is_populated (ih : N * m4sensorhub_panic_callback) : bool :=
  negb (callback (snd ih) =? NULL).

(** The populated slots of a registry, by ascending index. *)
Definition populated_slots (pd : m4sensorhub_panicdata)
  : list (N * m4sensorhub_panic_callback) :=
  List.filter is_populated (slots_from 0%N (funcs pd)).

(** The array has its PANICHDL_MAX slots. *)
Definition well_formed (pd : m4sensorhub_panicdata) : Prop :=
  length (funcs pd) = N.to_nat PANICHDL_MAX.

(** The events up to and including the panic check. *)
Definition check_events : list event :=
  [EvRegAccessLock;
   EvI2cWriteRead [PANIC_BANK; PANIC_CMD_CHECK] sizeof_buf_in sizeof_buf_data].

(** The events of reset and reload, [hook] being the board's reset
    hook. *)
Definition reset_events (hook : fnptr) : list event :=
  [EvHwReset hook; EvMsleep 100; EvLoadFirmware 0].

(** How often slot [i] is called in a trace. *)
Definition calls_of_slot (i : N) (t : list event) : nat :=
  length (List.filter
            (fun ev => match ev with
                       | EvPanicCallback j _ _ => (j =? i)%N
                       | _ => false
                       end) t).

(** The slots called in a trace, with what was in them, in call order. *)
Definition called_slots (t : list event)
  : list (N * m4sensorhub_panic_callback) :=
  flat_map (fun ev => match ev with
                      | EvPanicCallback i _ h => [(i, h)]
                      | _ => []
                      end) t.

Section Recovery.
Context {World : Type} `{Collaborators World}.

(** Calling the slots [slots] one after the other, from the structure
    [m] and the world [w]: the events, and the structure and the world
    the last callback leaves. *)
Fixpoint recovery_calls (slots : list (N * m4sensorhub_panic_callback))
    (m : m4sensorhub_data) (w : World)
  : list event * m4sensorhub_data * World :=
  match slots with
  | [] => ([], m, w)
  | ih :: slots' =>
      let '(m1, w1) :=
        run_panic_callback (callback (snd ih)) m (data (snd ih)) w in
      let '(evs, m2, w2) := recovery_calls slots' m1 w1 in
      (EvPanicCallback (fst ih) m (snd ih) :: evs, m2, w2)
  end.

(** The reset hook, the firmware loader and the recovery callbacks leave
    the registry alone: none of them registers, unregisters or shuts the
    panic subsystem down. *)
Definition registry_untouched : Prop :=
  (forall f m w, panicdata (fst (call_hw_reset f m w)) = panicdata m)
  /\ (forall m fu w,
        panicdata (snd (fst (m4sensorhub_load_firmware m fu w)))
        = panicdata m)
  /\ (forall f m d w,
        panicdata (fst (run_panic_callback f m d w)) = panicdata m).

End Recovery.

(** Sample hubs.  The world is the log of the callbacks that ran. *)
Definition magic_buf : panic_buf :=
  {| b0 := 0xEF; b1 := 0xBE; b2 := 0xAD; b3 := 0xDE |}.

Definition quiet_buf : panic_buf :=
  {| b0 := 0; b1 := 0; b2 := 0; b3 := 0 |}.

Definition log_callback (f : fnptr) (m : m4sensorhub_data) (d : ptr)
    (w : list (fnptr * ptr)) : m4sensorhub_data * list (fnptr * ptr) :=
  (m, w ++ [(f, d)]).

(** a hub that has panicked and takes the new firmware *)
Definition panicked_hub : Collaborators (list (fnptr * ptr)) :=
  {| m4sensorhub_i2c_write_read := fun _ _ readlen w => (readlen, magic_buf, w);
     call_hw_reset := fun _ m w => (m, w);
     m4sensorhub_load_firmware := fun m _ w => (0, m, w);
     run_panic_callback := log_callback |}.

(** a hub that has panicked and refuses the new firmware *)
Definition bricked_hub : Collaborators (list (fnptr * ptr)) :=
  {| m4sensorhub_i2c_write_read := fun _ _ readlen w => (readlen, magic_buf, w);
     call_hw_reset := fun _ m w => (m, w);
     m4sensorhub_load_firmware := fun m _ w => (-5, m, w);
     run_panic_callback := log_callback |}.

(** a hub that runs and answers the panic bank with zeroes *)
Definition healthy_hub : Collaborators (list (fnptr * ptr)) :=
  {| m4sensorhub_i2c_write_read := fun _ _ readlen w => (readlen, quiet_buf, w);
     call_hw_reset := fun _ m w => (m, w);
     m4sensorhub_load_firmware := fun m _ w => (0, m, w);
     run_panic_callback := log_callback |}.

Definition idle : env (list (fnptr * ptr)) :=
  {| world := []; reg_access_locked := false; trace := [] |}.

(** a registry with both slots taken, and one with none *)
Definition display_handler : m4sensorhub_panic_callback :=
  {| callback := 0x1000; data := 0x2000 |}.
Definition irq_handler : m4sensorhub_panic_callback :=
  {| callback := 0x3000; data := 0x4000 |}.

Definition full_registry : m4sensorhub_panicdata :=
  {| lock := false; funcs := [display_handler; irq_handler] |}.

Definition empty_registry : m4sensorhub_panicdata :=
  {| lock := false; funcs := [no_handler; no_handler] |}.

(** the board's platform data, with its reset hook at 0x9000 *)
Definition sample_pdev : m4sensorhub_platform_data :=
  {| hw_reset := 0x9000 |}.

Definition hub_with (pd : option m4sensorhub_panicdata) : m4sensorhub_data :=
  {| panicdata := pd; mode := NORMALMODE; pdev := Some sample_pdev |}.

(** the same structure before the board file has set pdev *)
Definition hub_without_pdev (pd : option m4sensorhub_panicdata)
  : m4sensorhub_data :=
  {| panicdata := pd; mode := NORMALMODE; pdev := None |}.

End PanicSpec.

Module CoreSpec.
Import Core.

(** One call of m4sensorhub_register_initcall: the pointer kzalloc
    returned (NULL when it failed), the callback and its context. *)
Record registration := {
  addr : ptr;
  cb : fnptr;
  ctx : ptr
}.

Definition node_of (r : registration) (nx : ptr) : init_call :=
  {| initcb := cb r; pdata := ctx r; next := nx |}.

(** the address a list of nodes starts at *)
Definition head_of (l : list registration) : ptr :=
  match l with
  | [] => NULL
  | r :: _ => addr r
  end.

(** The cells hold the nodes of [l], each pointing to the next one and
    the last one to NULL, at non-NULL addresses that differ from one
    another. *)
Fixpoint linked (c : gmap Z init_call) (l : list registration) : Prop :=
  match l with
  | [] => True
  | r :: l' =>
      addr r <> NULL
      /\ (addr r ∉ map addr l')
      /\ c !! addr r = Some (node_of r (head_of l'))
      /\ linked c l'
  end.

(** [l] is a list of live nodes. *)
Definition chain (h : slab) (l : list registration) : Prop :=
  linked (cells h) l /\ Forall (fun r => addr r ∈ live h) l.

(** The nodes met when following [next] from [p], each with its address;
    at most [fuel] of them. *)
Fixpoint list_from (fuel : nat) (c : gmap Z init_call) (p : ptr)
  : list (ptr * init_call) :=
  match fuel with
  | O => []
  | S k =>
      if p =? NULL then []
      else match c !! p with
           | Some n => (p, n) :: list_from k c (next n)
           | None => []
           end
  end.

(** [h'] comes after [h]: nothing became live without being allocated and
    no recorded access to a freed object was forgotten. *)
Definition after (h h' : slab) : Prop :=
  live h' ⊆ live h /\ (forall a, a ∈ uaf h -> a ∈ uaf h').

(** The registrations that got memory. *)
Definition succeeded (regs : list registration) : list registration :=
  List.filter (fun r => negb (addr r =? NULL)) regs.

(** What the allocator may answer: NULL, or an address that is not live
    at that moment. *)
Fixpoint sound_allocs (L : gset Z) (regs : list registration) : Prop :=
  match regs with
  | [] => True
  | r :: regs' =>
      if decide (addr r = NULL) then sound_allocs L regs'
      else (addr r ∉ L) /\ sound_allocs ({[addr r]} ∪ L) regs'
  end.

(** The calls to the init callbacks and the kfree calls of a trace. *)
Definition calls_and_frees (t : list event) : list event :=
  List.filter (fun ev => match ev with
                         | EvInitcb _ _ | EvKfree _ => true
                         | _ => false
                         end) t.

(** what the drain of one node should show: its callback, then its kfree *)
Definition call_then_free (r : registration) : list event :=
  [EvInitcb (cb r) (ctx r); EvKfree (addr r)].

(** the event of the download, by the address of the client *)
Definition load_event (client_addr force : Z) : event :=
  if client_addr =? 0x39 then EvLoadFirmware401 force
  else EvLoadFirmware force.

Section WithCollaborators.
Context {World : Type} `{Collaborators World}.

Definition register_all (regs : list registration) (s : state World)
  : state World :=
  fold_left
    (fun s r => snd (m4sensorhub_register_initcall (addr r) (cb r) (ctx r) s))
    regs s.

(** The events of a drain over the nodes [l], and what the callbacks
    have made of what the core file shares with them. *)
Fixpoint drain_spec (l : list registration) (o : shared World)
  : list event * shared World :=
  match l with
  | [] => ([], o)
  | r :: l' =>
      let '(err, o1) := run_initcb (cb r) (ctx r) o in
      let '(evs, o2) := drain_spec l' o1 in
      (EvInitcb (cb r) (ctx r)
         :: (if err <? 0 then [EvDumpStack] else [])
         ++ EvKfree (addr r) :: evs, o2)
  end.

End WithCollaborators.

(** Sample clients: the callback at 0x77 fails with -5, the others
    succeed; the plain loader leaves the mode at BOOTMODE; the world
    counts the callbacks that ran. *)
Definition ran (o : shared nat) : shared nat :=
  set_lines
    {| Board.world := S (Board.world (lines o));
       Board.level := Board.level (lines o);
       Board.trace := Board.trace (lines o) |} o.

Definition sample_clients : Collaborators nat :=
  {| m4sensorhub_401_load_firmware := fun _ o => (0, o);
     m4sensorhub_load_firmware := fun _ o => (0, set_mode BOOTMODE o);
     m4sensorhub_irq_init := fun o => (0, o);
     run_initcb := fun f _ o => (if f =? 0x77 then -5 else 0, ran o) |}.

(** what is shared once the probe has bound the client at [client] *)
Definition bound_to (client : option Z) : shared nat :=
  {| hub := Board.sample_board client;
     mode := UNINITIALIZED;
     lines := {| Board.world := O; Board.level := ∅; Board.trace := [] |} |}.

(** the static data once the probe has bound the client at 0x18 *)
Definition boot : state nat :=
  {| mem := {| cells := ∅; live := ∅; uaf := [] |};
     inithead := NULL;
     firmware_download_status := -1;
     force_upgrade := 0;
     common := bound_to (Some 0x18);
     trace := [] |}.

(** Three registrations: twice the callback 0x77, then the callback
    0x88. *)
Definition reg_b : registration := {| addr := 0x300; cb := 0x77; ctx := 3 |}.
Definition reg_a : registration := {| addr := 0x200; cb := 0x77; ctx := 2 |}.
Definition reg_x : registration := {| addr := 0x100; cb := 0x88; ctx := 1 |}.

Definition three_registered : state nat :=
  register_all [reg_b; reg_a; reg_x] boot.

End CoreSpec.

(* ===================================================================== *)
(** ** Clients of the panic registry *)
(* ===================================================================== *)

Module PanicUse.
Import Panic PanicSpec.

(** A call a client makes on the registry. *)
Inductive registry_call :=
| CallRegister (index : N) (cb_func : fnptr) (cb_data : ptr)
| CallUnregister (index : N).

Definition do_call (c : registry_call) (m4sensorhub : option m4sensorhub_data)
  : result (Z * option m4sensorhub_data) :=
  match c with
  | CallRegister index cb_func cb_data =>
      m4sensorhub_panic_register m4sensorhub index cb_func cb_data
  | CallUnregister index => m4sensorhub_panic_unregister m4sensorhub index
  end.

(** Calls made one after the other on the same handle; the return values
    come in call order. *)
Fixpoint do_calls (cs : list registry_call)
    (m4sensorhub : option m4sensorhub_data)
  : result (list Z * option m4sensorhub_data) :=
  match cs with
  | [] => Ret ([], m4sensorhub)
  | c :: cs' =>
      match do_call c m4sensorhub with
      | NullDeref => NullDeref
      | Ret (r, m') =>
          match do_calls cs' m' with
          | NullDeref => NullDeref
          | Ret (rs, m'') => Ret (r :: rs, m'')
          end
      end
  end.



End PanicUse.

(* ===================================================================== *)
(** ** Clients of the init-call registry *)
(* ===================================================================== *)

Module CoreSamples.
Import Core CoreSpec.

(** A registry holding the callback 0x77, then 0x88, then 0x77 again. *)
Definition reg_c : registration := {| addr := 0x400; cb := 0x77; ctx := 4 |}.

Definition apart_registered : state nat :=
  register_all [reg_a; reg_x; reg_c] boot.

(** clients whose bring-up fails at the firmware download *)
Definition download_fails : Collaborators nat :=
  {| m4sensorhub_401_load_firmware := fun _ o => (-5, o);
     m4sensorhub_load_firmware := fun _ o => (-5, set_mode BOOTMODE o);
     m4sensorhub_irq_init := fun o => (0, o);
     run_initcb := fun f _ o => (0, ran o) |}.

(** the static data before any client is bound *)
Definition unprobed : state nat :=
  {| mem := {| cells := ∅; live := ∅; uaf := [] |};
     inithead := NULL;
     firmware_download_status := -1;
     force_upgrade := 0;
     common := bound_to None;
     trace := [] |}.

End CoreSamples.


(* ===================================================================== *)
(** ** The log level word *)
(* ===================================================================== *)

Module LogLevels.
Import Stdlib.Strings.String.

(** limits of [int] and of [unsigned long long] *)
Definition INT_MAX : Z := 2 ^ 31 - 1.
Definition ULLONG_MAX : Z := 2 ^ 64 - 1.

(** An expression has a value, or none that C defines. *)
Inductive result (A : Type) :=
| Ret (a : A)
| Undefined.
Arguments Ret {A} a.
Arguments Undefined {A}.

(** [a << n] on [int] operands: defined when neither is negative, the
    count is below the width and the result fits. *)
Definition int_shl (a n : Z) : result Z :=
  if (0 <=? a) && (0 <=? n) && (n <? 32) && (Z.shiftl a n <=? INT_MAX)
  then Ret (Z.shiftl a n) else Undefined.

(** [a << n] with an [unsigned long long] left operand: reduced modulo
    2^64, defined when the count is within the width. *)
Definition ull_shl (a n : Z) : result Z :=
  if (0 <=? n) && (n <? 64) then Ret (Z.shiftl a n mod 2 ^ 64)
  else Undefined.

(** [~a] on [unsigned long long] *)
Definition ull_not (a : Z) : Z := ULLONG_MAX - a.

(** One search loop of ParseAndUpdateLogLevels: the index of the first
    entry that strcmp finds equal, counting from [i], or -1. *)
Fixpoint first_match (table : list String.string) (s : String.string)
    (i : Z) : Z :=
  match table with
  | [] => -1
  | entry :: table' =>
      if String.eqb entry s then i else first_match table' s (i + 1)
  end.

(** The two tables are defined outside the files at hand; LOG_LEVELS_MAX
    and LOG_MAX are their lengths. *)
Section Tables.
Variables acLogLevels acLogTags : list String.string.

(** ParseAndUpdateLogLevels, as a function of the word [*logLevels]. *)
Definition ParseAndUpdateLogLevels (tag level : String.string)
    (logLevels : Z) : result Z :=
  let levelindex := first_match acLogLevels level 0 in
  let tagindex := first_match acLogTags tag 0 in
  if (tagindex =? -1) || (levelindex =? -1) then Ret logLevels
  else
    let mask := 0x03 in
    match ull_shl mask (tagindex * 2) with
    | Undefined => Undefined
    | Ret shifted =>
        let logLevels := Z.land logLevels (ull_not shifted) in
        match int_shl levelindex (tagindex * 2) with
        | Undefined => Undefined
        | Ret bits => Ret (Z.lor logLevels bits)
        end
    end.

End Tables.

(** The two bits of the word that belong to a tag index. *)
Definition field (tagindex : Z) (logLevels : Z) : Z :=
  Z.land (Z.shiftr logLevels (tagindex * 2)) 0x03.


(** [s] is at index [k] of the table and nowhere before. *)
Definition first_at (table : list String.string) (s : String.string)
    (k : nat) : Prop :=
  table !! k = Some s /\ forall j : nat, (j < k)%nat -> table !! j <> Some s.

(** The word the two assignments of ParseAndUpdateLogLevels leave for tag
    index [t] and level index [lv]. *)
Definition updated (t lv L : Z) : Z :=
  Z.lor (Z.land L (ull_not (Z.shiftl 3 (t * 2) mod 2 ^ 64)))
    (Z.shiftl lv (t * 2)).

(** Sample tables. *)
Definition sample_levels : list String.string :=
  ["LOG_DISABLE"%string; "LOG_ERROR"%string; "LOG_VERBOSE"%string;
   "LOG_DEBUG"%string].

Definition sample_tags : list String.string :=
  ["LOG_GENERAL"%string; "LOG_TIMER"%string; "LOG_ACCEL"%string;
   "LOG_POWER"%string].

End LogLevels.

(* ===================================================================== *)
(** ** Binding the driver to the hub: probe and remove *)
(* ===================================================================== *)

Module Probe.
Import Board.

(** enum m4sensorhub_debug_level *)
Definition M4SH_ERROR : Z := 2.
Definition M4SH_INFO : Z := 5.

(** The calls m4sensorhub_probe and m4sensorhub_remove make on the rest
    of the kernel and of the driver, with what they returned. *)
Inductive call :=
| CallMiscRegister (ret : Z)
| CallSysfsCreateGroup (ret : Z)
| CallRequestFirmwareNowait (name : option String.string) (ret : Z)
| CallIrqShutdown
| CallRegShutdown
| CallSysfsRemoveGroup
| CallMiscDeregister.

(** The kernel services probe and remove rely on.  [kzalloc] tells
    whether the allocation in m4sensorhub_panic_init succeeds. *)
Class Kernel (World : Type) := {
  kernel_gpiolib :: Gpiolib World;
  i2c_check_functionality : World -> bool;
  misc_register : World -> Z * World;
  sysfs_create_group : World -> Z * World;
  gpio_to_irq : Z -> Z;
  kzalloc : World -> bool * World;
  request_firmware_nowait : option String.string -> World -> Z * World;
  m4sensorhub_irq_shutdown : World -> World;
  m4sensorhub_reg_shutdown : World -> World;
  sysfs_remove_group : World -> World;
  misc_deregister : World -> World
}.

(** The state probe and remove work on.  [board] and [chan] are the
    members of the one static m4sensorhub_misc_data that the board
    functions and the panic functions use; [clientdata] tells whether the
    client's driver data points to that structure (rather than being
    NULL); [client_irq] is client->irq. *)
Record driver (World : Type) := {
  board : Board.m4sensorhub_data;
  chan : Panic.m4sensorhub_data;
  m4sensorhub_debug : Z;
  client_irq : Z;
  clientdata : bool;
  lines : pins World;
  calls : list call
}.
Arguments board {World} _.
Arguments chan {World} _.
Arguments m4sensorhub_debug {World} _.
Arguments client_irq {World} _.
Arguments clientdata {World} _.
Arguments lines {World} _.
Arguments calls {World} _.

Definition set_i2c_client (c : option Z) (m : Board.m4sensorhub_data)
  : Board.m4sensorhub_data :=
  {| i2c_client := c; hwconfig := hwconfig m; filename := filename m |}.

Section Driver.
Context {World : Type} `{Kernel World}.

Definition set_board (m : Board.m4sensorhub_data) (d : driver World)
  : driver World :=
  {| board := m; chan := chan d; m4sensorhub_debug := m4sensorhub_debug d;
     client_irq := client_irq d; clientdata := clientdata d;
     lines := lines d; calls := calls d |}.

Definition set_chan (c : Panic.m4sensorhub_data) (d : driver World)
  : driver World :=
  {| board := board d; chan := c; m4sensorhub_debug := m4sensorhub_debug d;
     client_irq := client_irq d; clientdata := clientdata d;
     lines := lines d; calls := calls d |}.

Definition set_debug (v : Z) (d : driver World) : driver World :=
  {| board := board d; chan := chan d; m4sensorhub_debug := v;
     client_irq := client_irq d; clientdata := clientdata d;
     lines := lines d; calls := calls d |}.

Definition set_client_irq (v : Z) (d : driver World) : driver World :=
  {| board := board d; chan := chan d;
     m4sensorhub_debug := m4sensorhub_debug d;
     client_irq := v; clientdata := clientdata d;
     lines := lines d; calls := calls d |}.

Definition set_clientdata (v : bool) (d : driver World) : driver World :=
  {| board := board d; chan := chan d;
     m4sensorhub_debug := m4sensorhub_debug d;
     client_irq := client_irq d; clientdata := v;
     lines := lines d; calls := calls d |}.

Definition set_lines (p : pins World) (d : driver World) : driver World :=
  {| board := board d; chan := chan d;
     m4sensorhub_debug := m4sensorhub_debug d;
     client_irq := client_irq d; clientdata := clientdata d;
     lines := p; calls := calls d |}.

Definition set_kernel (w : World) (d : driver World) : driver World :=
  set_lines {| world := w; level := level (lines d);
               trace := trace (lines d) |} d.

Definition log (c : call) (d : driver World) : driver World :=
  {| board := board d; chan := chan d;
     m4sensorhub_debug := m4sensorhub_debug d;
     client_irq := client_irq d; clientdata := clientdata d;
     lines := lines d; calls := calls d ++ [c] |}.

(** a kernel call whose return value is used *)
Definition returning (f : World -> Z * World) (c : Z -> call)
    (d : driver World) : Z * driver World :=
  let '(ret, w) := f (world (lines d)) in
  (ret, log (c ret) (set_kernel w d)).

(** a kernel call whose return value, if any, is dropped *)
Definition running (f : World -> World) (c : call) (d : driver World)
  : driver World :=
  log c (set_kernel (f (world (lines d))) d).

(** The labels at the end of m4sensorhub_probe, each falling through to
    the next. *)
Definition err_hw_free (d : driver World) : driver World :=
  let d := set_board (set_i2c_client None (board d)) d in
  let d := set_clientdata false d in
  let '(m, p) := m4sensorhub_hw_free (Some (board d)) (lines d) in
  set_lines p (set_board (default (board d) m) d).

Definition err_deregister (d : driver World) : driver World :=
  err_hw_free (running misc_deregister CallMiscDeregister d).

Definition err_unregister_control_group (d : driver World) : driver World :=
  err_deregister (running sysfs_remove_group CallSysfsRemoveGroup d).

Definition err_reg_shutdown (d : driver World) : driver World :=
  err_unregister_control_group
    (running m4sensorhub_reg_shutdown CallRegShutdown d).

Definition err_panic_shutdown (d : driver World) : driver World :=
  err_reg_shutdown
    (set_chan
       (default (chan d) (Panic.m4sensorhub_panic_shutdown (Some (chan d))))
       d).

(** m4sensorhub_probe.  [client_addr] and [node] are the address and the
    device tree node of the client, [debug_level] is the module parameter
    and [config_debug_fs] tells whether CONFIG_DEBUG_FS is set.  The
    handle is the address of m4sensorhub_misc_data, which is not NULL. *)
Definition m4sensorhub_probe (client_addr : Z) (node : option device_node)
    (debug_level : Z) (config_debug_fs : bool) (d : driver World)
  : result (Z * driver World) :=
  let d :=
    if negb (debug_level =? 0) then set_debug (debug_level mod 256) d
    else if config_debug_fs then set_debug M4SH_INFO d
    else set_debug M4SH_ERROR d in
  let d := set_debug M4SH_INFO d in
  let d := set_chan (Panic.set_mode (chan d) UNINITIALIZED) d in
  if negb (i2c_check_functionality (world (lines d))) then
    Ret (- ENODEV, d)
  else
    let d := set_board (set_i2c_client (Some client_addr) (board d)) d in
    match m4sensorhub_hw_init (Some (board d)) node (lines d) with
    | NullDeref => NullDeref
    | Ret (err, m, p) =>
        let d := set_lines p (set_board m d) in
        if err <? 0 then Ret (err, d)
        else
          let d := set_clientdata true d in
          let '(err, d) := returning misc_register CallMiscRegister d in
          if err <? 0 then Ret (err, err_hw_free d)
          else
            let '(err, d) :=
              returning sysfs_create_group CallSysfsCreateGroup d in
            if err <? 0 then Ret (err, err_deregister d)
            else if negb (0 <=? irq_gpio (hwconfig (board d))) then
              Ret (- ENODEV, err_unregister_control_group d)
            else
              let d :=
                set_client_irq
                  (gpio_to_irq (irq_gpio (hwconfig (board d)))) d in
              let '(ok, w) := kzalloc (world (lines d)) in
              let d := set_kernel w d in
              match Panic.m4sensorhub_panic_init (Some (chan d)) ok with
              | Panic.NullDeref => NullDeref
              | Panic.Ret (err, c) =>
                  let d := set_chan (default (chan d) c) d in
                  if err <? 0 then Ret (err, err_reg_shutdown d)
                  else
                    let '(err, d) :=
                      returning
                        (request_firmware_nowait (filename (board d)))
                        (CallRequestFirmwareNowait (filename (board d)))
                        d in
                    if err <? 0 then Ret (err, err_panic_shutdown d)
                    else Ret (err, d)
              end
    end.

(** m4sensorhub_remove *)
Definition m4sensorhub_remove (d : driver World) : Z * driver World :=
  if negb (clientdata d) then (0, d)
  else
    let d := running m4sensorhub_irq_shutdown CallIrqShutdown d in
    let d :=
      set_chan
        (default (chan d)
           (Panic.m4sensorhub_panic_shutdown (Some (chan d)))) d in
    let d := running m4sensorhub_reg_shutdown CallRegShutdown d in
    let d := running sysfs_remove_group CallSysfsRemoveGroup d in
    let d :=
      set_lines (m4sensorhub_hw_reset (Some (board d)) (lines d)) d in
    let d := running misc_deregister CallMiscDeregister d in
    let d := set_board (set_i2c_client None (board d)) d in
    let d := set_clientdata false d in
    let '(m, p) := m4sensorhub_hw_free (Some (board d)) (lines d) in
    (0, set_lines p (set_board (default (board d) m) d)).

End Driver.

(** Whether the misc device is registered, and whether the sysfs group
    exists, after the calls [t]. *)
Definition misc_device_registered (before : bool) (t : list call) : bool :=
  fold_left (fun b c => match c with
                        | CallMiscRegister ret => negb (ret <? 0)
                        | CallMiscDeregister => false
                        | _ => b
                        end) t before.

Definition sysfs_group_present (before : bool) (t : list call) : bool :=
  fold_left (fun b c => match c with
                        | CallSysfsCreateGroup ret => negb (ret <? 0)
                        | CallSysfsRemoveGroup => false
                        | _ => b
                        end) t before.

(** The GPIO library keeps its contract: gpio_request returns 0 or a
    negative errno. *)
Definition gpio_request_contract {World : Type} `{Gpiolib World} : Prop :=
  forall gpio label w, (gpio_request gpio label w).1 <= 0.

(** Sample kernel: every service succeeds, and the firmware request
    answers [fw_ret]. *)
Definition sample_kernel (fw_ret : Z) : Kernel unit :=
  {| kernel_gpiolib := grudging_gpiolib;
     i2c_check_functionality := fun _ => true;
     misc_register := fun w => (0, w);
     sysfs_create_group := fun w => (0, w);
     gpio_to_irq := fun g => 160 + g;
     kzalloc := fun w => (true, w);
     request_firmware_nowait := fun _ w => (fw_ret, w);
     m4sensorhub_irq_shutdown := fun w => w;
     m4sensorhub_reg_shutdown := fun w => w;
     sysfs_remove_group := fun w => w;
     misc_deregister := fun w => w |}.

(** the zero-initialised static data before the first probe *)
Definition unbound : driver unit :=
  {| board := {| i2c_client := None; hwconfig := unset_config;
                 filename := None |};
     chan := {| Panic.panicdata := None; Panic.mode := UNINITIALIZED;
               Panic.pdev := None |};
     m4sensorhub_debug := 0; client_irq := 0; clientdata := false;
     lines := idle_pins; calls := [] |}.

End Probe.

(* ===================================================================== *)
(** ** Properties of the panic subsystem *)
(* ===================================================================== *)

Module PanicProofs.
Import Panic PanicSpec.

Section Walk.
Context {World : Type} `{Collaborators World}.

(** The walk over the slots that are left, stated on a split of the
    array into the slots already passed and the slots still to visit:
    while nobody touches the registry it makes the calls of
    [recovery_calls] for the populated slots that are left. *)
Lemma panic_walk_recovery pd :
  registry_untouched ->
  forall (rest passed : list m4sensorhub_panic_callback)
         (m : m4sensorhub_data) (e : env World),
    panicdata m = Some pd ->
    funcs pd = passed ++ rest ->
    exists evs m' w',
      recovery_calls
        (List.filter is_populated
           (slots_from (N.of_nat (length passed)) rest)) m (world e)
      = (evs, m', w')
      /\ panic_walk (length rest) (N.of_nat (length passed)) m e
         = (Returned, m',
            {| world := w'; reg_access_locked := reg_access_locked e;
               trace := trace e ++ evs |})
      /\ panicdata m' = Some pd.
Proof.
  intros (_ & _ & Hcb).
  induction rest as [|h rest IH]; intros passed m e Hpd Hsplit.
  - exists [], m, (world e). cbn [length panic_walk slots_from List.filter
                                   recovery_calls].
    rewrite app_nil_r. split; [done|]. split; [by destruct e|done].
  - cbn [length panic_walk slots_from List.filter].
    rewrite Hpd, Nat2N.id.
    assert (Hh : funcs pd !!! length passed = h).
    { rewrite Hsplit. by rewrite list_lookup_total_middle. }
    rewrite Hh.
    assert (Hnext : (N.of_nat (length passed) + 1)%N
                    = N.of_nat (length (passed ++ [h]))).
    { rewrite length_app. simpl. lia. }
    rewrite Hnext.
    unfold is_populated at 1. cbn [snd].
    destruct (callback h =? NULL) eqn:Hnull; cbn [negb].
    + apply (IH (passed ++ [h])); [done|by rewrite <- app_assoc].
    + cbn [recovery_calls fst snd]. unfold call_handler.
      cbn [emit world].
      pose proof (Hcb (callback h) m (data h) (world e)) as Hkeep.
      destruct (run_panic_callback (callback h) m (data h) (world e))
        as [m1 w1].
      cbn [fst] in Hkeep. rewrite Hpd in Hkeep.
      destruct (IH (passed ++ [h]) m1
                  (on_world (fun _ => w1)
                     (emit (EvPanicCallback (N.of_nat (length passed)) m h)
                        e)))
        as (evs & m' & w' & Hspec & Hwalk & Hpd');
        [done|by rewrite <- app_assoc|].
      cbn [on_world emit world] in Hspec. rewrite Hspec.
      eexists _, m', w'. split; [reflexivity|].
      cbv beta iota. rewrite Hwalk.
      cbn [on_world emit world reg_access_locked trace].
      split; [by rewrite <- app_assoc|done].
Qed.

(** What [recovery_calls] reports: one call per slot, in order. *)
Lemma called_slots_recovery slots :
  forall m (w : World),
    called_slots (fst (fst (recovery_calls slots m w))) = slots
    /\ forallb (fun ev => match ev with
                          | EvPanicCallback _ _ _ => true
                          | _ => false
                          end) (fst (fst (recovery_calls slots m w))) = true.
Proof.
  induction slots as [|[i h] slots IH]; intros m w; [done|].
  cbn [recovery_calls fst snd].
  destruct (run_panic_callback (callback h) m (data h) w) as [m1 w1].
  specialize (IH m1 w1).
  destruct (recovery_calls slots m1 w1) as [[evs m2] w2].
  cbn [fst] in *. destruct IH as [IH1 IH2].
  split; [|done]. cbn [called_slots flat_map app]. f_equal. exact IH1.
Qed.

Lemma calls_of_slot_called i t :
  calls_of_slot i t
  = length (List.filter (fun ih => (fst ih =? i)%N) (called_slots t)).
Proof.
  unfold calls_of_slot, called_slots.
  induction t as [|ev t IH]; [done|].
  cbn [List.filter flat_map].
  rewrite List.filter_app, length_app, <- IH.
  destruct ev; try done. cbn [List.filter fst app].
  by destruct (i0 =? i)%N.
Qed.

(** The last call of a walk is the call of the last slot. *)
Lemma last_recovery slots :
  forall m (w : World) i h,
    last slots = Some (i, h) ->
    exists mlast,
      last (fst (fst (recovery_calls slots m w)))
      = Some (EvPanicCallback i mlast h).
Proof.
  induction slots as [|[j g] slots IH]; intros m w i h Hlast; [done|].
  cbn [recovery_calls fst snd].
  destruct (run_panic_callback (callback g) m (data g) w) as [m1 w1].
  specialize (IH m1 w1 i h).
  destruct (recovery_calls slots m1 w1) as [[evs m2] w2] eqn:Hrec.
  cbn [fst] in *.
  destruct slots as [|y slots].
  - cbn in Hlast. injection Hlast as -> ->.
    cbn in Hrec. injection Hrec as <- _ _. by exists m.
  - destruct (IH Hlast) as [mlast Hl]. exists mlast.
    destruct evs as [|ev evs]; [done|]. exact Hl.
Qed.

End Walk.

(** Indices handed out by [slots_from] start at the first one and go
    up. *)
Lemma slots_from_bound fs :
  forall i j h, (j, h) ∈ slots_from i fs -> (i <= j)%N.
Proof.
  induction fs as [|x fs IH]; intros i j h Hin; simpl in Hin.
  - by apply elem_of_nil in Hin.
  - apply elem_of_cons in Hin as [Heq|Hin].
    + inversion Heq. lia.
    + apply IH in Hin. lia.
Qed.

Lemma slots_from_sorted fs :
  forall i, StronglySorted N.lt (map fst (slots_from i fs)).
Proof.
  induction fs as [|x fs IH]; intros i; simpl; constructor.
  - apply IH.
  - apply Forall_forall. intros j Hj.
    apply list_elem_of_fmap in Hj as [[j' h] [-> Hin]].
    apply slots_from_bound in Hin. simpl. lia.
Qed.

Lemma filter_sorted (f : N * m4sensorhub_panic_callback -> bool) l :
  StronglySorted N.lt (map fst l) ->
  StronglySorted N.lt (map fst (List.filter f l)).
Proof.
  induction l as [|x l IH]; simpl; intros Hs; [constructor|].
  inversion Hs as [|? ? Hs' Hall]; subst.
  destruct (f x); simpl; [|by apply IH].
  constructor; [by apply IH|].
  apply Forall_forall. intros j Hj.
  rewrite Forall_forall in Hall. apply Hall.
  apply list_elem_of_fmap in Hj as [y [-> Hin]].
  apply list_elem_of_fmap. exists y. split; [done|].
  apply list_elem_of_In. apply list_elem_of_In in Hin.
  apply List.filter_In in Hin. tauto.
Qed.

Lemma populated_slots_sorted pd :
  StronglySorted N.lt (map fst (populated_slots pd)).
Proof. apply filter_sorted, slots_from_sorted. Qed.

Lemma slots_from_lookup fs :
  forall i j h,
    (j, h) ∈ slots_from i fs <->
    (i <= j)%N /\ fs !! (N.to_nat (j - i)) = Some h.
Proof.
  induction fs as [|x fs IH]; intros i j h; simpl.
  - split; [intros Hin; by apply elem_of_nil in Hin|intros [_ Hl]; done].
  - rewrite elem_of_cons, IH. split.
    + intros [Heq|[Hle Hl]].
      * inversion Heq; subst. split; [lia|].
        by replace (N.to_nat (i - i)) with O by lia.
      * split; [lia|].
        replace (N.to_nat (j - i)) with (S (N.to_nat (j - (i + 1)))) by lia.
        done.
    + intros [Hle Hl].
      destruct (decide (j = i)) as [->|Hne].
      * left. replace (N.to_nat (i - i)) with O in Hl by lia.
        simpl in Hl. by inversion Hl.
      * right. split; [lia|].
        replace (N.to_nat (j - i)) with (S (N.to_nat (j - (i + 1)))) in Hl
          by lia.
        done.
Qed.

(** A slot is among the populated ones exactly when the array holds a
    non-NULL callback at its index. *)
Lemma populated_slots_spec pd j h :
  (j, h) ∈ populated_slots pd <->
  funcs pd !! N.to_nat j = Some h /\ callback h <> NULL.
Proof.
  unfold populated_slots.
  rewrite list_elem_of_In, List.filter_In, <- list_elem_of_In.
  rewrite slots_from_lookup. unfold is_populated. cbn [snd].
  rewrite N.sub_0_r, negb_true_iff, Z.eqb_neq.
  split; [tauto|]. intros [? ?]. split; [split; [lia|done]|done].
Qed.

(** In a list with ascending indices, an index occurs at most once. *)
Lemma count_absent i (l : list (N * m4sensorhub_panic_callback)) :
  Forall (fun j => (i < j)%N) (map fst l) ->
  length (List.filter (fun ih => (fst ih =? i)%N) l) = O.
Proof.
  induction l as [|[j h] l IH]; [done|].
  cbn [map fst]. intros Hall. inversion Hall; subst.
  cbn [List.filter fst].
  destruct (j =? i)%N eqn:E; [apply N.eqb_eq in E; lia|by apply IH].
Qed.

Lemma count_sorted_member i h (l : list (N * m4sensorhub_panic_callback)) :
  StronglySorted N.lt (map fst l) ->
  (i, h) ∈ l ->
  length (List.filter (fun ih => (fst ih =? i)%N) l) = 1%nat.
Proof.
  induction l as [|[j g] l IH]; intros Hs Hin.
  - by apply elem_of_nil in Hin.
  - cbn [map fst] in Hs. inversion Hs as [|? ? Hs' Hall]; subst.
    cbn [List.filter fst].
    apply elem_of_cons in Hin as [Heq|Hin].
    + inversion Heq; subst. rewrite N.eqb_refl. simpl.
      by rewrite count_absent.
    + destruct (j =? i)%N eqn:E.
      * apply N.eqb_eq in E; subst.
        rewrite Forall_forall in Hall.
        assert (i < i)%N; [|lia].
        apply Hall. apply list_elem_of_fmap. by exists (i, h).
      * by apply IH.
Qed.


Lemma last_of_sorted i h (l : list (N * m4sensorhub_panic_callback)) :
  StronglySorted N.lt (map fst l) ->
  (i, h) ∈ l ->
  (forall j g, (j, g) ∈ l -> (j <= i)%N) ->
  last l = Some (i, h).
Proof.
  induction l as [|[j g] l IH]; intros Hs Hin Hmax.
  - by apply elem_of_nil in Hin.
  - cbn [map fst] in Hs. inversion Hs as [|? ? Hs' Hall]; subst.
    destruct l as [|y l].
    + apply elem_of_cons in Hin as [Heq|Hin]; [by inversion Heq|].
      by apply elem_of_nil in Hin.
    + change (last ((j, g) :: y :: l)) with (last (y :: l)).
      apply IH; [done| |].
      * apply elem_of_cons in Hin as [Heq|Hin]; [|done].
        inversion Heq; subst.
        rewrite Forall_forall in Hall.
        assert (j < fst y)%N.
        { apply Hall. cbn [map]. apply list_elem_of_here. }
        assert (fst y <= j)%N; [|lia].
        destruct y as [k g']. apply (Hmax k g'). cbn [fst].
        apply list_elem_of_further, list_elem_of_here.
      * intros k g' Hk. apply (Hmax k g'). by apply list_elem_of_further.
Qed.

(** A confirmed panic followed by a successful reload, with the reset
    hook set and nobody touching the registry. *)
Lemma panic_process_confirmed
    {World : Type} (C : Collaborators World)
    (m m1 m2 : m4sensorhub_data) (pd : m4sensorhub_panicdata)
    (board : m4sensorhub_platform_data) (e : env World)
    (buf : panic_buf) (w1 w2 w3 : World) (fw : Z) :
  panicdata m = Some pd ->
  well_formed pd ->
  pdev m = Some board ->
  hw_reset board <> NULL ->
  registry_untouched ->
  m4sensorhub_i2c_write_read [PANIC_BANK; PANIC_CMD_CHECK]
    sizeof_buf_in sizeof_buf_data (world e) = (sizeof_buf_data, buf, w1) ->
  buf_data buf = PANIC_RESP_CHECK ->
  call_hw_reset (hw_reset board) m w1 = (m1, w2) ->
  m4sensorhub_load_firmware m1 0 w2 = (fw, m2, w3) ->
  0 <= fw ->
  exists evs m' w',
    recovery_calls (populated_slots pd) m2 w3 = (evs, m', w')
    /\ m4sensorhub_panic_process (Some m) e
       = (Returned, Some m',
          {| world := w'; reg_access_locked := false;
             trace := trace e ++ check_events
                      ++ reset_events (hw_reset board)
                      ++ [EvRegAccessUnlock] ++ evs |})
    /\ called_slots evs = populated_slots pd
    /\ panicdata m' = Some pd.
Proof.
  intros Hpd Hwf Hboard Hhook Hkeep Hi2c Hmagic Hreset Hfw Hok.
  pose proof Hkeep as (Hk1 & Hk2 & _).
  assert (Hpd2 : panicdata m2 = Some pd).
  { specialize (Hk1 (hw_reset board) m w1). rewrite Hreset in Hk1.
    specialize (Hk2 m1 0 w2). rewrite Hfw in Hk2. cbn [fst snd] in Hk1, Hk2.
    by rewrite Hk2, Hk1. }
  unfold m4sensorhub_panic_process. rewrite Hpd.
  cbn [m4sensorhub_reg_access_lock emit world]. rewrite Hi2c.
  rewrite Z.eqb_refl, Hmagic, Z.eqb_refl. cbn [negb orb on_world world emit].
  rewrite Hboard. apply Z.eqb_neq in Hhook as Hhook'. rewrite Hhook'.
  rewrite Hreset. cbn [world]. rewrite Hfw.
  assert (Hneg : (fw <? 0) = false) by (apply Z.ltb_ge; lia).
  rewrite Hneg.
  match goal with
  | |- context [panic_walk _ _ m2 ?E] =>
      destruct (panic_walk_recovery pd Hkeep (funcs pd) [] m2 E Hpd2 eq_refl)
        as (evs & m' & w' & Hspec & Hwalk & Hpd')
  end.
  rewrite <- Hwf. cbn [length] in Hwalk, Hspec.
  change (N.of_nat 0) with 0%N in Hwalk, Hspec. rewrite Hwalk.
  unfold m4sensorhub_reg_access_unlock, m4sensorhub_reg_access_lock,
    on_world, emit in Hspec |- *.
  cbn [world reg_access_locked trace] in Hspec |- *.
  fold (populated_slots pd) in Hspec.
  exists evs, m', w'. split; [exact Hspec|].
  split.
  { unfold check_events, reset_events. by rewrite <- !app_assoc. }
  pose proof (called_slots_recovery (populated_slots pd) m2 w3) as [Hcalled _].
  rewrite Hspec in Hcalled. cbn [fst] in Hcalled. by split.
Qed.

(** C1 (amended).  For every panic registry, when the board's reset hook
    is set, the panic check reads four bytes equal to 0xDeadBeef, the
    firmware reload then returns a non-negative result, and neither the
    hook, the loader nor a recovery callback touches the registry,
    m4sensorhub_panic_process takes the register access lock, checks,
    resets the hub, sleeps, reloads the firmware, releases the lock and
    then calls the populated slots, each exactly once, by ascending index,
    with the handle as the previous step left it and the context stored in
    the slot; empty slots are not called, and a populated irq-restore slot
    is the last one called. *)
Theorem panic_process_recovery_order
    {World : Type} (C : Collaborators World)
    (m m1 m2 : m4sensorhub_data) (pd : m4sensorhub_panicdata)
    (board : m4sensorhub_platform_data) (e : env World)
    (buf : panic_buf) (w1 w2 w3 : World) (fw : Z) :
  panicdata m = Some pd ->
  well_formed pd ->
  pdev m = Some board ->
  hw_reset board <> NULL ->
  registry_untouched ->
  m4sensorhub_i2c_write_read [PANIC_BANK; PANIC_CMD_CHECK]
    sizeof_buf_in sizeof_buf_data (world e) = (sizeof_buf_data, buf, w1) ->
  buf_data buf = PANIC_RESP_CHECK ->
  call_hw_reset (hw_reset board) m w1 = (m1, w2) ->
  m4sensorhub_load_firmware m1 0 w2 = (fw, m2, w3) ->
  0 <= fw ->
  exists evs m' w',
    recovery_calls (populated_slots pd) m2 w3 = (evs, m', w')
    /\ m4sensorhub_panic_process (Some m) e
       = (Returned, Some m',
          {| world := w'; reg_access_locked := false;
             trace := trace e ++ check_events
                      ++ reset_events (hw_reset board)
                      ++ [EvRegAccessUnlock] ++ evs |})
    /\ called_slots evs = populated_slots pd
    /\ StronglySorted N.lt (map fst (populated_slots pd))
    /\ (forall i h,
          funcs pd !! N.to_nat i = Some h ->
          calls_of_slot i evs
          = (if (callback h =? NULL)%Z then 0 else 1)%nat)
    /\ (forall h,
          funcs pd !! N.to_nat PANICHDL_IRQ_RESTORE = Some h ->
          callback h <> NULL ->
          exists mlast,
            last evs = Some (EvPanicCallback PANICHDL_IRQ_RESTORE mlast h)).
Proof.
  intros Hpd Hwf Hboard Hhook Hkeep Hi2c Hmagic Hreset Hfw Hok.
  destruct (panic_process_confirmed C m m1 m2 pd board e buf w1 w2 w3 fw
              Hpd Hwf Hboard Hhook Hkeep Hi2c Hmagic Hreset Hfw Hok)
    as (evs & m' & w' & Hspec & Hrun & Hcalled & _).
  exists evs, m', w'. split; [exact Hspec|]. split; [exact Hrun|].
  split; [exact Hcalled|].
  split; [apply populated_slots_sorted|].
  split.
  - intros i h Hih. rewrite calls_of_slot_called, Hcalled.
    destruct (callback h =? NULL) eqn:Hcb.
    + apply Z.eqb_eq in Hcb.
      assert (Hnone : forall g, (i, g) ∉ populated_slots pd).
      { intros g Hin. apply populated_slots_spec in Hin as [Hl Hne].
        rewrite Hih in Hl. inversion Hl; subst. done. }
      pose proof (populated_slots_sorted pd) as Hs.
      revert Hnone Hs. generalize (populated_slots pd) as l.
      induction l as [|[j g] l IH]; intros Hnone Hs; [done|].
      cbn [List.filter fst]. destruct (j =? i)%N eqn:E.
      * apply N.eqb_eq in E; subst. exfalso. apply (Hnone g).
        apply list_elem_of_here.
      * apply IH.
        -- intros g' Hin. apply (Hnone g'). by apply list_elem_of_further.
        -- cbn [map fst] in Hs. by inversion Hs.
    + apply Z.eqb_neq in Hcb.
      apply (count_sorted_member i h); [apply populated_slots_sorted|].
      by apply populated_slots_spec.
  - intros h Hih Hne.
    destruct (last_recovery (populated_slots pd) m2 w3
                PANICHDL_IRQ_RESTORE h) as [mlast Hlast].
    + apply last_of_sorted; [apply populated_slots_sorted| |].
      * by apply populated_slots_spec.
      * intros j g Hin. apply populated_slots_spec in Hin as [Hl _].
        apply lookup_lt_Some in Hl. rewrite Hwf in Hl.
        unfold PANICHDL_MAX, PANICHDL_IRQ_RESTORE in *. lia.
    + exists mlast. by rewrite Hspec in Hlast.
Qed.

Lemma sample_hubs_leave_registry :
  @registry_untouched _ panicked_hub /\ @registry_untouched _ bricked_hub.
Proof. by repeat split. Defined.

Lemma panic_process_recovery_order_witness :
  panicdata (hub_with (Some full_registry)) = Some full_registry
  /\ well_formed full_registry
  /\ buf_data magic_buf = PANIC_RESP_CHECK
  /\ @m4sensorhub_panic_process _ panicked_hub
       (Some (hub_with (Some full_registry))) idle
     = (Returned, Some (hub_with (Some full_registry)),
        {| world := [(0x1000, 0x2000); (0x3000, 0x4000)];
           reg_access_locked := false;
           trace := check_events ++ reset_events 0x9000
                    ++ [EvRegAccessUnlock]
                    ++ [EvPanicCallback 0 (hub_with (Some full_registry))
                          display_handler;
                        EvPanicCallback 1 (hub_with (Some full_registry))
                          irq_handler] |}).
Proof.
  split; [reflexivity|]. split; [reflexivity|]. split; [reflexivity|].
  destruct (panic_process_recovery_order panicked_hub
              (hub_with (Some full_registry))
              (hub_with (Some full_registry))
              (hub_with (Some full_registry)) full_registry sample_pdev idle
              magic_buf [] [] [] 0)
    as (evs & m' & w' & Hspec & Hrun & _).
  - reflexivity.
  - reflexivity.
  - reflexivity.
  - discriminate.
  - exact (proj1 sample_hubs_leave_registry).
  - reflexivity.
  - reflexivity.
  - reflexivity.
  - reflexivity.
  - discriminate.
  - rewrite Hrun. injection Hspec as <- <- <-. reflexivity.
Defined.

(** C1 as stated fails when the reload is refused: the reset hook is set,
    the hub answers the check with the magic value, both slots are
    populated, and the run stops in BUG() after the reload without calling
    either of them. *)
Lemma panic_process_reload_refused_no_callbacks :
  pdev (hub_with (Some full_registry)) = Some sample_pdev
  /\ hw_reset sample_pdev <> NULL
  /\ @m4sensorhub_i2c_write_read _ bricked_hub [PANIC_BANK; PANIC_CMD_CHECK]
       sizeof_buf_in sizeof_buf_data (world idle)
     = (4, magic_buf, [])
  /\ buf_data magic_buf = PANIC_RESP_CHECK
  /\ populated_slots full_registry
     = [(PANICHDL_DISPLAY_RESTORE, display_handler);
        (PANICHDL_IRQ_RESTORE, irq_handler)]
  /\ @m4sensorhub_panic_process _ bricked_hub
       (Some (hub_with (Some full_registry))) idle
     = (Bugged, Some (hub_with (Some full_registry)),
        {| world := []; reg_access_locked := true;
           trace := check_events ++ reset_events 0x9000 |})
  /\ called_slots (check_events ++ reset_events 0x9000) = [].
Proof. repeat split; try reflexivity. discriminate. Qed.

(** C2.  When the panic check returns a byte count other than 4, or four
    bytes that differ from 0xDeadBeef, m4sensorhub_panic_process releases
    the register access lock and returns: the only events are the lock,
    the check and the unlock (no reset, no reload, no callback), and the
    channel mode and the registry are what they were. *)
Theorem panic_process_false_alarm
    {World : Type} (C : Collaborators World)
    (m : m4sensorhub_data) (pd : m4sensorhub_panicdata) (e : env World)
    (ret : Z) (buf : panic_buf) (w1 : World) :
  panicdata m = Some pd ->
  m4sensorhub_i2c_write_read [PANIC_BANK; PANIC_CMD_CHECK]
    sizeof_buf_in sizeof_buf_data (world e) = (ret, buf, w1) ->
  ret <> 4 \/ buf_data buf <> PANIC_RESP_CHECK ->
  m4sensorhub_panic_process (Some m) e
  = (Returned, Some m,
     {| world := w1; reg_access_locked := false;
        trace := trace e ++ check_events ++ [EvRegAccessUnlock] |}).
Proof.
  intros Hpd Hi2c Hbad.
  unfold m4sensorhub_panic_process. rewrite Hpd.
  cbn [m4sensorhub_reg_access_lock emit world]. rewrite Hi2c.
  assert (Hcond : negb (ret =? sizeof_buf_data)
                  || negb (buf_data buf =? PANIC_RESP_CHECK) = true).
  { apply orb_true_iff. rewrite !negb_true_iff, !Z.eqb_neq. exact Hbad. }
  rewrite Hcond.
  unfold m4sensorhub_reg_access_unlock, m4sensorhub_reg_access_lock,
    on_world, emit.
  cbn [world trace reg_access_locked].
  unfold check_events. by rewrite <- !app_assoc.
Qed.

Lemma panic_process_false_alarm_witness :
  (4 <> 4 \/ buf_data quiet_buf <> PANIC_RESP_CHECK)
  /\ @m4sensorhub_panic_process _ healthy_hub
       (Some (hub_with (Some full_registry))) idle
     = (Returned, Some (hub_with (Some full_registry)),
        {| world := []; reg_access_locked := false;
           trace := check_events ++ [EvRegAccessUnlock] |}).
Proof.
  split; [right; discriminate|].
  apply (panic_process_false_alarm healthy_hub
           (hub_with (Some full_registry)) full_registry idle
           4 quiet_buf []).
  - reflexivity.
  - reflexivity.
  - right. discriminate.
Defined.

(** C3.  When the panic is confirmed, the board's reset hook is set and
    the firmware reload returns a negative result, m4sensorhub_panic_process
    stops in BUG(): the hook and the reload were each run once, no
    recovery callback was called, the register access lock is still held,
    and the function does not return. *)
Theorem panic_process_reload_failure_fatal
    {World : Type} (C : Collaborators World)
    (m m1 m2 : m4sensorhub_data) (pd : m4sensorhub_panicdata)
    (board : m4sensorhub_platform_data) (e : env World)
    (buf : panic_buf) (w1 w2 w3 : World) (fw : Z) :
  panicdata m = Some pd ->
  pdev m = Some board ->
  hw_reset board <> NULL ->
  m4sensorhub_i2c_write_read [PANIC_BANK; PANIC_CMD_CHECK]
    sizeof_buf_in sizeof_buf_data (world e) = (sizeof_buf_data, buf, w1) ->
  buf_data buf = PANIC_RESP_CHECK ->
  call_hw_reset (hw_reset board) m w1 = (m1, w2) ->
  m4sensorhub_load_firmware m1 0 w2 = (fw, m2, w3) ->
  fw < 0 ->
  m4sensorhub_panic_process (Some m) e
  = (Bugged, Some m2,
     {| world := w3; reg_access_locked := true;
        trace := trace e ++ check_events
                 ++ reset_events (hw_reset board) |})
  /\ called_slots (check_events ++ reset_events (hw_reset board)) = [].
Proof.
  intros Hpd Hboard Hhook Hi2c Hmagic Hreset Hfw Hneg.
  split; [|reflexivity].
  unfold m4sensorhub_panic_process. rewrite Hpd.
  cbn [m4sensorhub_reg_access_lock emit world]. rewrite Hi2c.
  rewrite Z.eqb_refl, Hmagic, Z.eqb_refl. cbn [negb orb on_world world emit].
  rewrite Hboard. apply Z.eqb_neq in Hhook. rewrite Hhook.
  rewrite Hreset. cbn [world]. rewrite Hfw.
  apply Z.ltb_lt in Hneg. rewrite Hneg.
  unfold m4sensorhub_reg_access_lock, on_world, emit.
  cbn [world trace reg_access_locked].
  unfold check_events, reset_events. by rewrite <- ?app_assoc.
Qed.

Lemma panic_process_reload_failure_fatal_witness :
  -5 < 0
  /\ @m4sensorhub_panic_process _ bricked_hub
       (Some (hub_with (Some full_registry))) idle
     = (Bugged, Some (hub_with (Some full_registry)),
        {| world := []; reg_access_locked := true;
           trace := check_events ++ reset_events 0x9000 |}).
Proof.
  split; [reflexivity|].
  apply (panic_process_reload_failure_fatal bricked_hub
           (hub_with (Some full_registry)) (hub_with (Some full_registry))
           (hub_with (Some full_registry)) full_registry sample_pdev idle
           magic_buf [] [] [] (-5)); try reflexivity. discriminate.
Defined.


Lemma valid_index_lt_length pd (index : N) :
  well_formed pd -> (index < PANICHDL_MAX)%N ->
  (N.to_nat index < length (funcs pd))%nat.
Proof. intros Hwf Hlt. rewrite Hwf. lia. Qed.

Lemma well_formed_insert pd i h :
  well_formed pd -> well_formed (set_funcs pd (<[i := h]> (funcs pd))).
Proof. unfold well_formed. cbn [set_funcs funcs]. by rewrite length_insert. Qed.

(** C5.  For a valid index and a non-NULL callback, registering on an
    occupied slot returns -EPERM and leaves the structure as it was;
    registering on an empty slot returns 0, and the structure returned
    then holds the callback and its context in that slot, every other
    slot, the lock, the mode and the platform data being what they were;
    a further registration on that slot is refused in turn. *)
Theorem panic_register_never_overwrites
    (m : m4sensorhub_data) (pd : m4sensorhub_panicdata)
    (index : N) (cb_func : fnptr) (cb_data : ptr) :
  panicdata m = Some pd ->
  well_formed pd ->
  (index < PANICHDL_MAX)%N ->
  cb_func <> NULL ->
  (callback (funcs pd !!! N.to_nat index) <> NULL ->
     m4sensorhub_panic_register (Some m) index cb_func cb_data
     = Ret (- EPERM, Some m)
     /\ - EPERM < 0)
  /\ (callback (funcs pd !!! N.to_nat index) = NULL ->
      exists m' pd',
        m4sensorhub_panic_register (Some m) index cb_func cb_data
        = Ret (0, Some m')
        /\ panicdata m' = Some pd'
        /\ mode m' = mode m
        /\ pdev m' = pdev m
        /\ funcs pd' !! N.to_nat index
           = Some {| callback := cb_func; data := cb_data |}
        /\ (forall j, j <> N.to_nat index ->
              funcs pd' !! j = funcs pd !! j)
        /\ lock pd' = lock pd
        /\ well_formed pd'
        /\ (forall f d,
              f <> NULL ->
              m4sensorhub_panic_register (Some m') index f d
              = Ret (- EPERM, Some m'))).
Proof.
  intros Hpd Hwf Hidx Hcb.
  assert (Hguard : (PANICHDL_MAX <=? index)%N || (cb_func =? NULL) = false).
  { apply orb_false_iff. split; [apply N.leb_gt; lia|by apply Z.eqb_neq]. }
  pose proof (valid_index_lt_length pd index Hwf Hidx) as Hlt.
  split; intros Hslot; unfold m4sensorhub_panic_register;
    rewrite Hguard, Hpd; cbn zeta.
  - apply Z.eqb_neq in Hslot. rewrite Hslot. split; [done|]. reflexivity.
  - rewrite Hslot, Z.eqb_refl.
    eexists _, _. split; [reflexivity|].
    cbn [set_panicdata panicdata mode pdev set_funcs funcs lock].
    split; [reflexivity|]. split; [done|]. split; [done|].
    split; [by apply list_lookup_insert_eq|].
    split; [intros j Hj; by apply list_lookup_insert_ne|].
    split; [done|].
    split; [by apply (well_formed_insert pd)|].
    intros f d Hf.
    assert (Hguard' : (PANICHDL_MAX <=? index)%N || (f =? NULL) = false).
    { apply orb_false_iff. split; [apply N.leb_gt; lia|by apply Z.eqb_neq]. }
    rewrite Hguard'. cbn [funcs].
    rewrite list_lookup_total_insert_eq by done. cbn [callback].
    apply Z.eqb_neq in Hcb. by rewrite Hcb.
Qed.

Lemma panic_register_never_overwrites_witness :
  (PANICHDL_IRQ_RESTORE < PANICHDL_MAX)%N
  /\ m4sensorhub_panic_register (Some (hub_with (Some full_registry)))
       PANICHDL_IRQ_RESTORE 0x5000 0x6000
     = Ret (- EPERM, Some (hub_with (Some full_registry)))
  /\ exists m',
       m4sensorhub_panic_register (Some (hub_with (Some empty_registry)))
         PANICHDL_IRQ_RESTORE 0x5000 0x6000
       = Ret (0, Some m')
       /\ panicdata m'
          = Some {| lock := false;
                    funcs := [no_handler;
                              {| callback := 0x5000; data := 0x6000 |}] |}
       /\ m4sensorhub_panic_register (Some m') PANICHDL_IRQ_RESTORE
            0x7000 0x8000
          = Ret (- EPERM, Some m').
Proof.
  split; [reflexivity|]. split.
  - destruct (panic_register_never_overwrites
                (hub_with (Some full_registry)) full_registry
                PANICHDL_IRQ_RESTORE 0x5000 0x6000) as [Hocc _].
    + reflexivity.
    + reflexivity.
    + reflexivity.
    + discriminate.
    + apply Hocc. discriminate.
  - destruct (panic_register_never_overwrites
                (hub_with (Some empty_registry)) empty_registry
                PANICHDL_IRQ_RESTORE 0x5000 0x6000) as [_ Hempty].
    + reflexivity.
    + reflexivity.
    + reflexivity.
    + discriminate.
    + destruct (Hempty eq_refl)
        as (m' & pd' & Hreg & _ & _ & _ & _ & _ & _ & _ & Hagain).
      exists m'. split; [exact Hreg|].
      split; [|apply Hagain; discriminate].
      assert (Hc :
        m4sensorhub_panic_register (Some (hub_with (Some empty_registry)))
          PANICHDL_IRQ_RESTORE 0x5000 0x6000
        = Ret (0, Some (hub_with
                          (Some {| lock := false;
                                   funcs := [no_handler;
                                             {| callback := 0x5000;
                                                data := 0x6000 |}] |}))))
        by reflexivity.
      rewrite Hc in Hreg. injection Hreg as <-. reflexivity.
Defined.

(** C8.  For a valid index, m4sensorhub_panic_unregister returns 0 and
    leaves the slot empty whether or not it was occupied, touching no
    other slot; unregistering again changes nothing more; and a
    registration of a non-NULL callback on that index right afterwards
    returns 0 and stores the callback. *)
Theorem panic_unregister_idempotent_then_register
    (m : m4sensorhub_data) (pd : m4sensorhub_panicdata) (index : N) :
  panicdata m = Some pd ->
  well_formed pd ->
  (index < PANICHDL_MAX)%N ->
  exists pd1,
    m4sensorhub_panic_unregister (Some m) index
    = Ret (0, Some (set_panicdata m (Some pd1)))
    /\ funcs pd1 !! N.to_nat index = Some no_handler
    /\ (forall j, j <> N.to_nat index -> funcs pd1 !! j = funcs pd !! j)
    /\ m4sensorhub_panic_unregister (Some (set_panicdata m (Some pd1))) index
       = Ret (0, Some (set_panicdata m (Some pd1)))
    /\ (forall cb_func cb_data,
          cb_func <> NULL ->
          exists pd2,
            m4sensorhub_panic_register (Some (set_panicdata m (Some pd1)))
              index cb_func cb_data
            = Ret (0, Some (set_panicdata m (Some pd2)))
            /\ funcs pd2 !! N.to_nat index
               = Some {| callback := cb_func; data := cb_data |}).
Proof.
  intros Hpd Hwf Hidx.
  assert (Hguard : (PANICHDL_MAX <=? index)%N = false)
    by (apply N.leb_gt; lia).
  pose proof (valid_index_lt_length pd index Hwf Hidx) as Hlt.
  exists (set_funcs pd (<[N.to_nat index := no_handler]> (funcs pd))).
  split; [|split; [|split; [|split]]].
  - unfold m4sensorhub_panic_unregister. by rewrite Hguard, Hpd.
  - cbn [set_funcs funcs]. by apply list_lookup_insert_eq.
  - intros j Hj. cbn [set_funcs funcs]. by apply list_lookup_insert_ne.
  - unfold m4sensorhub_panic_unregister. rewrite Hguard.
    cbn [set_panicdata panicdata mode set_funcs funcs lock].
    by rewrite list_insert_insert_eq.
  - intros cb_func cb_data Hcb.
    unfold m4sensorhub_panic_register. rewrite Hguard.
    apply Z.eqb_neq in Hcb. rewrite Hcb.
    cbn [orb set_panicdata panicdata mode set_funcs funcs lock].
    rewrite list_lookup_total_insert_eq by done.
    cbn [no_handler callback]. rewrite Z.eqb_refl.
    eexists. split; [reflexivity|].
    cbn [set_funcs funcs]. apply list_lookup_insert_eq.
    by rewrite length_insert.
Qed.

Lemma panic_unregister_idempotent_then_register_witness :
  well_formed full_registry
  /\ exists pd1,
       m4sensorhub_panic_unregister (Some (hub_with (Some full_registry)))
         PANICHDL_DISPLAY_RESTORE
       = Ret (0, Some (hub_with (Some pd1)))
       /\ funcs pd1 !! 0%nat = Some no_handler.
Proof.
  split; [reflexivity|].
  destruct (panic_unregister_idempotent_then_register
              (hub_with (Some full_registry)) full_registry
              PANICHDL_DISPLAY_RESTORE)
    as (pd1 & Hret & Hslot & _).
  - reflexivity.
  - reflexivity.
  - reflexivity.
  - exists pd1. split; [exact Hret|exact Hslot].
Defined.

(** C9.  m4sensorhub_panic_register and m4sensorhub_panic_unregister
    reject a NULL handle, an index out of range and (register) a NULL
    callback with -EINVAL, but go through panicdata without testing it:
    with panicdata NULL and arguments that pass the tests they dereference
    a NULL pointer.  A successful m4sensorhub_panic_init makes panicdata
    non-NULL, register and unregister keep it so and m4sensorhub_panic_shutdown
    makes it NULL; while it is non-NULL neither of them dereferences NULL.
    m4sensorhub_panic_process tests panicdata and returns without any
    action when it is NULL. *)
Theorem panic_registry_unchecked_panicdata
    {World : Type} (C : Collaborators World)
    (m0 m1 : m4sensorhub_data) (index : N) (cb_func : fnptr) (cb_data : ptr)
    (e : env World) :
  panicdata m0 = None ->
  is_Some (panicdata m1) ->
  (index < PANICHDL_MAX)%N ->
  cb_func <> NULL ->
  (* the tests that are made *)
  (forall i f d, m4sensorhub_panic_register None i f d = Ret (- EINVAL, None))
  /\ (forall m i f d, (PANICHDL_MAX <= i)%N ->
        m4sensorhub_panic_register (Some m) i f d = Ret (- EINVAL, Some m))
  /\ (forall m i d,
        m4sensorhub_panic_register (Some m) i NULL d = Ret (- EINVAL, Some m))
  /\ (forall i, m4sensorhub_panic_unregister None i = Ret (- EINVAL, None))
  /\ (forall m i, (PANICHDL_MAX <= i)%N ->
        m4sensorhub_panic_unregister (Some m) i = Ret (- EINVAL, Some m))
  (* the test that is not made *)
  /\ m4sensorhub_panic_register (Some m0) index cb_func cb_data = NullDeref
  /\ m4sensorhub_panic_unregister (Some m0) index = NullDeref
  (* the precondition and who keeps it *)
  /\ (exists m, m4sensorhub_panic_init (Some m0) true = Ret (0, Some m)
                /\ is_Some (panicdata m))
  /\ (exists r m, m4sensorhub_panic_register (Some m1) index cb_func cb_data
                  = Ret (r, Some m) /\ is_Some (panicdata m))
  /\ (exists m, m4sensorhub_panic_unregister (Some m1) index
                = Ret (0, Some m) /\ is_Some (panicdata m))
  /\ (exists m, m4sensorhub_panic_shutdown (Some m1) = Some m
                /\ panicdata m = None)
  (* the process function makes the test *)
  /\ m4sensorhub_panic_process (Some m0) e = (Returned, Some m0, e)
  /\ m4sensorhub_panic_process None e = (Returned, None, e).
Proof.
  intros Hnull [pd Hpd] Hidx Hcb.
  assert (Hguard : (PANICHDL_MAX <=? index)%N = false)
    by (apply N.leb_gt; lia).
  assert (Hcb' : (cb_func =? NULL) = false) by (by apply Z.eqb_neq).
  repeat split.
  - intros m i f d Hge. unfold m4sensorhub_panic_register.
    apply N.leb_le in Hge. by rewrite Hge.
  - intros m i d. unfold m4sensorhub_panic_register.
    by rewrite Z.eqb_refl, orb_true_r.
  - intros m i Hge. unfold m4sensorhub_panic_unregister.
    apply N.leb_le in Hge. by rewrite Hge.
  - unfold m4sensorhub_panic_register. by rewrite Hguard, Hcb', Hnull.
  - unfold m4sensorhub_panic_unregister. by rewrite Hguard, Hnull.
  - eexists. split; [reflexivity|]. by eexists.
  - unfold m4sensorhub_panic_register. rewrite Hguard, Hcb', Hpd.
    cbn [orb]. cbn zeta.
    destruct (callback (funcs pd !!! N.to_nat index) =? NULL).
    + do 2 eexists. split; [reflexivity|]. by eexists.
    + do 2 eexists. split; [reflexivity|]. by rewrite Hpd.
  - unfold m4sensorhub_panic_unregister. rewrite Hguard, Hpd.
    eexists. split; [reflexivity|]. by eexists.
  - unfold m4sensorhub_panic_shutdown. rewrite Hpd.
    eexists. split; [reflexivity|]. done.
  - unfold m4sensorhub_panic_process. by rewrite Hnull.
Qed.

Lemma panic_registry_unchecked_panicdata_witness :
  panicdata (hub_with None) = None
  /\ is_Some (panicdata (hub_with (Some empty_registry)))
  /\ m4sensorhub_panic_register (Some (hub_with None))
       PANICHDL_DISPLAY_RESTORE 0x1000 0x2000 = NullDeref
  /\ m4sensorhub_panic_unregister (Some (hub_with None))
       PANICHDL_DISPLAY_RESTORE = NullDeref
  /\ @m4sensorhub_panic_process _ panicked_hub (Some (hub_with None)) idle
     = (Returned, Some (hub_with None), idle).
Proof.
  split; [reflexivity|]. split; [by eexists|].
  destruct (panic_registry_unchecked_panicdata panicked_hub
              (hub_with None) (hub_with (Some empty_registry))
              PANICHDL_DISPLAY_RESTORE 0x1000 0x2000 idle)
    as (_ & _ & _ & _ & _ & Hreg & Hunreg & _ & _ & _ & _ & Hproc & _).
  - reflexivity.
  - by eexists.
  - reflexivity.
  - discriminate.
  - split; [exact Hreg|]. split; [exact Hunreg|exact Hproc].
Defined.

End PanicProofs.

(* ===================================================================== *)
(** ** Properties of the init-call registry *)
(* ===================================================================== *)

Module CoreProofs.
Import Core CoreSpec.

Lemma load_live a n (h : slab) :
  a ∈ live h -> cells h !! a = Some n -> load a h = Some (n, h).
Proof.
  intros Hlive Hcell. unfold load, touch. rewrite Hcell.
  by rewrite decide_True.
Qed.

Lemma linked_insert_fresh c l a n :
  a ∉ map addr l -> linked c l -> linked (<[a := n]> c) l.
Proof.
  induction l as [|r l IH]; [done|].
  cbn [map linked]. intros Hfresh (Hnn & Hnd & Hcell & Hl).
  apply not_elem_of_cons in Hfresh as [Hne Hfresh].
  split; [done|]. split; [done|]. split.
  - by rewrite lookup_insert_ne.
  - by apply IH.
Qed.

Lemma head_if_null (p : Z) : (if p =? NULL then NULL else p) = p.
Proof. destruct (p =? NULL) eqn:E; [by apply Z.eqb_eq in E|done]. Qed.

Lemma touch_cells a (h : slab) : cells (touch a h) = cells h.
Proof. unfold touch. by case_decide. Qed.

Lemma touch_live a (h : slab) : live (touch a h) = live h.
Proof. unfold touch. by case_decide. Qed.

Lemma after_refl (h : slab) : after h h.
Proof. by split. Qed.

Lemma after_trans (h1 h2 h3 : slab) : after h1 h2 -> after h2 h3 -> after h1 h3.
Proof.
  intros [Hl1 Hu1] [Hl2 Hu2]. split; [by etrans|].
  intros a Ha. by apply Hu2, Hu1.
Qed.

Lemma touch_after a (h : slab) : after h (touch a h).
Proof.
  split; [by rewrite touch_live|].
  intros b Hb. unfold touch. case_decide; [done|].
  cbn [uaf]. apply elem_of_app. by left.
Qed.

Lemma touch_records a (h : slab) : a ∉ live h -> a ∈ uaf (touch a h).
Proof.
  intros Hdead. unfold touch. rewrite decide_False by done.
  cbn [uaf]. apply elem_of_app. right. apply list_elem_of_here.
Qed.

Lemma kfree_live a (h : slab) :
  a <> NULL -> a ∈ live h ->
  kfree a h = {| cells := cells h; live := live h ∖ {[a]}; uaf := uaf h |}.
Proof.
  intros Hnn Hlive. unfold kfree, touch. apply Z.eqb_neq in Hnn.
  rewrite Hnn. by rewrite decide_True.
Qed.

Lemma kfree_after a (h : slab) : after h (kfree a h).
Proof.
  unfold kfree. destruct (a =? NULL); [apply after_refl|].
  eapply after_trans; [apply (touch_after a)|].
  split; [|done]. cbn [live]. by apply subseteq_difference_l.
Qed.

Section Registry.
Context {World : Type} `{Collaborators World}.

(** A registration that got memory puts its node in front of the list. *)
Lemma register_prepends (r : registration) l (s : state World) :
  addr r <> NULL ->
  addr r ∉ live (mem s) ->
  chain (mem s) l ->
  inithead s = head_of l ->
  let s' := snd (m4sensorhub_register_initcall (addr r) (cb r) (ctx r) s) in
  m4sensorhub_register_initcall (addr r) (cb r) (ctx r) s = (0, s')
  /\ chain (mem s') (r :: l)
  /\ inithead s' = addr r
  /\ live (mem s') = {[addr r]} ∪ live (mem s)
  /\ uaf (mem s') = uaf (mem s)
  /\ common s' = common s /\ trace s' = trace s
  /\ force_upgrade s' = force_upgrade s.
Proof.
  intros Hnn Hfresh [Hlinked Hlive] Hhead.
  unfold m4sensorhub_register_initcall.
  apply Z.eqb_neq in Hnn as Hnn'. rewrite Hnn'. cbn [snd].
  rewrite head_if_null.
  split; [done|]. split; [|done].
  assert (Hnotin : addr r ∉ map addr l).
  { intros Hin. apply list_elem_of_fmap in Hin as [r' [Heq Hin]].
    rewrite Forall_forall in Hlive. apply Hlive in Hin.
    rewrite <- Heq in Hin. done. }
  split.
  - cbn [linked set_inithead set_mem mem write kzalloc cells].
    split; [done|]. split; [done|]. split.
    + rewrite lookup_insert_eq. by rewrite Hhead.
    + apply linked_insert_fresh; [done|].
      by apply linked_insert_fresh.
  - cbn [set_inithead set_mem mem write kzalloc live].
    constructor; [set_solver|].
    eapply Forall_impl; [exact Hlive|]. intros r' Hr'. cbn beta in *.
    set_solver.
Qed.

Lemma register_failed (r : registration) (s : state World) :
  addr r = NULL ->
  m4sensorhub_register_initcall (addr r) (cb r) (ctx r) s = (- ENOMEM, s).
Proof.
  intros ->. unfold m4sensorhub_register_initcall. by rewrite Z.eqb_refl.
Qed.

Lemma register_all_chain regs :
  forall l (s : state World),
    chain (mem s) l ->
    inithead s = head_of l ->
    sound_allocs (live (mem s)) regs ->
    let s' := register_all regs s in
    chain (mem s') (rev (succeeded regs) ++ l)
    /\ inithead s' = head_of (rev (succeeded regs) ++ l)
    /\ live (mem s')
       = list_to_set (map addr (succeeded regs)) ∪ live (mem s)
    /\ list_to_set (map addr (succeeded regs)) ## live (mem s)
    /\ uaf (mem s') = uaf (mem s)
    /\ common s' = common s /\ trace s' = trace s
    /\ force_upgrade s' = force_upgrade s.
Proof.
  induction regs as [|r regs IH]; intros l s Hchain Hhead Hsound.
  - cbn [register_all fold_left succeeded List.filter rev app map
           list_to_set].
    split; [done|]. split; [done|].
    split; [by rewrite (left_id_L ∅ (∪))|].
    split; [apply disjoint_empty_l|done].
  - cbn [register_all fold_left succeeded List.filter].
    cbn [sound_allocs] in Hsound.
    destruct (decide (addr r = NULL)) as [Hnull|Hnn].
    + rewrite (register_failed r s Hnull). cbn [snd].
      apply Z.eqb_eq in Hnull as Hnull'. rewrite Hnull'. cbn [negb].
      by apply IH.
    + destruct Hsound as [Hfresh Hsound].
      destruct (register_prepends r l s Hnn Hfresh Hchain Hhead)
        as (_ & Hchain' & Hhead' & Hlive' & Hu & Hw & Ht & Hf).
      apply Z.eqb_neq in Hnn as Hnn'. rewrite Hnn'. cbn [negb rev].
      rewrite <- app_assoc. cbn [app].
      specialize (IH (r :: l) _ Hchain' Hhead').
      rewrite Hlive' in IH. specialize (IH Hsound).
      destruct IH as (? & ? & Hlv2 & Hdisj2 & Hu2 & Hw2 & Ht2 & Hf2).
      unfold register_all in *.
      rewrite Hw2, Ht2, Hf2, Hu2, Hlv2.
      cbn [map list_to_set].
      split; [done|]. split; [done|].
      apply disjoint_union_r in Hdisj2 as [Hd1 Hd2].
      split.
      { fold (succeeded regs).
        rewrite (assoc_L (∪) (list_to_set (map addr (succeeded regs)))
                   {[addr r]} (live (mem s))).
        by rewrite (comm_L (∪) (list_to_set (map addr (succeeded regs)))
                      {[addr r]}). }
      split; [|done].
      apply disjoint_union_l. split; [|done].
      by apply disjoint_singleton_l.
Qed.


Lemma chain_kfree (h : slab) r l :
  chain h (r :: l) -> chain (kfree (addr r) h) l.
Proof.
  intros [(Hnn & Hnd & Hcell & Hl) Hlive].
  inversion Hlive as [|? ? Hr Hlive']; subst.
  rewrite (kfree_live _ _ Hnn Hr). split; [done|].
  rewrite Forall_forall in Hlive'. apply Forall_forall. intros r' Hr'.
  cbn [live]. apply elem_of_difference. split; [by apply Hlive'|].
  intros Heq. apply elem_of_singleton in Heq.
  apply Hnd. apply list_elem_of_fmap. by exists r'.
Qed.

(** The drain of a list of live nodes with non-NULL callbacks: it
    completes, calls and frees the nodes in list order, reads no freed
    node, and writes neither to the cells nor to [inithead]. *)
Lemma drain_chain l :
  forall (s : state World) (fuel : nat),
    chain (mem s) l ->
    Forall (fun r => cb r <> NULL) l ->
    (length l < fuel)%nat ->
    exists s',
      drain fuel (head_of l) s = Done s'
      /\ inithead s' = inithead s
      /\ trace s' = trace s ++ fst (drain_spec l (common s))
      /\ common s' = snd (drain_spec l (common s))
      /\ cells (mem s') = cells (mem s)
      /\ live (mem s') = live (mem s) ∖ list_to_set (map addr l)
      /\ uaf (mem s') = uaf (mem s)
      /\ firmware_download_status s' = firmware_download_status s.
Proof.
  induction l as [|r l IH]; intros s fuel Hchain Hcbs Hfuel.
  - destruct fuel as [|k]; [cbn in Hfuel; lia|].
    exists s. cbn [drain head_of]. rewrite Z.eqb_refl. cbn [drain_spec fst snd].
    rewrite app_nil_r. repeat split; try done.
    cbn [map list_to_set]. by rewrite difference_empty_L.
  - destruct fuel as [|k]; [cbn in Hfuel; lia|].
    cbn [length] in Hfuel.
    pose proof Hchain as [(Hnn & Hnd & Hcell & Hl) Hlive].
    inversion Hlive as [|? ? Hr _]; subst.
    inversion Hcbs as [|? ? Hcb Hcbs']; subst.
    cbn [drain head_of drain_spec].
    apply Z.eqb_neq in Hnn as Hnn'. rewrite Hnn'.
    rewrite (load_live _ _ _ Hr Hcell).
    cbn [set_mem common node_of initcb pdata note set_common].
    apply Z.eqb_neq in Hcb as Hcb'. rewrite Hcb'.
    destruct (run_initcb (cb r) (ctx r) (common s)) as [err o1] eqn:Hrun.
    set (s1 := if err <? 0 then _ else _).
    assert (Hs1 : mem s1 = mem s /\ inithead s1 = inithead s
                  /\ common s1 = o1
                  /\ firmware_download_status s1
                     = firmware_download_status s
                  /\ trace s1 = trace s ++ EvInitcb (cb r) (ctx r)
                       :: (if err <? 0 then [EvDumpStack] else [])).
    { subst s1. destruct (err <? 0); cbn; repeat split; try done.
      by rewrite <- app_assoc. }
    destruct Hs1 as (Hm1 & Hh1 & Hw1 & Hst1 & Ht1).
    rewrite Hm1. rewrite (load_live _ _ _ Hr Hcell). cbn [next].
    pose proof (kfree_live _ _ Hnn Hr) as Hfree.
    set (s2 := note _ _).
    destruct (IH s2 k)
      as (s' & Hdone & Hh & Ht & Hw & Hc & Hlv & Hu & Hst).
    { subst s2. cbn [note mem set_mem]. by apply chain_kfree. }
    { done. }
    { lia. }
    exists s'. split; [exact Hdone|].
    subst s2. cbn [note set_mem inithead trace common mem
                     firmware_download_status] in *.
    rewrite Hfree in *. cbn [cells live uaf] in *.
    rewrite Hw1 in *.
    destruct (drain_spec l o1) as [evs o2] eqn:Hspec.
    cbn [fst snd] in *.
    repeat split; try congruence.
    + rewrite Ht, Ht1. rewrite <- !app_assoc. cbn [app]. done.
    + rewrite Hlv. cbn [map list_to_set].
      by rewrite difference_difference_l_L.
Qed.

Lemma calls_and_frees_app t1 t2 :
  calls_and_frees (t1 ++ t2) = calls_and_frees t1 ++ calls_and_frees t2.
Proof. unfold calls_and_frees. apply List.filter_app. Qed.

Lemma calls_and_frees_drain_spec l :
  forall o : shared World,
    calls_and_frees (fst (drain_spec l o)) = flat_map call_then_free l.
Proof.
  induction l as [|r l IH]; intros o; [done|].
  cbn [drain_spec].
  destruct (run_initcb (cb r) (ctx r) o) as [err o1].
  specialize (IH o1). destruct (drain_spec l o1) as [evs o2].
  cbn [fst] in *. cbn [flat_map].
  change (EvInitcb (cb r) (ctx r)
            :: (if err <? 0 then [EvDumpStack] else [])
            ++ EvKfree (addr r) :: evs)
    with ([EvInitcb (cb r) (ctx r)]
            ++ (if err <? 0 then [EvDumpStack] else [])
            ++ [EvKfree (addr r)] ++ evs).
  rewrite !calls_and_frees_app, IH.
  by destruct (err <? 0).
Qed.

(** m4sensorhub_initialize on a list of live nodes with non-NULL
    callbacks, when the firmware is there, the client is bound, the
    download succeeds and the interrupt table is set up. *)
Lemma initialize_chain l (s : state World) (fuel : nat)
    (client_addr st err : Z) (o1 o2 : shared World) :
  chain (mem s) l ->
  inithead s = head_of l ->
  Forall (fun r => cb r <> NULL) l ->
  Board.i2c_client (hub (common s)) = Some client_addr ->
  (if client_addr =? 0x39
   then m4sensorhub_401_load_firmware (force_upgrade s) (common s)
   else m4sensorhub_load_firmware (force_upgrade s) (common s))
  = (st, o1) ->
  0 <= st ->
  m4sensorhub_irq_init o1 = (err, o2) ->
  0 <= err ->
  (length l < fuel)%nat ->
  exists s',
    m4sensorhub_initialize true fuel s = Done s'
    /\ inithead s' = inithead s
    /\ trace s'
       = trace s ++ [load_event client_addr (force_upgrade s); EvIrqInit]
         ++ fst (drain_spec l o2)
    /\ common s' = set_mode NORMALMODE (snd (drain_spec l o2))
    /\ cells (mem s') = cells (mem s)
    /\ live (mem s') = live (mem s) ∖ list_to_set (map addr l)
    /\ uaf (mem s') = uaf (mem s)
    /\ firmware_download_status s' = st.
Proof.
  intros Hchain Hhead Hcbs Hclient Hfw Hst Hirq Herr Hfuel.
  unfold m4sensorhub_initialize. cbn [negb]. rewrite Hclient.
  cbn [note force_upgrade common]. rewrite Hfw.
  cbn [firmware_download_status set_status set_common note common
         inithead].
  assert (Hst' : (st <? 0) = false) by (apply Z.ltb_ge; lia).
  assert (Herr' : (err <? 0) = false) by (apply Z.ltb_ge; lia).
  rewrite Hst', Hirq, Herr'.
  rewrite Hhead.
  match goal with
  | |- context [drain fuel (head_of l) ?S] =>
      destruct (drain_chain l S fuel) as
        (s' & Hdone & Hh & Ht & Hw & Hc & Hlv & Hu & Hstat);
        [exact Hchain|exact Hcbs|exact Hfuel|]
  end.
  rewrite Hdone. eexists. split; [reflexivity|].
  cbn [set_common note set_status inithead trace mem common
         firmware_download_status] in *.
  split; [congruence|]. split.
  { rewrite Ht. unfold load_event. by rewrite <- !app_assoc. }
  repeat split; congruence.
Qed.

End Registry.

Lemma list_to_set_rev (l : list Z) :
  list_to_set (C := gset Z) (rev l) = list_to_set l.
Proof.
  induction l as [|a l IH]; [done|].
  cbn [rev list_to_set]. rewrite list_to_set_app_L, IH.
  cbn [list_to_set]. rewrite (right_id_L ∅ (∪)). apply (comm_L (∪)).
Qed.

Lemma sample_nodes_have_callbacks :
  Forall (fun r => cb r <> NULL) [reg_x; reg_a; reg_b].
Proof. repeat constructor; discriminate. Defined.

(** C6.  For every sequence of registrations of non-NULL callbacks made
    on an empty registry (kzalloc answering NULL or an address that is not
    live), each registration that got memory puts its node in front of
    the list, so the list holds the nodes most recent first; any further
    registration goes in front of that; and when m4sensorhub_initialize
    reaches its drain (client bound, download and interrupt set-up
    successful), the drain completes and calls every registered callback
    exactly once, last registered first, freeing each node right after
    its own callback, whatever the callbacks return: afterwards exactly
    the memory that was live before the registrations is live, no freed
    node has been read, and the structure and the lines are as the last
    callback left them, but for the mode, set to NORMALMODE. *)
Theorem initcall_drain_reverse_registration_order
    {World : Type} (C : Collaborators World)
    (s0 : state World) (regs : list registration) (fuel : nat)
    (client_addr st err : Z) (o1 o2 : shared World) :
  inithead s0 = NULL ->
  sound_allocs (live (mem s0)) regs ->
  Forall (fun r => cb r <> NULL) (succeeded regs) ->
  Board.i2c_client (hub (common s0)) = Some client_addr ->
  (if client_addr =? 0x39
   then m4sensorhub_401_load_firmware (force_upgrade s0) (common s0)
   else m4sensorhub_load_firmware (force_upgrade s0) (common s0))
  = (st, o1) ->
  0 <= st ->
  m4sensorhub_irq_init o1 = (err, o2) ->
  0 <= err ->
  (length (succeeded regs) < fuel)%nat ->
  chain (mem (register_all regs s0)) (rev (succeeded regs))
  /\ inithead (register_all regs s0) = head_of (rev (succeeded regs))
  /\ live (mem (register_all regs s0))
     = list_to_set (map addr (succeeded regs)) ∪ live (mem s0)
  /\ (forall r,
        addr r <> NULL ->
        addr r ∉ live (mem (register_all regs s0)) ->
        let s1 := snd (m4sensorhub_register_initcall (addr r) (cb r) (ctx r)
                         (register_all regs s0)) in
        chain (mem s1) (r :: rev (succeeded regs)) /\ inithead s1 = addr r)
  /\ exists s' evs o3,
       drain_spec (rev (succeeded regs)) o2 = (evs, o3)
       /\ m4sensorhub_initialize true fuel (register_all regs s0) = Done s'
       /\ trace s'
          = trace s0
            ++ [load_event client_addr (force_upgrade s0); EvIrqInit] ++ evs
       /\ common s' = set_mode NORMALMODE o3
       /\ calls_and_frees evs = flat_map call_then_free (rev (succeeded regs))
       /\ live (mem s') = live (mem s0)
       /\ uaf (mem s') = uaf (mem s0).
Proof.
  intros Hhead Hsound Hcbs Hclient Hfw Hst Hirq Herr Hfuel.
  destruct (register_all_chain regs [] s0)
    as (Hchain & Hh & Hlv & Hdisj & Hu & Hw & Ht & Hf).
  { split; [done|constructor]. }
  { done. }
  { done. }
  rewrite app_nil_r in Hchain, Hh.
  split; [exact Hchain|]. split; [exact Hh|]. split; [exact Hlv|]. split.
  - intros r Hnn Hfresh s1.
    destruct (register_prepends r _ _ Hnn Hfresh Hchain Hh)
      as (_ & Hc1 & Hh1 & _).
    by split.
  - destruct (initialize_chain (rev (succeeded regs)) (register_all regs s0)
                fuel client_addr st err o1 o2)
      as (s' & Hdone & _ & Htr & Hw' & _ & Hlv' & Hu' & _).
    + exact Hchain.
    + exact Hh.
    + by apply Forall_rev.
    + by rewrite Hw.
    + by rewrite Hf, Hw.
    + exact Hst.
    + exact Hirq.
    + exact Herr.
    + by rewrite length_rev.
    + pose proof (calls_and_frees_drain_spec (rev (succeeded regs)) o2)
        as Hcf.
      destruct (drain_spec (rev (succeeded regs)) o2) as [evs o3].
      cbn [fst snd] in *.
      exists s', evs, o3. split; [done|]. split; [exact Hdone|].
      split; [by rewrite Htr, Ht, Hf|]. split; [exact Hw'|].
      split; [exact Hcf|]. split; [|congruence].
      rewrite Hlv', Hlv, List.map_rev, list_to_set_rev.
      rewrite difference_union_distr_l_L, difference_diag_L.
      rewrite (left_id_L ∅ (∪)).
      apply difference_disjoint_L. by symmetry.
Qed.

Lemma initcall_drain_reverse_registration_order_witness :
  sound_allocs (live (mem boot)) [reg_b; reg_a; reg_x]
  /\ exists s',
       @m4sensorhub_initialize _ sample_clients true 4
         (register_all [reg_b; reg_a; reg_x] boot) = Done s'
       /\ trace s'
          = [EvLoadFirmware 0; EvIrqInit;
             EvInitcb 0x88 1; EvKfree 0x100;
             EvInitcb 0x77 2; EvDumpStack; EvKfree 0x200;
             EvInitcb 0x77 3; EvDumpStack; EvKfree 0x300]
       /\ live (mem s') = ∅
       /\ mode (common s') = NORMALMODE
       /\ Board.world (lines (common s')) = 3%nat.
Proof.
  assert (Hsound : sound_allocs (live (mem boot)) [reg_b; reg_a; reg_x]).
  { cbn. repeat split; compute_done. }
  split; [exact Hsound|].
  destruct (initcall_drain_reverse_registration_order sample_clients boot
              [reg_b; reg_a; reg_x] 4 0x18 0 0
              (set_mode BOOTMODE (common boot))
              (set_mode BOOTMODE (common boot)))
    as (_ & _ & _ & _ & s' & evs & o3 & Hspec & Hdone & Htr & Hcom & _
        & Hlv & _).
  - reflexivity.
  - exact Hsound.
  - cbn. repeat constructor; discriminate.
  - reflexivity.
  - reflexivity.
  - discriminate.
  - reflexivity.
  - discriminate.
  - cbn. lia.
  - exists s'. split; [exact Hdone|].
    injection Hspec as <- <-.
    split; [by rewrite Htr|]. split; [exact Hlv|].
    rewrite Hcom. split; reflexivity.
Defined.

Lemma linked_not_null c l : linked c l -> NULL ∉ map addr l.
Proof.
  induction l as [|r l IH]; cbn [linked map].
  - intros _ Hin. by apply elem_of_nil in Hin.
  - intros (Hnn & _ & _ & Hl). apply not_elem_of_cons. split; [done|].
    by apply IH.
Qed.

Lemma load_after a n (h h' : slab) : load a h = Some (n, h') -> after h h'.
Proof.
  unfold load. destruct (cells h !! a); [|done].
  intros [= _ <-]. apply touch_after.
Qed.

Lemma store_next_after a v (h h' : slab) :
  store_next a v h = Some h' -> after h h'.
Proof.
  unfold store_next. destruct (cells h !! a); [|done].
  intros [= <-].
  eapply after_trans; [|apply touch_after]. by split.
Qed.

(** Whatever a walk of m4sensorhub_unregister_initcall does once it has
    come to an end, it has forgotten no access to a freed object, and it
    has recorded one for the node it started at if that node was freed. *)
Lemma unregister_loop_after {World : Type} f :
  forall fuel node prev (s s2 : state World),
    unregister_loop fuel f node prev s = Done s2 ->
    after (mem s) (mem s2)
    /\ (node <> NULL -> node ∉ live (mem s) -> node ∈ uaf (mem s2)).
Proof.
  induction fuel as [|k IH]; intros node prev s s2 Hrun; [done|].
  cbn [unregister_loop] in Hrun.
  destruct (node =? NULL) eqn:Hnull.
  { injection Hrun as <-. split; [apply after_refl|].
    intros Hnn. by apply Z.eqb_eq in Hnull. }
  destruct (load node (mem s)) as [[n h]|] eqn:Hload; [|done].
  pose proof (load_after _ _ _ _ Hload) as Haft1.
  assert (Hrec : node ∉ live (mem s) -> node ∈ uaf h).
  { intros Hdead. unfold load in Hload.
    destruct (cells (mem s) !! node); [|done].
    injection Hload as _ <-. by apply touch_records. }
  cbn [set_mem mem inithead] in Hrun.
  assert (Hstep : forall s1 : state World,
    after h (mem s1) ->
    match load node (mem s1) with
    | Some (n', h') => unregister_loop k f (next n') node (set_mem h' s1)
    | None => Fault
    end = Done s2 ->
    after (mem s) (mem s2)
    /\ (node <> NULL -> node ∉ live (mem s) -> node ∈ uaf (mem s2))).
  { intros s1 Haft Hgo.
    destruct (load node (mem s1)) as [[n' h']|] eqn:Hload2; [|done].
    pose proof (load_after _ _ _ _ Hload2) as Haft2.
    destruct (IH _ _ _ _ Hgo) as [Haft3 _]. cbn [set_mem mem] in Haft3.
    assert (Hall : after h (mem s2)).
    { eapply after_trans; [exact Haft|].
      eapply after_trans; [exact Haft2|exact Haft3]. }
    split; [by eapply after_trans|].
    intros _ Hdead. destruct Hall as [_ Hkeep]. by apply Hkeep, Hrec. }
  destruct (initcb n =? f).
  - destruct (node =? inithead s).
    + refine (Hstep _ _ Hrun). cbn [set_mem set_inithead mem].
      apply kfree_after.
    + destruct (store_next prev (next n) h) as [h1|] eqn:Hstore; [|done].
      refine (Hstep _ _ Hrun). cbn [set_mem mem].
      eapply after_trans; [by eapply store_next_after|apply kfree_after].
  - refine (Hstep _ _ Hrun). cbn [set_mem mem]. apply after_refl.
Qed.

(** C10.  The drain of m4sensorhub_initialize (on nodes with non-NULL
    callbacks) frees every node of the list, reads no freed node, and
    leaves inithead as it was: on a non-empty list inithead then points
    to a freed node.  A registration made afterwards links its new node
    to that old head, and an unregistration made afterwards cannot come
    to an end without having read the freed head. *)
Theorem initcall_drain_leaves_stale_head
    {World : Type} (C : Collaborators World)
    (s : state World) (l : list registration) (fuel : nat)
    (client_addr st err : Z) (o1 o2 : shared World) :
  chain (mem s) l ->
  inithead s = head_of l ->
  Forall (fun r => cb r <> NULL) l ->
  Board.i2c_client (hub (common s)) = Some client_addr ->
  (if client_addr =? 0x39
   then m4sensorhub_401_load_firmware (force_upgrade s) (common s)
   else m4sensorhub_load_firmware (force_upgrade s) (common s))
  = (st, o1) ->
  0 <= st ->
  m4sensorhub_irq_init o1 = (err, o2) ->
  0 <= err ->
  (length l < fuel)%nat ->
  exists s',
    m4sensorhub_initialize true fuel s = Done s'
    /\ inithead s' = inithead s
    /\ live (mem s') = live (mem s) ∖ list_to_set (map addr l)
    /\ uaf (mem s') = uaf (mem s)
    /\ (forall r, r ∈ l -> addr r ∉ live (mem s'))
    /\ (l <> [] -> inithead s' <> NULL /\ inithead s' ∉ live (mem s'))
    /\ (forall inc f d,
          inc <> NULL ->
          exists s2,
            m4sensorhub_register_initcall inc f d s' = (0, s2)
            /\ inithead s2 = inc
            /\ cells (mem s2) !! inc
               = Some {| initcb := f; pdata := d; next := inithead s |})
    /\ (l <> [] ->
        forall f k s2,
          m4sensorhub_unregister_initcall k f s' = Done s2 ->
          inithead s ∈ uaf (mem s2)).
Proof.
  intros Hchain Hhead Hcbs Hclient Hfw Hst Hirq Herr Hfuel.
  destruct (initialize_chain l s fuel client_addr st err o1 o2)
    as (s' & Hdone & Hh & _ & _ & Hc & Hlv & Hu & _); try done.
  exists s'. split; [exact Hdone|]. split; [exact Hh|].
  split; [exact Hlv|]. split; [exact Hu|].
  assert (Hfreed : forall r, r ∈ l -> addr r ∉ live (mem s')).
  { intros r Hr. rewrite Hlv. intros Hin.
    apply elem_of_difference in Hin as [_ Hnot]. apply Hnot.
    apply elem_of_list_to_set. apply list_elem_of_fmap. by exists r. }
  destruct Hchain as [Hlinked Hlive].
  assert (Hstale : l <> [] ->
            inithead s' <> NULL /\ inithead s' ∉ live (mem s')).
  { intros Hne. destruct l as [|r l]; [done|].
    rewrite Hh, Hhead. cbn [head_of]. split.
    - by destruct Hlinked as (Hnn & _).
    - apply Hfreed. apply list_elem_of_here. }
  split; [exact Hfreed|]. split; [exact Hstale|]. split.
  - intros inc f d Hinc.
    unfold m4sensorhub_register_initcall.
    apply Z.eqb_neq in Hinc. rewrite Hinc.
    eexists. split; [reflexivity|].
    cbn [set_inithead set_mem inithead mem write cells].
    split; [done|]. rewrite lookup_insert_eq, head_if_null. by rewrite Hh.
  - intros Hne f k s2 Hrun.
    destruct (Hstale Hne) as [Hnn Hdead].
    unfold m4sensorhub_unregister_initcall in Hrun.
    destruct (unregister_loop_after f _ _ _ _ _ Hrun) as [_ Hrec].
    rewrite <- Hh. by apply Hrec.
Qed.

Lemma initcall_drain_leaves_stale_head_witness :
  chain (mem three_registered) [reg_x; reg_a; reg_b]
  /\ exists s',
       @m4sensorhub_initialize _ sample_clients true 4 three_registered
       = Done s'
       /\ inithead s' = addr reg_x
       /\ (addr reg_x ∉ live (mem s'))
       /\ exists s2,
            m4sensorhub_unregister_initcall 4 0x99 s' = Done s2
            /\ addr reg_x ∈ uaf (mem s2).
Proof.
  assert (Hsound : sound_allocs (live (mem boot)) [reg_b; reg_a; reg_x]).
  { cbn. repeat split; compute_done. }
  destruct (register_all_chain (World := nat) [reg_b; reg_a; reg_x] [] boot)
    as (Hchain & Hhead & _).
  { split; [exact I|constructor]. }
  { reflexivity. }
  { exact Hsound. }
  change (rev (succeeded [reg_b; reg_a; reg_x]) ++ [])
    with [reg_x; reg_a; reg_b] in Hchain, Hhead.
  split; [exact Hchain|].
  destruct (initcall_drain_leaves_stale_head sample_clients three_registered
              [reg_x; reg_a; reg_b] 4 0x18 0 0
              (set_mode BOOTMODE (common boot))
              (set_mode BOOTMODE (common boot)))
    as (s' & Hdone & Hh & _ & _ & _ & Hstale & _ & Hlater).
  - exact Hchain.
  - exact Hhead.
  - exact sample_nodes_have_callbacks.
  - reflexivity.
  - reflexivity.
  - discriminate.
  - reflexivity.
  - discriminate.
  - cbn. lia.
  - exists s'. split; [exact Hdone|].
    destruct Hstale as [_ Hdead]; [discriminate|].
    assert (Hx : inithead three_registered = addr reg_x).
    { unfold three_registered. by rewrite Hhead. }
    rewrite Hh, Hx in Hdead. rewrite Hh.
    split; [exact Hx|]. split; [exact Hdead|].
    assert (Hun : exists s2,
              m4sensorhub_unregister_initcall 4 0x99 s' = Done s2).
    { vm_compute in Hdone. injection Hdone as <-.
      eexists. by vm_compute. }
    destruct Hun as [s2 Hun]. exists s2. split; [exact Hun|].
    rewrite <- Hx. apply (Hlater ltac:(discriminate) 0x99 4%nat s2 Hun).
Defined.

(** C7, at the input where the code departs from it.  The list holds the
    node of callback 0x88 followed by two nodes of callback 0x77.
    Unregistering 0x77 frees both of these, but the second one is
    unlinked by a store to the first one, which has been freed by then:
    the list that starts at inithead still holds the second node, whose
    callback is 0x77 and whose memory has been freed, and the walk has
    read or written freed nodes three times. *)
Theorem unregister_initcall_adjacent_match_stays_linked :
  list_from 8 (cells (mem three_registered)) (inithead three_registered)
  = [(0x100, node_of reg_x 0x200);
     (0x200, node_of reg_a 0x300);
     (0x300, node_of reg_b NULL)]
  /\ exists s',
       m4sensorhub_unregister_initcall 8 0x77 three_registered = Done s'
       /\ list_from 8 (cells (mem s')) (inithead s')
          = [(0x100, node_of reg_x 0x300); (0x300, node_of reg_b NULL)]
       /\ elements (live (mem s')) = [0x100]
       /\ uaf (mem s') = [0x200; 0x200; 0x300].
Proof.
  split; [by vm_compute|].
  eexists. split; [by vm_compute|].
  split; [by vm_compute|]. split; by vm_compute.
Qed.

End CoreProofs.

(* ===================================================================== *)
(** ** Further properties of the panic subsystem *)
(* ===================================================================== *)

Module PanicUseProofs.
Import Panic PanicSpec PanicUse.

Lemma do_call_keeps_registry c m pd :
  panicdata m = Some pd ->
  well_formed pd ->
  exists r m' pd',
    do_call c (Some m) = Ret (r, Some m')
    /\ panicdata m' = Some pd'
    /\ well_formed pd'
    /\ mode m' = mode m
    /\ (r = 0 \/ r = - EINVAL \/ r = - EPERM).
Proof.
  intros Hpd Hwf. destruct c as [index cb_func cb_data|index]; cbn [do_call].
  - unfold m4sensorhub_panic_register.
    destruct ((PANICHDL_MAX <=? index)%N || (cb_func =? NULL)).
    + exists (- EINVAL), m, pd. by repeat split; auto.
    + rewrite Hpd. cbn zeta.
      destruct (callback (funcs pd !!! N.to_nat index) =? NULL).
      * eexists 0, _, _. split; [reflexivity|].
        cbn [set_panicdata panicdata mode].
        split; [reflexivity|]. split; [|by auto].
        unfold well_formed in *. cbn [set_funcs funcs].
        by rewrite length_insert.
      * exists (- EPERM), m, pd. by repeat split; auto.
  - unfold m4sensorhub_panic_unregister.
    destruct (PANICHDL_MAX <=? index)%N.
    + exists (- EINVAL), m, pd. by repeat split; auto.
    + rewrite Hpd. eexists 0, _, _. split; [reflexivity|].
      cbn [set_panicdata panicdata mode].
      split; [reflexivity|]. split; [|by auto].
      unfold well_formed in *. cbn [set_funcs funcs].
      by rewrite length_insert.
Qed.

Lemma do_calls_keep_registry cs :
  forall m pd,
    panicdata m = Some pd ->
    well_formed pd ->
    exists rs m' pd',
      do_calls cs (Some m) = Ret (rs, Some m')
      /\ panicdata m' = Some pd'
      /\ well_formed pd'
      /\ mode m' = mode m
      /\ length rs = length cs
      /\ Forall (fun r => r = 0 \/ r = - EINVAL \/ r = - EPERM) rs.
Proof.
  induction cs as [|c cs IH]; intros m pd Hpd Hwf.
  - exists [], m, pd. by repeat split.
  - destruct (do_call_keeps_registry c m pd Hpd Hwf)
      as (r & m1 & pd1 & Hcall & Hpd1 & Hwf1 & Hmode1 & Hr).
    destruct (IH m1 pd1 Hpd1 Hwf1)
      as (rs & m' & pd' & Hcalls & Hpd' & Hwf' & Hmode' & Hlen & Hrs).
    exists (r :: rs), m', pd'. cbn [do_calls]. rewrite Hcall, Hcalls.
    split; [done|]. split; [done|]. split; [done|].
    split; [congruence|]. split; [cbn; by rewrite Hlen|].
    by constructor.
Qed.

(** X1.  After a successful m4sensorhub_panic_init, whatever calls to
    m4sensorhub_panic_register and m4sensorhub_panic_unregister follow,
    with whatever arguments, none of them dereferences NULL, each returns
    0, -EINVAL or -EPERM, the registry keeps its PANICHDL_MAX slots and
    the channel mode is not touched. *)
Theorem panic_registry_stays_well_formed
    (m : m4sensorhub_data) (cs : list registry_call) :
  exists m1 pd1 rs m' pd',
    m4sensorhub_panic_init (Some m) true = Ret (0, Some m1)
    /\ panicdata m1 = Some pd1
    /\ populated_slots pd1 = []
    /\ do_calls cs (Some m1) = Ret (rs, Some m')
    /\ panicdata m' = Some pd'
    /\ well_formed pd'
    /\ mode m' = mode m
    /\ length rs = length cs
    /\ Forall (fun r => r = 0 \/ r = - EINVAL \/ r = - EPERM) rs.
Proof.
  set (pd1 := {| lock := false;
                 funcs := replicate (N.to_nat PANICHDL_MAX) no_handler |}).
  destruct (do_calls_keep_registry cs (set_panicdata m (Some pd1)) pd1)
    as (rs & m' & pd' & Hcalls & Hpd' & Hwf' & Hmode' & Hlen & Hrs).
  { reflexivity. }
  { reflexivity. }
  exists (set_panicdata m (Some pd1)), pd1, rs, m', pd'.
  split; [reflexivity|]. split; [reflexivity|]. split; [reflexivity|].
  by repeat split.
Qed.

(** X2.  Registration order is irrelevant: two registrations on different
    indices, made in either order on a handle with a registry, return the
    same values and leave the same structure. *)
Theorem panic_register_order_irrelevant
    (m : m4sensorhub_data) (pd : m4sensorhub_panicdata)
    (i j : N) (f g : fnptr) (d1 d2 : ptr) :
  panicdata m = Some pd ->
  i <> j ->
  exists r1 r2 m',
    do_calls [CallRegister i f d1; CallRegister j g d2] (Some m)
    = Ret ([r1; r2], m')
    /\ do_calls [CallRegister j g d2; CallRegister i f d1] (Some m)
       = Ret ([r2; r1], m').
Proof.
  intros Hpd Hij.
  assert (Hne : N.to_nat i <> N.to_nat j) by lia.
  assert (Hne' : N.to_nat j <> N.to_nat i) by lia.
  cbn [do_calls do_call]. unfold m4sensorhub_panic_register.
  destruct ((PANICHDL_MAX <=? i)%N || (f =? NULL));
    destruct ((PANICHDL_MAX <=? j)%N || (g =? NULL));
    rewrite ?Hpd; cbn zeta.
  - by eexists _, _, _.
  - destruct (callback (funcs pd !!! N.to_nat j) =? NULL);
      by eexists _, _, _.
  - destruct (callback (funcs pd !!! N.to_nat i) =? NULL);
      by eexists _, _, _.
  - destruct (callback (funcs pd !!! N.to_nat i) =? NULL) eqn:Hsi;
      destruct (callback (funcs pd !!! N.to_nat j) =? NULL) eqn:Hsj;
      rewrite ?Hpd;
      cbn [set_panicdata panicdata mode set_funcs funcs lock];
      rewrite ?(list_lookup_total_insert_ne _ _ _ _ Hne),
        ?(list_lookup_total_insert_ne _ _ _ _ Hne'), ?Hsi, ?Hsj;
      rewrite ?Hpd;
      cbn [set_panicdata panicdata mode set_funcs funcs lock];
      eexists _, _, _; (split; [reflexivity|]); try reflexivity.
    by rewrite (list_insert_insert_ne _ _ _ _ _ Hne).
Qed.

Lemma panic_register_order_irrelevant_witness :
  PANICHDL_IRQ_RESTORE <> PANICHDL_DISPLAY_RESTORE
  /\ exists m',
       do_calls [CallRegister PANICHDL_IRQ_RESTORE 0x3000 0x4000;
                 CallRegister PANICHDL_DISPLAY_RESTORE 0x1000 0x2000]
         (Some (hub_with (Some empty_registry)))
       = Ret ([0; 0], m')
       /\ do_calls [CallRegister PANICHDL_DISPLAY_RESTORE 0x1000 0x2000;
                    CallRegister PANICHDL_IRQ_RESTORE 0x3000 0x4000]
            (Some (hub_with (Some empty_registry)))
          = Ret ([0; 0], m').
Proof.
  split; [discriminate|].
  destruct (panic_register_order_irrelevant
              (hub_with (Some empty_registry)) empty_registry
              PANICHDL_IRQ_RESTORE PANICHDL_DISPLAY_RESTORE
              0x3000 0x1000 0x4000 0x2000)
    as (r1 & r2 & m' & H1 & H2).
  - reflexivity.
  - discriminate.
  - exists m'.
    assert (Hr : r1 = 0 /\ r2 = 0).
    { vm_compute in H1. by inversion H1. }
    destruct Hr as [-> ->]. split; [exact H1|exact H2].
Defined.

(** X3.  Register followed by unregister is a round trip: on an empty
    slot with a valid index and a non-NULL callback both calls return 0
    and the structure is exactly what it was before. *)
Theorem panic_register_unregister_round_trip
    (m : m4sensorhub_data) (pd : m4sensorhub_panicdata)
    (index : N) (cb_func : fnptr) (cb_data : ptr) :
  panicdata m = Some pd ->
  (index < PANICHDL_MAX)%N ->
  cb_func <> NULL ->
  funcs pd !! N.to_nat index = Some no_handler ->
  do_calls [CallRegister index cb_func cb_data; CallUnregister index]
    (Some m)
  = Ret ([0; 0], Some m).
Proof.
  intros Hpd Hidx Hcb Hslot.
  assert (Hguard : (PANICHDL_MAX <=? index)%N = false)
    by (apply N.leb_gt; lia).
  apply Z.eqb_neq in Hcb.
  cbn [do_calls do_call].
  unfold m4sensorhub_panic_register, m4sensorhub_panic_unregister.
  rewrite Hguard, Hcb, Hpd. cbn [orb]. cbn zeta.
  rewrite (list_lookup_total_correct _ _ _ Hslot).
  cbn [no_handler callback]. rewrite Z.eqb_refl.
  cbn [set_panicdata panicdata mode set_funcs funcs lock].
  rewrite list_insert_insert_eq, (list_insert_id _ _ _ Hslot).
  destruct m as [pdo md], pd as [lk fs]. cbn in *. by rewrite Hpd.
Qed.

Lemma panic_register_unregister_round_trip_witness :
  funcs empty_registry !! N.to_nat PANICHDL_IRQ_RESTORE = Some no_handler
  /\ do_calls [CallRegister PANICHDL_IRQ_RESTORE 0x3000 0x4000;
               CallUnregister PANICHDL_IRQ_RESTORE]
       (Some (hub_with (Some empty_registry)))
     = Ret ([0; 0], Some (hub_with (Some empty_registry))).
Proof.
  split; [reflexivity|].
  apply (panic_register_unregister_round_trip
           (hub_with (Some empty_registry)) empty_registry
           PANICHDL_IRQ_RESTORE 0x3000 0x4000).
  - reflexivity.
  - reflexivity.
  - discriminate.
  - reflexivity.
Defined.

Section Runs.
Context {World : Type} `{Collaborators World}.


End Runs.


Lemma called_slots_elem i h t :
  (i, h) ∈ called_slots t -> exists mcall, EvPanicCallback i mcall h ∈ t.
Proof.
  unfold called_slots. induction t as [|ev t IH]; cbn [flat_map].
  - intros Hin. by apply elem_of_nil in Hin.
  - intros Hin. apply elem_of_app in Hin as [Hin|Hin].
    + destruct ev; try (by apply elem_of_nil in Hin).
      apply list_elem_of_singleton in Hin. injection Hin as -> ->.
      eexists. apply list_elem_of_here.
    + destruct (IH Hin) as [mcall Hm]. exists mcall.
      by apply list_elem_of_further.
Qed.

(** X5.  A callback registered on an empty slot is called: after
    m4sensorhub_panic_register has returned 0 for it, a run of
    m4sensorhub_panic_process that confirms a panic, finds the reset hook
    set and reloads the firmware, with nobody touching the registry in
    between, calls that slot exactly once, with the context that was
    registered. *)
Theorem panic_registered_callback_is_called
    {World : Type} (C : Collaborators World)
    (m m1 m2 m3 : m4sensorhub_data) (pd : m4sensorhub_panicdata)
    (board : m4sensorhub_platform_data)
    (index : N) (cb_func : fnptr) (cb_data : ptr) (e : env World)
    (buf : panic_buf) (w1 w2 w3 : World) (fw : Z) :
  panicdata m = Some pd ->
  well_formed pd ->
  m4sensorhub_panic_register (Some m) index cb_func cb_data
  = Ret (0, Some m1) ->
  pdev m = Some board ->
  hw_reset board <> NULL ->
  registry_untouched ->
  m4sensorhub_i2c_write_read [PANIC_BANK; PANIC_CMD_CHECK]
    sizeof_buf_in sizeof_buf_data (world e) = (sizeof_buf_data, buf, w1) ->
  buf_data buf = PANIC_RESP_CHECK ->
  call_hw_reset (hw_reset board) m1 w1 = (m2, w2) ->
  m4sensorhub_load_firmware m2 0 w2 = (fw, m3, w3) ->
  0 <= fw ->
  exists m' e' evs mcall,
    m4sensorhub_panic_process (Some m1) e = (Returned, Some m', e')
    /\ trace e'
       = trace e ++ check_events ++ reset_events (hw_reset board)
         ++ [EvRegAccessUnlock] ++ evs
    /\ calls_of_slot index evs = 1%nat
    /\ EvPanicCallback index mcall
         {| callback := cb_func; data := cb_data |} ∈ evs.
Proof.
  intros Hpd Hwf Hreg Hboard Hhook Hkeep Hi2c Hmagic Hreset Hfw Hok.
  unfold m4sensorhub_panic_register in Hreg. rewrite Hpd in Hreg.
  destruct ((PANICHDL_MAX <=? index)%N || (cb_func =? NULL)) eqn:Hguard;
    [discriminate|].
  apply orb_false_iff in Hguard as [Hidx Hcb].
  apply N.leb_gt in Hidx. apply Z.eqb_neq in Hcb.
  cbn zeta in Hreg.
  destruct (callback (funcs pd !!! N.to_nat index) =? NULL) eqn:Hslot;
    [|discriminate].
  injection Hreg as <-.
  set (h := {| callback := cb_func; data := cb_data |}).
  set (pd1 := set_funcs pd (<[N.to_nat index := h]> (funcs pd))).
  assert (Hwf1 : well_formed pd1) by by apply PanicProofs.well_formed_insert.
  destruct (PanicProofs.panic_process_confirmed C
              (set_panicdata m (Some pd1)) m2 m3 pd1 board e buf w1 w2 w3 fw)
    as (evs & m' & w' & _ & Hrun & Hcalled & _); try done.
  assert (Hin : (index, h) ∈ populated_slots pd1).
  { apply PanicProofs.populated_slots_spec. split; [|done].
    subst pd1. cbn [set_funcs funcs]. apply list_lookup_insert_eq.
    by apply PanicProofs.valid_index_lt_length. }
  destruct (called_slots_elem index h evs) as [mcall Hev];
    [by rewrite Hcalled|].
  eexists m', _, evs, mcall. split; [exact Hrun|].
  cbn [trace]. split; [done|]. split; [|exact Hev].
  rewrite PanicProofs.calls_of_slot_called, Hcalled.
  apply (PanicProofs.count_sorted_member index h); [|done].
  apply PanicProofs.populated_slots_sorted.
Qed.

Lemma panic_registered_callback_is_called_witness :
  exists e',
    m4sensorhub_panic_register (Some (hub_with (Some empty_registry)))
      PANICHDL_IRQ_RESTORE 0x3000 0x4000
    = Ret (0, Some (hub_with
                      (Some {| lock := false;
                               funcs := [no_handler; irq_handler] |})))
    /\ @m4sensorhub_panic_process _ panicked_hub
         (Some (hub_with
                  (Some {| lock := false;
                           funcs := [no_handler; irq_handler] |})))
         idle
       = (Returned,
          Some (hub_with
                  (Some {| lock := false;
                           funcs := [no_handler; irq_handler] |})),
          e')
    /\ calls_of_slot PANICHDL_IRQ_RESTORE (trace e') = 1%nat
    /\ world e' = [(0x3000, 0x4000)].
Proof.
  pose (m1 := hub_with
                (Some {| lock := false;
                         funcs := [no_handler; irq_handler] |})).
  destruct (panic_registered_callback_is_called panicked_hub
              (hub_with (Some empty_registry)) m1 m1 m1 empty_registry
              sample_pdev PANICHDL_IRQ_RESTORE 0x3000 0x4000 idle
              magic_buf [] [] [] 0)
    as (m' & e' & evs & mcall & Hrun & Htr & Hcount & _).
  - reflexivity.
  - reflexivity.
  - reflexivity.
  - reflexivity.
  - discriminate.
  - exact (proj1 PanicProofs.sample_hubs_leave_registry).
  - reflexivity.
  - reflexivity.
  - reflexivity.
  - reflexivity.
  - discriminate.
  - assert (Hc :
      @m4sensorhub_panic_process _ panicked_hub (Some m1) idle
      = (Returned, Some m1,
         {| world := [(0x3000, 0x4000)]; reg_access_locked := false;
            trace := check_events ++ reset_events 0x9000
                     ++ [EvRegAccessUnlock]
                     ++ [EvPanicCallback 1 m1 irq_handler] |}))
      by reflexivity.
    rewrite Hc in Hrun. injection Hrun as <- <-.
    eexists. split; [reflexivity|]. split; [exact Hc|].
    split; reflexivity.
Defined.

Lemma filter_other_slots_id (k i : N) l :
  Forall (fun j => (i < j)%N) (map fst l) ->
  List.filter (fun ih : N * m4sensorhub_panic_callback =>
                 negb (fst ih =? i)%N) l = l.
Proof.
  induction l as [|[j h] l IH]; [done|].
  cbn [map fst]. intros Hall. inversion Hall; subst.
  cbn [List.filter fst].
  destruct (j =? i)%N eqn:E; [apply N.eqb_eq in E; lia|].
  cbn [negb]. f_equal. by apply IH.
Qed.

Lemma populated_after_clear fs :
  forall (k : N) (i : nat),
    List.filter is_populated (slots_from k (<[i := no_handler]> fs))
    = List.filter (fun ih => negb (fst ih =? k + N.of_nat i)%N)
        (List.filter is_populated (slots_from k fs)).
Proof.
  induction fs as [|h fs IH]; intros k i; [done|].
  destruct i as [|i].
  - change (<[0%nat := no_handler]> (h :: fs)) with (no_handler :: fs).
    cbn [slots_from List.filter].
    change (is_populated (k, no_handler)) with false. cbn iota.
    rewrite N.add_0_r.
    assert (Hrest :
      List.filter (fun ih => negb (fst ih =? k)%N)
        (List.filter is_populated (slots_from (k + 1) fs))
      = List.filter is_populated (slots_from (k + 1) fs)).
    { apply (filter_other_slots_id k). apply Forall_forall. intros j Hj.
      apply list_elem_of_fmap in Hj as [[j' g] [-> Hin]].
      apply list_elem_of_In, List.filter_In in Hin as [Hin _].
      apply list_elem_of_In, PanicProofs.slots_from_bound in Hin.
      cbn [fst]. lia. }
    destruct (is_populated (k, h)); cbn [List.filter fst].
    + by rewrite N.eqb_refl, Hrest.
    + by rewrite Hrest.
  - change (<[S i := no_handler]> (h :: fs))
      with (h :: <[i := no_handler]> fs).
    cbn [slots_from List.filter].
    rewrite (IH (k + 1)%N i).
    replace (k + 1 + N.of_nat i)%N with (k + N.of_nat (S i))%N by lia.
    destruct (is_populated (k, h)); cbn [List.filter fst]; [|done].
    destruct (k =? k + N.of_nat (S i))%N eqn:E;
      [apply N.eqb_eq in E; lia|done].
Qed.

(** X6.  An unregistered slot is skipped: after
    m4sensorhub_panic_unregister has returned 0 for an index, a run of
    m4sensorhub_panic_process that confirms a panic, finds the reset hook
    set and reloads the firmware, with nobody touching the registry in
    between, calls exactly the slots that were populated before, except
    that one, still by ascending index. *)
Theorem panic_unregistered_slot_is_skipped
    {World : Type} (C : Collaborators World)
    (m m1 m2 m3 : m4sensorhub_data) (pd : m4sensorhub_panicdata)
    (board : m4sensorhub_platform_data)
    (index : N) (e : env World)
    (buf : panic_buf) (w1 w2 w3 : World) (fw : Z) :
  panicdata m = Some pd ->
  well_formed pd ->
  m4sensorhub_panic_unregister (Some m) index = Ret (0, Some m1) ->
  pdev m = Some board ->
  hw_reset board <> NULL ->
  registry_untouched ->
  m4sensorhub_i2c_write_read [PANIC_BANK; PANIC_CMD_CHECK]
    sizeof_buf_in sizeof_buf_data (world e) = (sizeof_buf_data, buf, w1) ->
  buf_data buf = PANIC_RESP_CHECK ->
  call_hw_reset (hw_reset board) m1 w1 = (m2, w2) ->
  m4sensorhub_load_firmware m2 0 w2 = (fw, m3, w3) ->
  0 <= fw ->
  exists m' e' evs,
    m4sensorhub_panic_process (Some m1) e = (Returned, Some m', e')
    /\ trace e'
       = trace e ++ check_events ++ reset_events (hw_reset board)
         ++ [EvRegAccessUnlock] ++ evs
    /\ called_slots evs
       = List.filter (fun ih => negb (fst ih =? index)%N)
           (populated_slots pd)
    /\ calls_of_slot index evs = O.
Proof.
  intros Hpd Hwf Hunreg Hboard Hhook Hkeep Hi2c Hmagic Hreset Hfw Hok.
  unfold m4sensorhub_panic_unregister in Hunreg. rewrite Hpd in Hunreg.
  destruct (PANICHDL_MAX <=? index)%N eqn:Hidx; [discriminate|].
  injection Hunreg as <-.
  set (pd1 := set_funcs pd (<[N.to_nat index := no_handler]> (funcs pd))).
  assert (Hwf1 : well_formed pd1) by by apply PanicProofs.well_formed_insert.
  destruct (PanicProofs.panic_process_confirmed C
              (set_panicdata m (Some pd1)) m2 m3 pd1 board e buf w1 w2 w3 fw)
    as (evs & m' & w' & _ & Hrun & Hcalled & _); try done.
  assert (Hpop : populated_slots pd1
                 = List.filter (fun ih => negb (fst ih =? index)%N)
                     (populated_slots pd)).
  { unfold populated_slots. subst pd1. cbn [set_funcs funcs].
    rewrite populated_after_clear. by rewrite N.add_0_l, N2Nat.id. }
  eexists m', _, evs. split; [exact Hrun|].
  cbn [trace]. split; [done|]. split; [by rewrite Hcalled, Hpop|].
  rewrite PanicProofs.calls_of_slot_called, Hcalled, Hpop.
  generalize (populated_slots pd) as l.
  induction l as [|[j g] l IH]; [done|].
  cbn [List.filter fst]. destruct (j =? index)%N eqn:E; cbn [negb].
  - exact IH.
  - cbn [List.filter fst]. by rewrite E.
Qed.

Lemma panic_unregistered_slot_is_skipped_witness :
  exists e',
    m4sensorhub_panic_unregister (Some (hub_with (Some full_registry)))
      PANICHDL_DISPLAY_RESTORE
    = Ret (0, Some (hub_with
                      (Some {| lock := false;
                               funcs := [no_handler; irq_handler] |})))
    /\ @m4sensorhub_panic_process _ panicked_hub
         (Some (hub_with
                  (Some {| lock := false;
                           funcs := [no_handler; irq_handler] |})))
         idle
       = (Returned,
          Some (hub_with
                  (Some {| lock := false;
                           funcs := [no_handler; irq_handler] |})),
          e')
    /\ called_slots (trace e') = [(PANICHDL_IRQ_RESTORE, irq_handler)]
    /\ world e' = [(0x3000, 0x4000)].
Proof.
  pose (m1 := hub_with
                (Some {| lock := false;
                         funcs := [no_handler; irq_handler] |})).
  destruct (panic_unregistered_slot_is_skipped panicked_hub
              (hub_with (Some full_registry)) m1 m1 m1 full_registry
              sample_pdev PANICHDL_DISPLAY_RESTORE idle
              magic_buf [] [] [] 0)
    as (m' & e' & evs & Hrun & Htr & Hcalled & _).
  - reflexivity.
  - reflexivity.
  - reflexivity.
  - reflexivity.
  - discriminate.
  - exact (proj1 PanicProofs.sample_hubs_leave_registry).
  - reflexivity.
  - reflexivity.
  - reflexivity.
  - reflexivity.
  - discriminate.
  - assert (Hc :
      @m4sensorhub_panic_process _ panicked_hub (Some m1) idle
      = (Returned, Some m1,
         {| world := [(0x3000, 0x4000)]; reg_access_locked := false;
            trace := check_events ++ reset_events 0x9000
                     ++ [EvRegAccessUnlock]
                     ++ [EvPanicCallback 1 m1 irq_handler] |}))
      by reflexivity.
    rewrite Hc in Hrun. injection Hrun as <- <-.
    eexists. split; [reflexivity|]. split; [exact Hc|].
    split; reflexivity.
Defined.

(** X22.  The reset hook is called without a test.  When the panic is
    confirmed and the handle has no platform data (pdev is NULL), or the
    platform data has no reset hook (hw_reset is NULL),
    m4sensorhub_panic_process goes through the NULL pointer at
    m4sensorhub->pdev->hw_reset(m4sensorhub): the run stops there, after
    the lock and the check only, with the register access lock still held,
    the hub not reset, no firmware reloaded, no callback called and the
    structure untouched. *)
Theorem panic_process_unset_reset_hook_faults
    {World : Type} (C : Collaborators World)
    (m : m4sensorhub_data) (pd : m4sensorhub_panicdata) (e : env World)
    (buf : panic_buf) (w1 : World) :
  panicdata m = Some pd ->
  m4sensorhub_i2c_write_read [PANIC_BANK; PANIC_CMD_CHECK]
    sizeof_buf_in sizeof_buf_data (world e) = (sizeof_buf_data, buf, w1) ->
  buf_data buf = PANIC_RESP_CHECK ->
  pdev m = None
  \/ (exists board, pdev m = Some board /\ hw_reset board = NULL) ->
  m4sensorhub_panic_process (Some m) e
  = (Faulted, Some m,
     {| world := w1; reg_access_locked := true;
        trace := trace e ++ check_events |})
  /\ called_slots check_events = [].
Proof.
  intros Hpd Hi2c Hmagic Hhook.
  split; [|reflexivity].
  unfold m4sensorhub_panic_process. rewrite Hpd.
  cbn [m4sensorhub_reg_access_lock emit world]. rewrite Hi2c.
  rewrite Z.eqb_refl, Hmagic, Z.eqb_refl. cbn [negb orb].
  unfold m4sensorhub_reg_access_lock, on_world, emit.
  cbn [world trace reg_access_locked].
  unfold check_events.
  destruct Hhook as [->|(board & -> & ->)].
  - by rewrite <- ?app_assoc.
  - rewrite Z.eqb_refl. by rewrite <- ?app_assoc.
Qed.

Lemma panic_process_unset_reset_hook_faults_witness :
  @m4sensorhub_panic_process _ panicked_hub
    (Some (hub_without_pdev (Some full_registry))) idle
  = (Faulted, Some (hub_without_pdev (Some full_registry)),
     {| world := []; reg_access_locked := true; trace := check_events |})
  /\ called_slots check_events = [].
Proof.
  apply (panic_process_unset_reset_hook_faults panicked_hub
           (hub_without_pdev (Some full_registry)) full_registry idle
           magic_buf []).
  - reflexivity.
  - reflexivity.
  - reflexivity.
  - by left.
Defined.

End PanicUseProofs.

(* ===================================================================== *)
(** ** Further properties of the init-call registry *)
(* ===================================================================== *)

Module CoreUseProofs.
Import Core CoreSpec.






Section Unregister.
Context {World : Type}.

Lemma set_mem_same (s : state World) : set_mem (mem s) s = s.
Proof. by destruct s. Qed.


Lemma unregister_walk_no_match f l :
  forall (s : state World) (prev : ptr) (fuel : nat),
    linked (cells (mem s)) l ->
    Forall (fun r => addr r ∈ live (mem s)) l ->
    Forall (fun r => cb r <> f) l ->
    (length l < fuel)%nat ->
    unregister_loop fuel f (head_of l) prev s = Done s.
Proof.
  induction l as [|r l IH]; intros s prev fuel Hl Hlive Hno Hfuel;
    (destruct fuel as [|fuel]; [cbn in Hfuel; lia|]).
  - cbn [unregister_loop head_of]. by rewrite Z.eqb_refl.
  - destruct Hl as (Hnn & _ & Hcell & Hl).
    inversion Hlive as [|? ? Hr Hlive']; subst.
    inversion Hno as [|? ? Hcb Hno']; subst.
    cbn [length] in Hfuel. cbn [unregister_loop head_of].
    apply Z.eqb_neq in Hnn. rewrite Hnn.
    rewrite (CoreProofs.load_live _ _ _ Hr Hcell), set_mem_same.
    cbn [node_of initcb]. apply Z.eqb_neq in Hcb. rewrite Hcb.
    rewrite (CoreProofs.load_live _ _ _ Hr Hcell), set_mem_same.
    cbn [node_of next]. apply IH; try done. lia.
Qed.


End Unregister.



(** X8.  Unregistering a callback that no node of the list holds leaves
    the whole state exactly as it was: nothing is unlinked, nothing is
    freed, no freed memory is read. *)
Theorem unregister_initcall_unknown_callback
    {World : Type} (s : state World) (l : list registration)
    (f : fnptr) (fuel : nat) :
  chain (mem s) l ->
  inithead s = head_of l ->
  Forall (fun r => cb r <> f) l ->
  (length l < fuel)%nat ->
  m4sensorhub_unregister_initcall fuel f s = Done s.
Proof.
  intros [Hl Hlive] Hhead Hno Hfuel.
  unfold m4sensorhub_unregister_initcall. rewrite Hhead.
  by apply unregister_walk_no_match.
Qed.

Lemma unregister_initcall_unknown_callback_witness :
  Forall (fun r => cb r <> 0x99) [reg_x; reg_a; reg_b]
  /\ m4sensorhub_unregister_initcall 4 0x99 three_registered
     = Done three_registered.
Proof.
  assert (Hno : Forall (fun r => cb r <> 0x99) [reg_x; reg_a; reg_b]).
  { repeat constructor; discriminate. }
  split; [exact Hno|].
  assert (Hsound : sound_allocs (live (mem boot)) [reg_b; reg_a; reg_x]).
  { cbn. repeat split; compute_done. }
  destruct (CoreProofs.register_all_chain (World := nat)
              [reg_b; reg_a; reg_x] [] boot)
    as (Hchain & Hhead & _).
  { split; [exact I|constructor]. }
  { reflexivity. }
  { exact Hsound. }
  change (rev (succeeded [reg_b; reg_a; reg_x]) ++ [])
    with [reg_x; reg_a; reg_b] in Hchain, Hhead.
  apply (unregister_initcall_unknown_callback three_registered
           [reg_x; reg_a; reg_b] 0x99 4).
  - exact Hchain.
  - exact Hhead.
  - exact Hno.
  - cbn. lia.
Defined.

Section Bringup.
Context {World : Type} `{Collaborators World}.

(** With a firmware, m4sensorhub_initialize reads the address of the i2c
    client first: it faults when no client has been bound. *)
Lemma initialize_unbound_client (s : state World) (fuel : nat) :
  Board.i2c_client (hub (common s)) = None ->
  m4sensorhub_initialize true fuel s = Fault.
Proof. intros Hnone. unfold m4sensorhub_initialize. by rewrite Hnone. Qed.

End Bringup.

Example initialize_before_probe_faults :
  @m4sensorhub_initialize _ sample_clients true 4 CoreSamples.unprobed
  = Fault.
Proof. by apply initialize_unbound_client. Qed.

(** X10.  A bring-up that stops early consumes nothing.  When the
    firmware pointer is NULL m4sensorhub_initialize returns at once and
    changes nothing.  When the download fails, or the set-up of the
    interrupt table fails, it returns without calling or freeing any init
    call: the list and inithead are untouched.  After a failed download
    the structure (its mode included) is what the loader has left, and
    the GPIO lines are what m4sensorhub_hw_reset, run on that structure,
    makes of the lines the loader has left.  After a failed set-up of the
    interrupt table the structure and the lines are what
    m4sensorhub_irq_init has left: the function itself has driven no
    line, and in neither case has it set the mode. *)
Theorem initialize_failure_keeps_initcalls
    {World : Type} (C : Collaborators World)
    (s : state World) (firmware : bool) (fuel : nat)
    (client_addr st err : Z) (o1 o2 : shared World) :
  (firmware = true ->
   Board.i2c_client (hub (common s)) = Some client_addr) ->
  (if client_addr =? 0x39
   then m4sensorhub_401_load_firmware (force_upgrade s) (common s)
   else m4sensorhub_load_firmware (force_upgrade s) (common s))
  = (st, o1) ->
  m4sensorhub_irq_init o1 = (err, o2) ->
  firmware = false \/ st < 0 \/ err < 0 ->
  exists s',
    m4sensorhub_initialize firmware fuel s = Done s'
    /\ mem s' = mem s
    /\ inithead s' = inithead s
    /\ calls_and_frees (trace s') = calls_and_frees (trace s)
    /\ (firmware = false -> s' = s)
    /\ (firmware = true -> st < 0 ->
        trace s' = trace s ++ [load_event client_addr (force_upgrade s)]
        /\ firmware_download_status s' = st
        /\ hub (common s') = hub o1
        /\ mode (common s') = mode o1
        /\ lines (common s')
           = Board.m4sensorhub_hw_reset (Some (hub o1)) (lines o1))
    /\ (firmware = true -> 0 <= st ->
        trace s'
        = trace s ++ [load_event client_addr (force_upgrade s); EvIrqInit]
        /\ firmware_download_status s' = st
        /\ common s' = o2).
Proof.
  intros Hclient Hfw Hirq Hfail.
  unfold m4sensorhub_initialize.
  destruct firmware; cbn [negb].
  2:{ exists s. split; [done|]. split; [done|]. split; [done|].
      split; [done|]. split; [done|]. by split. }
  rewrite (Hclient eq_refl).
  assert (Hquiet : forall t ev,
    calls_and_frees (t ++ [load_event client_addr (force_upgrade s)] ++ ev)
    = calls_and_frees (t ++ ev)).
  { intros t ev. unfold calls_and_frees, load_event.
    rewrite !List.filter_app. by destruct (client_addr =? 57). }
  fold (load_event client_addr (force_upgrade s)).
  cbn [note force_upgrade common]. rewrite Hfw.
  cbn [firmware_download_status set_status set_common].
  destruct (st <? 0) eqn:Hst.
  - eexists. split; [reflexivity|].
    cbn [set_lines set_status set_common note mem inithead common trace
         firmware_download_status hub mode lines].
    split; [done|]. split; [done|].
    split.
    { rewrite <- (app_nil_r (trace s)) at 2.
      rewrite <- (Hquiet (trace s) []). by rewrite app_nil_r. }
    split; [done|]. split.
    + intros _ _. by repeat split.
    + intros _ Hpos. apply Z.ltb_lt in Hst. lia.
  - apply Z.ltb_ge in Hst.
    cbn [note common set_status set_common]. rewrite Hirq.
    assert (Herr : (err <? 0) = true).
    { apply Z.ltb_lt. destruct Hfail as [?|[?|?]]; [done|lia|done]. }
    rewrite Herr.
    eexists. split; [reflexivity|].
    cbn [set_status set_common note mem inithead common trace
         firmware_download_status].
    split; [done|]. split; [done|].
    split.
    { rewrite <- app_assoc.
      rewrite (Hquiet (trace s) [EvIrqInit]).
      unfold calls_and_frees. rewrite List.filter_app. cbn [List.filter].
      by rewrite app_nil_r. }
    split; [done|]. split.
    + intros _ Hneg. lia.
    + intros _ _. rewrite <- app_assoc. by repeat split.
Qed.

Lemma initialize_failure_keeps_initcalls_witness :
  exists s',
    @m4sensorhub_initialize _ CoreSamples.download_fails true 4
      CoreSamples.apart_registered = Done s'
    /\ mem s' = mem CoreSamples.apart_registered
    /\ inithead s' = inithead CoreSamples.apart_registered
    /\ calls_and_frees (trace s') = []
    /\ mode (common s') = BOOTMODE
    /\ Board.trace (lines (common s'))
       = [Board.EvGpioSetValue 14 0; Board.EvGpioSetValue 15 0;
          Board.EvGpioSetValue 12 1; Board.EvUsleepRange 5000 10000;
          Board.EvGpioSetValue 12 0; Board.EvUsleepRange 5000 10000;
          Board.EvGpioSetValue 12 1].
Proof.
  destruct (initialize_failure_keeps_initcalls CoreSamples.download_fails
              CoreSamples.apart_registered true 4 0x18 (-5) 0
              (set_mode BOOTMODE (common boot))
              (set_mode BOOTMODE (common boot)))
    as (s' & Hrun & Hm & Hh & Hc & _ & Hdown & _).
  - reflexivity.
  - reflexivity.
  - reflexivity.
  - right. left. reflexivity.
  - destruct (Hdown eq_refl) as (_ & _ & _ & Hmd & Hlines); [reflexivity|].
    exists s'. split; [exact Hrun|]. split; [exact Hm|].
    split; [exact Hh|]. split; [exact Hc|]. split; [exact Hmd|].
    rewrite Hlines. reflexivity.
Defined.

End CoreUseProofs.

(* ===================================================================== *)
(** ** Properties of the board functions *)
(* ===================================================================== *)

Module BoardProofs.
Import Board.

Section Lines.
Context {World : Type} `{Gpiolib World}.

Lemma trace_gpio_set_value g v (p : pins World) :
  trace (gpio_set_value g v p) = trace p ++ [EvGpioSetValue g v].
Proof. reflexivity. Qed.

(** Driving the two boot lines, boot0 first. *)
Lemma boot_lines_written (m : m4sensorhub_data) (v0 v1 : Z) (p : pins World) :
  boot0_gpio (hwconfig m) <> boot1_gpio (hwconfig m) ->
  let p' := gpio_set_value (boot1_gpio (hwconfig m)) v1
              (gpio_set_value (boot0_gpio (hwconfig m)) v0 p) in
  level p' !! boot0_gpio (hwconfig m) = Some v0
  /\ level p' !! boot1_gpio (hwconfig m) = Some v1
  /\ (forall g, g <> boot0_gpio (hwconfig m) ->
                g <> boot1_gpio (hwconfig m) ->
                level p' !! g = level p !! g)
  /\ world p' = world p
  /\ trace p' = trace p ++ [EvGpioSetValue (boot0_gpio (hwconfig m)) v0;
                            EvGpioSetValue (boot1_gpio (hwconfig m)) v1].
Proof.
  intros Hne p'. subst p'. unfold gpio_set_value, emit.
  cbn [level world trace].
  split; [|split; [|split; [|split]]].
  - rewrite lookup_insert_ne by done. by rewrite lookup_insert_eq.
  - by rewrite lookup_insert_eq.
  - intros g H0 H1. by rewrite !lookup_insert_ne.
  - done.
  - by rewrite <- app_assoc.
Qed.

End Lines.

(** X11.  m4sensorhub_set_bootmode encodes the mode on the two boot
    lines, boot0 carrying the low bit and boot1 the high one: for the four
    enumerators (and distinct boot lines) it returns 0 and the lines then
    read back as the mode that was asked for, no other line changing; for
    any other value it returns 0 and drives nothing; for a NULL handle it
    returns -EINVAL and drives nothing. *)
Theorem set_bootmode_selects_mode
    {World : Type}
    (m : m4sensorhub_data) (bootmode : N) (p : pins World) :
  boot0_gpio (hwconfig m) <> boot1_gpio (hwconfig m) ->
  exists p',
    m4sensorhub_set_bootmode (Some m) bootmode p = (0, p')
    /\ (((bootmode <= BOOTMODE11)%N
         /\ selected_bootmode m p' = Some bootmode
         /\ (forall g, g <> boot0_gpio (hwconfig m) ->
                       g <> boot1_gpio (hwconfig m) ->
                       level p' !! g = level p !! g))
        \/ ((BOOTMODE11 < bootmode)%N /\ p' = p))
    /\ m4sensorhub_set_bootmode None bootmode p = (- EINVAL, p).
Proof.
  intros Hne. unfold m4sensorhub_set_bootmode, BOOTMODE11.
  assert (Hsel : forall v0 v1,
    (v0 = 0 \/ v0 = 1) -> (v1 = 0 \/ v1 = 1) ->
    selected_bootmode m
      (gpio_set_value (boot1_gpio (hwconfig m)) v1
         (gpio_set_value (boot0_gpio (hwconfig m)) v0 p))
    = Some (Z.to_N (v0 + 2 * v1))).
  { intros v0 v1 H0 H1.
    destruct (boot_lines_written m v0 v1 p Hne) as (Hl0 & Hl1 & _).
    unfold selected_bootmode. rewrite Hl0, Hl1.
    by destruct H0 as [-> | ->], H1 as [-> | ->]. }
  destruct bootmode as [|[[q|q|]|[q|q|]|]]; cbn zeta iota;
    eexists; (split; [reflexivity|]); (split; [|reflexivity]);
    try (right; split; [lia|reflexivity]);
    left; (split; [lia|]).
  - split; [by apply (Hsel 0 0); left|].
    by destruct (boot_lines_written m 0 0 p Hne) as (_ & _ & Hf & _).
  - split; [by apply (Hsel 1 1); right|].
    by destruct (boot_lines_written m 1 1 p Hne) as (_ & _ & Hf & _).
  - split; [by apply (Hsel 0 1); [left|right]|].
    by destruct (boot_lines_written m 0 1 p Hne) as (_ & _ & Hf & _).
  - split; [by apply (Hsel 1 0); [right|left]|].
    by destruct (boot_lines_written m 1 0 p Hne) as (_ & _ & Hf & _).
Qed.

Lemma set_bootmode_selects_mode_witness :
  boot0_gpio (hwconfig (sample_board None))
  <> boot1_gpio (hwconfig (sample_board None))
  /\ exists p',
       @m4sensorhub_set_bootmode unit (Some (sample_board None)) BOOTMODE10
         idle_pins = (0, p')
       /\ level p' !! 14 = Some 0
       /\ level p' !! 15 = Some 1.
Proof.
  split; [discriminate|].
  destruct (set_bootmode_selects_mode (sample_board None)
              BOOTMODE10 idle_pins)
    as (p' & Hrun & _ & _).
  - discriminate.
  - exists p'. split; [exact Hrun|].
    vm_compute in Hrun. inversion Hrun. split; reflexivity.
Defined.

Lemma writes_to_app g t1 t2 :
  writes_to g (t1 ++ t2) = writes_to g t1 ++ writes_to g t2.
Proof. unfold writes_to. apply flat_map_app. Qed.

(** X12.  m4sensorhub_hw_reset on a handle with an i2c client (and
    distinct reset and boot lines) first selects the boot mode, BOOTMODE01
    for the part at address 0x39 and BOOTMODE00 otherwise, then pulses the
    reset line.  The sequence of the writes and sleeps is exactly, for the
    part at 0x39: boot0 = 1, boot1 = 0, sleep 5 to 10 ms, reset = 0, sleep
    10 to 12 ms, reset = 1, sleep 400 ms; for any other part: boot0 = 0,
    boot1 = 0, reset = 1, sleep 5 to 10 ms, reset = 0, sleep 5 to 10 ms,
    reset = 1.  So the boot lines are written before the reset line, the
    last two writes to the reset line are 0 then 1 and the hub is left out
    of reset, and no line other than boot0, boot1 and reset is driven.
    With a NULL handle or without an i2c client nothing is driven at
    all. *)
Theorem hw_reset_pulses_reset_line
    {World : Type}
    (m : m4sensorhub_data) (client_addr : Z) (p : pins World) :
  i2c_client m = Some client_addr ->
  boot0_gpio (hwconfig m) <> boot1_gpio (hwconfig m) ->
  reset_gpio (hwconfig m) <> boot0_gpio (hwconfig m) ->
  reset_gpio (hwconfig m) <> boot1_gpio (hwconfig m) ->
  exists new,
    trace (m4sensorhub_hw_reset (Some m) p) = trace p ++ new
    /\ new
       = (if client_addr =? 0x39
          then [EvGpioSetValue (boot0_gpio (hwconfig m)) 1;
                EvGpioSetValue (boot1_gpio (hwconfig m)) 0;
                EvUsleepRange 5000 10000;
                EvGpioSetValue (reset_gpio (hwconfig m)) 0;
                EvUsleepRange 10000 12000;
                EvGpioSetValue (reset_gpio (hwconfig m)) 1;
                EvMsleep 400]
          else [EvGpioSetValue (boot0_gpio (hwconfig m)) 0;
                EvGpioSetValue (boot1_gpio (hwconfig m)) 0;
                EvGpioSetValue (reset_gpio (hwconfig m)) 1;
                EvUsleepRange 5000 10000;
                EvGpioSetValue (reset_gpio (hwconfig m)) 0;
                EvUsleepRange 5000 10000;
                EvGpioSetValue (reset_gpio (hwconfig m)) 1])
    /\ level (m4sensorhub_hw_reset (Some m) p) !! reset_gpio (hwconfig m)
       = Some 1
    /\ selected_bootmode m (m4sensorhub_hw_reset (Some m) p)
       = Some (if client_addr =? 0x39 then BOOTMODE01 else BOOTMODE00)
    /\ writes_to (reset_gpio (hwconfig m)) new
       = (if client_addr =? 0x39 then [0; 1] else [1; 0; 1])
    /\ Forall (fun g => g = boot0_gpio (hwconfig m)
                        \/ g = boot1_gpio (hwconfig m)
                        \/ g = reset_gpio (hwconfig m))
         (lines_written new)
    /\ m4sensorhub_hw_reset None p = p
    /\ m4sensorhub_hw_reset
         (Some {| i2c_client := None; hwconfig := hwconfig m;
                  filename := filename m |}) p = p.
Proof.
  intros Hclient Hb Hr0 Hr1.
  assert (E0 : (boot0_gpio (hwconfig m) =? reset_gpio (hwconfig m)) = false)
    by (apply Z.eqb_neq; congruence).
  assert (E1 : (boot1_gpio (hwconfig m) =? reset_gpio (hwconfig m)) = false)
    by (apply Z.eqb_neq; congruence).
  unfold m4sensorhub_hw_reset. rewrite Hclient.
  unfold m4sensorhub_set_bootmode, BOOTMODE01, BOOTMODE00.
  destruct (client_addr =? 57); cbn zeta iota;
    change (0 <? 0) with false; cbn iota;
    unfold selected_bootmode, msleep, usleep_range, gpio_set_value, emit;
    cbn [level world trace];
    (eexists; split; [rewrite <- ?app_assoc; reflexivity|]);
    (split; [reflexivity|]);
    (split; [by rewrite lookup_insert_eq|]);
    (split;
     [rewrite !(lookup_insert_ne _ (reset_gpio (hwconfig m))) by done;
      rewrite (lookup_insert_ne _ (boot1_gpio (hwconfig m))) by done;
      by rewrite !lookup_insert_eq|]);
    (split;
     [cbn [app writes_to flat_map]; rewrite E0, E1, Z.eqb_refl; reflexivity|]);
    (split; [|done]);
    cbn [app lines_written flat_map];
    repeat (constructor; [tauto|]); constructor.
Qed.

Lemma hw_reset_pulses_reset_line_witness :
  i2c_client (sample_board (Some 0x39)) = Some 0x39
  /\ trace (@m4sensorhub_hw_reset unit (Some (sample_board (Some 0x39)))
              idle_pins)
     = trace idle_pins
       ++ [EvGpioSetValue 14 1; EvGpioSetValue 15 0;
           EvUsleepRange 5000 10000; EvGpioSetValue 12 0;
           EvUsleepRange 10000 12000; EvGpioSetValue 12 1; EvMsleep 400]
  /\ level (@m4sensorhub_hw_reset unit (Some (sample_board (Some 0x39)))
              idle_pins) !! 12 = Some 1
  /\ selected_bootmode (sample_board (Some 0x39))
       (@m4sensorhub_hw_reset unit (Some (sample_board (Some 0x39)))
          idle_pins) = Some BOOTMODE01.
Proof.
  split; [reflexivity|].
  destruct (hw_reset_pulses_reset_line (sample_board (Some 0x39)) 0x39
              idle_pins)
    as (new & Htrace & Hnew & Hlevel & Hmode & _).
  - reflexivity.
  - discriminate.
  - discriminate.
  - discriminate.
  - split; [by rewrite Htrace, Hnew|]. split; [exact Hlevel|exact Hmode].
Defined.

Lemma acquired_app t1 t2 : acquired (t1 ++ t2) = acquired t1 ++ acquired t2.
Proof. unfold acquired. apply flat_map_app. Qed.

Lemma freed_app t1 t2 : freed (t1 ++ t2) = freed t1 ++ freed t2.
Proof. unfold freed. apply flat_map_app. Qed.

Section Acquisition.
Context {World : Type} `{Gpiolib World}.

Lemma between_refl (p : pins World) : between p p [] [].
Proof. exists []. by rewrite app_nil_r. Qed.

(** one more event that neither acquires nor frees *)
Lemma between_emit (p0 p : pins World) A F ev :
  acquired [ev] = [] -> freed [ev] = [] ->
  between p0 p A F -> between p0 (emit ev p) A F.
Proof.
  intros Ha Hf (new & Ht & HA & HF). exists (new ++ [ev]).
  cbn [emit trace]. rewrite Ht, acquired_app, freed_app, Ha, Hf, HA, HF.
  by rewrite <- app_assoc, !app_nil_r.
Qed.

Lemma between_direction_output (p0 p : pins World) A F g v :
  between p0 p A F -> between p0 (gpio_direction_output g v p) A F.
Proof.
  intros (new & Ht & HA & HF). exists (new ++ [EvGpioDirectionOutput g v]).
  unfold gpio_direction_output, emit. cbn [trace].
  rewrite Ht, acquired_app, freed_app, HA, HF.
  by rewrite <- app_assoc, !app_nil_r.
Qed.

Lemma between_free (p0 p : pins World) A F g :
  between p0 p A F -> between p0 (gpio_free g p) A (F ++ [g]).
Proof.
  intros (new & Ht & HA & HF). exists (new ++ [EvGpioFree g]).
  unfold gpio_free, emit. cbn [trace].
  rewrite Ht, acquired_app, freed_app, HA, HF.
  by rewrite <- app_assoc, !app_nil_r.
Qed.

Lemma between_free_if_held (p0 p : pins World) A F g :
  between p0 p A F ->
  between p0 (free_if_held g p) A (F ++ if 0 <=? g then [g] else []).
Proof.
  intros Hb. unfold free_if_held. destruct (0 <=? g).
  - by apply between_free.
  - by rewrite app_nil_r.
Qed.

(** The outcome of one lookup and request. *)
Lemma between_lookup_and_request node name label (p0 p p' : pins World)
    A F gpio err :
  between p0 p A F ->
  lookup_and_request node name label p = (gpio, err, p') ->
  gpio = of_get_named_gpio_flags node name
  /\ ((err = 0 /\ 0 <= gpio /\ between p0 p' (A ++ [gpio]) F)
      \/ (err <> 0 /\ between p0 p' A F)).
Proof.
  intros (new & Ht & HA & HF). unfold lookup_and_request.
  destruct (of_get_named_gpio_flags node name <? 0) eqn:Hneg.
  - intros [= <- <- <-]. split; [done|]. right.
    split; [unfold ENODEV; lia|]. by exists new.
  - destruct (gpio_request _ label (world p)) as [e w].
    intros [= <- <- <-]. split; [done|].
    apply Z.ltb_ge in Hneg. rename e into err.
    destruct (decide (err = 0)) as [->|Hne].
    + left. split; [done|]. split; [done|].
      exists (new ++ [EvGpioRequest (of_get_named_gpio_flags node name)
                        label 0]).
      cbn [emit trace]. rewrite Ht, acquired_app, freed_app, HA, HF.
      by rewrite <- app_assoc, app_nil_r.
    + right. split; [done|].
      exists (new ++ [EvGpioRequest (of_get_named_gpio_flags node name)
                        label err]).
      cbn [emit trace]. rewrite Ht, acquired_app, freed_app, HA, HF.
      cbn [acquired flat_map]. apply Z.eqb_neq in Hne. rewrite Hne.
      by rewrite <- app_assoc, !app_nil_r.
Qed.

(** What m4sensorhub_hw_init leaves behind. *)
Lemma hw_init_outcome (m : m4sensorhub_data) (node : option device_node)
    (p : pins World) :
  exists ret m' p',
    m4sensorhub_hw_init (Some m) node p = Ret (ret, m', p')
    /\ i2c_client m' = i2c_client m
    /\ ((ret = 0
         /\ between p p' (gpios_of (hwconfig m')) []
         /\ Forall (fun g => 0 <= g) (gpios_of (hwconfig m'))
         /\ exists n,
              node = Some n
              /\ filename m' = fw_filename n
              /\ filename m' <> None
              /\ gpios_of (hwconfig m')
                 = map (of_get_named_gpio_flags n) gpio_properties)
        \/ (ret <> 0
            /\ (exists A, between p p' A (rev A))
            /\ filename m' = None)).
Proof.
  unfold m4sensorhub_hw_init.
  destruct node as [n|].
  2:{ eexists _, _, _. split; [reflexivity|]. split; [done|]. right.
      split; [unfold ENODATA; lia|]. split; [|done].
      exists []. apply between_refl. }
  destruct (fw_filename n) as [fp|] eqn:Hfp.
  2:{ eexists _, _, _. split; [reflexivity|]. split; [done|]. right.
      split; [unfold EINVAL; lia|]. split; [|done].
      exists []. apply between_refl. }
  pose proof (between_refl p) as Hb0.
  (* irq *)
  match goal with
  | |- context [lookup_and_request ?nd ?nm ?lb ?q] =>
      destruct (lookup_and_request nd nm lb q) as [[g1 e1] p1] eqn:E1
  end.
  destruct (between_lookup_and_request _ _ _ _ _ _ _ _ _ _ Hb0 E1)
    as (Hg1 & [(-> & Hp1 & Hb1)|(Hne & Hb1)]).
  2:{ apply Z.eqb_neq in Hne as Hne'. rewrite Hne'. cbn [negb].
      eexists _, _, _. split; [reflexivity|]. split; [done|]. right.
      split; [done|]. split; [|done]. by exists []. }
  cbn [Z.eqb negb].
  apply (between_emit _ _ _ _ (EvGpioDirectionInput g1) eq_refl eq_refl)
    in Hb1.
  fold (gpio_direction_input g1 p1) in Hb1.
  (* reset *)
  match goal with
  | |- context [lookup_and_request ?nd ?nm ?lb ?q] =>
      destruct (lookup_and_request nd nm lb q) as [[g2 e2] p2] eqn:E2
  end.
  destruct (between_lookup_and_request _ _ _ _ _ _ _ _ _ _ Hb1 E2)
    as (Hg2 & [(-> & Hp2 & Hb2)|(Hne & Hb2)]).
  2:{ apply Z.eqb_neq in Hne as Hne'. rewrite Hne'. cbn [negb].
      eexists _, _, _. split; [reflexivity|]. split; [done|]. right.
      split; [done|]. split; [|done].
      exists [g1]. by apply between_free. }
  cbn [Z.eqb negb].
  apply (between_direction_output _ _ _ _ g2 0) in Hb2.
  (* wake *)
  match goal with
  | |- context [lookup_and_request ?nd ?nm ?lb ?q] =>
      destruct (lookup_and_request nd nm lb q) as [[g3 e3] p3] eqn:E3
  end.
  destruct (between_lookup_and_request _ _ _ _ _ _ _ _ _ _ Hb2 E3)
    as (Hg3 & [(-> & Hp3 & Hb3)|(Hne & Hb3)]).
  2:{ apply Z.eqb_neq in Hne as Hne'. rewrite Hne'. cbn [negb].
      eexists _, _, _. split; [reflexivity|]. split; [done|]. right.
      split; [done|]. split; [|done].
      exists [g1; g2]. by do 2 apply between_free. }
  cbn [Z.eqb negb].
  apply (between_direction_output _ _ _ _ g3 0) in Hb3.
  (* boot0 *)
  match goal with
  | |- context [lookup_and_request ?nd ?nm ?lb ?q] =>
      destruct (lookup_and_request nd nm lb q) as [[g4 e4] p4] eqn:E4
  end.
  destruct (between_lookup_and_request _ _ _ _ _ _ _ _ _ _ Hb3 E4)
    as (Hg4 & [(-> & Hp4 & Hb4)|(Hne & Hb4)]).
  2:{ apply Z.eqb_neq in Hne as Hne'. rewrite Hne'. cbn [negb].
      eexists _, _, _. split; [reflexivity|]. split; [done|]. right.
      split; [done|]. split; [|done].
      exists [g1; g2; g3]. by do 3 apply between_free. }
  cbn [Z.eqb negb].
  apply (between_direction_output _ _ _ _ g4 0) in Hb4.
  (* boot1 *)
  match goal with
  | |- context [lookup_and_request ?nd ?nm ?lb ?q] =>
      destruct (lookup_and_request nd nm lb q) as [[g5 e5] p5] eqn:E5
  end.
  destruct (between_lookup_and_request _ _ _ _ _ _ _ _ _ _ Hb4 E5)
    as (Hg5 & [(-> & Hp5 & Hb5)|(Hne & Hb5)]).
  2:{ apply Z.eqb_neq in Hne as Hne'. rewrite Hne'. cbn [negb].
      eexists _, _, _. split; [reflexivity|]. split; [done|]. right.
      split; [done|]. split; [|done].
      exists [g1; g2; g3; g4]. by do 4 apply between_free. }
  cbn [Z.eqb negb].
  apply (between_direction_output _ _ _ _ g5 0) in Hb5.
  (* enable *)
  match goal with
  | |- context [lookup_and_request ?nd ?nm ?lb ?q] =>
      destruct (lookup_and_request nd nm lb q) as [[g6 e6] p6] eqn:E6
  end.
  destruct (between_lookup_and_request _ _ _ _ _ _ _ _ _ _ Hb5 E6)
    as (Hg6 & [(-> & Hp6 & Hb6)|(Hne & Hb6)]).
  2:{ apply Z.eqb_neq in Hne as Hne'. rewrite Hne'. cbn [negb].
      eexists _, _, _. split; [reflexivity|]. split; [done|]. right.
      split; [done|]. split; [|done].
      exists [g1; g2; g3; g4; g5]. by do 5 apply between_free. }
  cbn [Z.eqb negb].
  apply (between_direction_output _ _ _ _ g6 0) in Hb6.
  eexists _, _, _. split; [reflexivity|]. split; [done|]. left.
  split; [done|]. split; [exact Hb6|]. split.
  { cbn. by repeat constructor. }
  exists n. split; [done|]. cbn. rewrite Hfp.
  split; [done|]. split; [done|]. by rewrite Hg1, Hg2, Hg3, Hg4, Hg5, Hg6.
Qed.


Lemma released_negative g : released g < 0.
Proof. unfold released. destruct (0 <=? g) eqn:E; [lia|]. by apply Z.leb_gt. Qed.

Lemma free_if_held_released g (p : pins World) :
  free_if_held (released g) p = p.
Proof.
  unfold free_if_held. pose proof (released_negative g) as Hn.
  apply Z.leb_gt in Hn. by rewrite Hn.
Qed.

Lemma released_released g : released (released g) = released g.
Proof.
  unfold released at 1. pose proof (released_negative g) as Hn.
  apply Z.leb_gt in Hn. by rewrite Hn.
Qed.

(** What m4sensorhub_hw_free leaves behind. *)
Lemma hw_free_outcome (m : m4sensorhub_data) (p : pins World) :
  exists m1 p1,
    m4sensorhub_hw_free (Some m) p = (Some m1, p1)
    /\ between p p1 []
         (List.filter (fun g => 0 <=? g) (gpios_of (hwconfig m)))
    /\ Forall (fun g => g < 0) (gpios_of (hwconfig m1))
    /\ filename m1 = None
    /\ i2c_client m1 = i2c_client m
    /\ m4sensorhub_hw_free (Some m1) p1 = (Some m1, p1).
Proof.
  destruct m as [cl [g1 g2 g3 g4 g5 g6] fn].
  unfold m4sensorhub_hw_free.
  cbn [hwconfig irq_gpio reset_gpio wake_gpio boot0_gpio boot1_gpio
         mpu_9150_en_gpio set_irq_gpio set_reset_gpio set_wake_gpio
         set_boot0_gpio set_boot1_gpio set_mpu_9150_en_gpio set_hwconfig
         set_filename i2c_client filename].
  eexists _, _. split; [reflexivity|].
  split; [|split; [|split; [done|split; [done|]]]].
  - pose proof (between_refl p) as Hb.
    apply (between_free_if_held _ _ _ _ g1) in Hb.
    apply (between_free_if_held _ _ _ _ g2) in Hb.
    apply (between_free_if_held _ _ _ _ g3) in Hb.
    apply (between_free_if_held _ _ _ _ g4) in Hb.
    apply (between_free_if_held _ _ _ _ g5) in Hb.
    apply (between_free_if_held _ _ _ _ g6) in Hb.
    cbn [gpios_of irq_gpio reset_gpio wake_gpio boot0_gpio boot1_gpio
           mpu_9150_en_gpio List.filter].
    replace (if 0 <=? g1 then g1 :: _ else _)
      with (((((([] ++ (if 0 <=? g1 then [g1] else []))
                 ++ (if 0 <=? g2 then [g2] else []))
                ++ (if 0 <=? g3 then [g3] else []))
               ++ (if 0 <=? g4 then [g4] else []))
              ++ (if 0 <=? g5 then [g5] else []))
             ++ (if 0 <=? g6 then [g6] else [])); [exact Hb|].
    by destruct (0 <=? g1), (0 <=? g2), (0 <=? g3), (0 <=? g4),
      (0 <=? g5), (0 <=? g6).
  - cbn [gpios_of hwconfig irq_gpio reset_gpio wake_gpio boot0_gpio
           boot1_gpio mpu_9150_en_gpio].
    repeat (constructor; [apply released_negative|]). constructor.
  - cbn [hwconfig irq_gpio reset_gpio wake_gpio boot0_gpio boot1_gpio
           mpu_9150_en_gpio set_irq_gpio set_reset_gpio set_wake_gpio
           set_boot0_gpio set_boot1_gpio set_mpu_9150_en_gpio set_hwconfig
           set_filename i2c_client filename].
    by rewrite !free_if_held_released, !released_released.
Qed.

End Acquisition.

(** X13.  m4sensorhub_hw_init either acquires everything or keeps
    nothing.  When it returns 0 it has requested, with success and in this
    order, the six GPIOs the device tree names (irq, reset, wake, boot0,
    boot1, enable), all of them non-negative, has freed none, and has
    recorded them and the firmware file name in the structure.  When it
    returns anything else (node missing, file name missing, a GPIO not in
    the tree, a request refused) it has freed every GPIO it had acquired,
    last acquired first, and the file name is NULL.  With a NULL handle
    the error path itself stores through the NULL pointer. *)
Theorem hw_init_all_or_nothing
    {World : Type} (G : Gpiolib World)
    (m : m4sensorhub_data) (node : option device_node) (p : pins World) :
  exists ret m' p',
    m4sensorhub_hw_init (Some m) node p = Ret (ret, m', p')
    /\ ((ret = 0
         /\ between p p' (gpios_of (hwconfig m')) []
         /\ Forall (fun g => 0 <= g) (gpios_of (hwconfig m'))
         /\ exists n,
              node = Some n
              /\ filename m' = fw_filename n
              /\ filename m' <> None
              /\ gpios_of (hwconfig m')
                 = map (of_get_named_gpio_flags n) gpio_properties)
        \/ (ret <> 0
            /\ (exists A, between p p' A (rev A))
            /\ filename m' = None))
    /\ m4sensorhub_hw_init None node p = NullDeref.
Proof.
  destruct (hw_init_outcome m node p) as (ret & m' & p' & Hrun & _ & Hout).
  exists ret, m', p'. by repeat split.
Qed.

(** X14.  m4sensorhub_hw_free frees each GPIO of the configuration that
    is non-negative, once and in the order of the structure, and leaves
    every GPIO number negative and the file name NULL; calling it again
    frees nothing and changes nothing.  A NULL handle is left alone. *)
Theorem hw_free_releases_once
    {World : Type}
    (m : m4sensorhub_data) (p : pins World) :
  exists m1 p1,
    m4sensorhub_hw_free (Some m) p = (Some m1, p1)
    /\ between p p1 []
         (List.filter (fun g => 0 <=? g) (gpios_of (hwconfig m)))
    /\ Forall (fun g => g < 0) (gpios_of (hwconfig m1))
    /\ filename m1 = None
    /\ m4sensorhub_hw_free (Some m1) p1 = (Some m1, p1)
    /\ m4sensorhub_hw_free None p = (None, p).
Proof.
  destruct (hw_free_outcome m p) as (m1 & p1 & Hrun & Hb & Hneg & Hfn & _ & Hid).
  exists m1, p1. by repeat split.
Qed.

Lemma filter_all_held l :
  Forall (fun g => 0 <= g) l -> List.filter (fun g => 0 <=? g) l = l.
Proof.
  induction 1 as [|g l Hg _ IH]; [done|].
  cbn [List.filter]. apply Z.leb_le in Hg. by rewrite Hg, IH.
Qed.

(** X15.  What a successful m4sensorhub_hw_init acquires,
    m4sensorhub_hw_free releases: after hw_init has returned 0, hw_free on
    the same structure frees exactly the six GPIOs that were acquired,
    each once. *)
Theorem hw_init_then_hw_free_balanced
    {World : Type} (G : Gpiolib World)
    (m m' : m4sensorhub_data) (node : option device_node)
    (p p' : pins World) :
  m4sensorhub_hw_init (Some m) node p = Ret (0, m', p') ->
  exists m1 p1,
    m4sensorhub_hw_free (Some m') p' = (Some m1, p1)
    /\ between p p' (gpios_of (hwconfig m')) []
    /\ between p' p1 [] (gpios_of (hwconfig m'))
    /\ Forall (fun g => g < 0) (gpios_of (hwconfig m1)).
Proof.
  intros Hinit.
  destruct (hw_init_outcome m node p) as (ret & m2 & p2 & Hrun & _ & Hout).
  rewrite Hinit in Hrun. injection Hrun as <- <- <-.
  destruct Hout as [(_ & Hacq & Hpos & _)|(Hne & _)]; [|done].
  destruct (hw_free_outcome m' p') as (m1 & p1 & Hfree & Hb & Hneg & _).
  exists m1, p1. rewrite (filter_all_held _ Hpos) in Hb. by repeat split.
Qed.

Lemma hw_init_then_hw_free_balanced_witness :
  exists m' p' m1 p1,
    @m4sensorhub_hw_init _ grudging_gpiolib
      (Some {| i2c_client := Some 0x18; hwconfig := unset_config;
               filename := None |})
      (Some (sample_node 13)) idle_pins = Ret (0, m', p')
    /\ gpios_of (hwconfig m') = [11; 12; 13; 14; 15; 16]
    /\ m4sensorhub_hw_free (Some m') p' = (Some m1, p1)
    /\ between p' p1 [] [11; 12; 13; 14; 15; 16].
Proof.
  eexists _, _.
  assert (Hinit :
    @m4sensorhub_hw_init _ grudging_gpiolib
      (Some {| i2c_client := Some 0x18; hwconfig := unset_config;
               filename := None |})
      (Some (sample_node 13)) idle_pins
    = Ret (0, _, _)) by (vm_compute; reflexivity).
  destruct (hw_init_then_hw_free_balanced grudging_gpiolib _ _ _ _ _ Hinit)
    as (m1 & p1 & Hfree & _ & Hb & _).
  exists m1, p1. split; [exact Hinit|]. split; [reflexivity|].
  split; [exact Hfree|exact Hb].
Defined.

End BoardProofs.

(* ===================================================================== *)
(** ** Properties of the log level word *)
(* ===================================================================== *)

Module LogLevelsProofs.
Import LogLevels.
Import Stdlib.Strings.String.
Local Open Scope string_scope.
Local Open Scope Z_scope.

Lemma first_match_absent table s i :
  s ∉ table -> first_match table s i = -1.
Proof.
  revert i. induction table as [|e table IH]; intros i Hs; [done|].
  cbn [first_match]. destruct (String.eqb_spec e s) as [->|Hne].
  - exfalso. apply Hs. apply list_elem_of_here.
  - apply IH. intros Hin. apply Hs. by apply list_elem_of_further.
Qed.

Lemma first_match_first_at table s i k :
  first_at table s k -> first_match table s i = i + Z.of_nat k.
Proof.
  revert i k. induction table as [|e table IH]; intros i k [Hk Hfirst].
  - by rewrite lookup_nil in Hk.
  - cbn [first_match]. destruct k as [|k].
    + cbn in Hk. injection Hk as ->. rewrite String.eqb_refl. lia.
    + destruct (String.eqb_spec e s) as [->|Hne].
      * exfalso. by apply (Hfirst 0%nat); [lia|].
      * rewrite (IH (i + 1) k); [lia|]. split; [done|].
        intros j Hj. apply (Hfirst (S j)). lia.
Qed.

Lemma first_at_exists table s :
  s ∈ table -> exists k, first_at table s k.
Proof.
  induction table as [|e table IH]; intros Hin.
  - by apply elem_of_nil in Hin.
  - destruct (String.eqb_spec e s) as [->|Hne].
    + exists 0%nat. split; [done|]. intros j Hj. lia.
    + apply elem_of_cons in Hin as [->|Hin]; [done|].
      destruct (IH Hin) as (k & Hk & Hfirst). exists (S k). split; [done|].
      intros [|j] Hj; cbn; [congruence|]. apply Hfirst. lia.
Qed.

Lemma bits_above (a k j : Z) :
  0 <= a < 2 ^ k -> 0 <= k <= j -> Z.testbit a j = false.
Proof.
  intros [Ha0 Ha] Hk.
  destruct (Z.eq_dec a 0) as [->|Hne]; [apply Z.bits_0|].
  apply Z.bits_above_log2; [done|].
  assert (Z.log2 a < k); [|lia].
  apply Z.log2_lt_pow2; lia.
Qed.

Lemma testbit_3 j : Z.testbit 3 j = (0 <=? j) && (j <? 2).
Proof.
  destruct (Z_lt_ge_dec j 0).
  - rewrite Z.testbit_neg_r by done. symmetry. apply andb_false_iff. left. by apply Z.leb_gt.
  - destruct (Z_lt_ge_dec j 2).
    + assert (j = 0 \/ j = 1) as [-> | ->] by lia; reflexivity.
    + rewrite (bits_above 3 2 j) by lia. symmetry.
      apply andb_false_iff. right. apply Z.ltb_ge. lia.
Qed.

Lemma updated_bits (t lv L i : Z) :
  0 <= t -> t * 2 + 2 <= 64 -> 0 <= lv < 4 -> 0 <= L < 2 ^ 64 -> 0 <= i ->
  Z.testbit (updated t lv L) i
  = if (t * 2 <=? i) && (i <? t * 2 + 2) then Z.testbit lv (i - t * 2)
    else Z.testbit L i.
Proof.
  intros Ht Ht' Hlv HL Hi. unfold updated.
  rewrite Z.lor_spec, Z.land_spec, (Z.shiftl_spec lv) by done.
  assert (Hm : 0 <= Z.shiftl 3 (t * 2) < 2 ^ 64).
  { rewrite Z.shiftl_mul_pow2 by lia. split; [apply Z.mul_nonneg_nonneg; [lia|apply Z.pow_nonneg; lia]|].
    pose proof (Z.pow_le_mono_r 2 (t * 2) 62 ltac:(lia) ltac:(lia)) as Hp.
    assert (0 < 2 ^ (t * 2)) by (apply Z.pow_pos_nonneg; lia).
    change (2 ^ 62) with 4611686018427387904 in Hp.
    change (2 ^ 64) with 18446744073709551616. lia. }
  rewrite Z.mod_small by done.
  assert (Hn : ull_not (Z.shiftl 3 (t * 2)) = Z.lnot (Z.shiftl 3 (t * 2)) mod 2 ^ 64).
  { unfold ull_not, ULLONG_MAX, Z.lnot.
    change (2 ^ 64) with 18446744073709551616 in *.
    apply Z.mod_unique_pos with (q := -1); lia. }
  rewrite Hn.
  destruct (Z_lt_ge_dec i 64) as [Hlt|Hge].
  - rewrite Z.mod_pow2_bits_low, Z.lnot_spec, Z.shiftl_spec, testbit_3 by lia.
    destruct (t * 2 <=? i) eqn:E1; destruct (i <? t * 2 + 2) eqn:E2;
      cbn [andb];
      repeat match goal with
        | H : (_ <=? _) = true |- _ => apply Z.leb_le in H
        | H : (_ <=? _) = false |- _ => apply Z.leb_gt in H
        | H : (_ <? _) = true |- _ => apply Z.ltb_lt in H
        | H : (_ <? _) = false |- _ => apply Z.ltb_ge in H
        end.
    + replace (0 <=? i - t * 2) with true by (symmetry; apply Z.leb_le; lia).
      replace (i - t * 2 <? 2) with true by (symmetry; apply Z.ltb_lt; lia).
      cbn. by rewrite andb_false_r.
    + replace (i - t * 2 <? 2) with false by (symmetry; apply Z.ltb_ge; lia).
      rewrite andb_false_r. cbn. rewrite andb_true_r.
      rewrite (bits_above lv 2 (i - t * 2)) by lia. by rewrite orb_false_r.
    + replace (0 <=? i - t * 2) with false by (symmetry; apply Z.leb_gt; lia).
      cbn. rewrite andb_true_r, (Z.testbit_neg_r lv) by lia.
      by rewrite orb_false_r.
    + lia.
  - rewrite Z.mod_pow2_bits_high by lia. rewrite andb_false_r. cbn.
    replace ((t * 2 <=? i) && (i <? t * 2 + 2)) with false.
    2:{ symmetry. apply andb_false_iff. right. apply Z.ltb_ge. lia. }
    rewrite (bits_above L 64 i), (bits_above lv 2 (i - t * 2)) by lia. done.
Qed.


Lemma below_pow2_64 x :
  0 <= x -> (forall i, 64 <= i -> Z.testbit x i = false) -> x < 2 ^ 64.
Proof.
  intros Hx Hhigh.
  assert (x = x mod 2 ^ 64) as ->.
  { apply Z.bits_inj'. intros i Hi. destruct (Z_lt_ge_dec i 64).
    - by rewrite Z.mod_pow2_bits_low.
    - rewrite Z.mod_pow2_bits_high by lia. apply Hhigh. lia. }
  apply Z.mod_pos_bound. done.
Qed.

Lemma updated_range (t lv L : Z) :
  0 <= t -> t * 2 + 2 <= 64 -> 0 <= lv < 4 -> 0 <= L < 2 ^ 64 ->
  0 <= updated t lv L < 2 ^ 64.
Proof.
  intros Ht Ht' Hlv HL.
  assert (H0 : 0 <= updated t lv L).
  { unfold updated. apply Z.lor_nonneg. split.
    - apply Z.land_nonneg. left. lia.
    - apply Z.shiftl_nonneg. lia. }
  split; [done|]. apply below_pow2_64; [done|]. intros i Hi.
  rewrite updated_bits by lia.
  replace ((t * 2 <=? i) && (i <? t * 2 + 2)) with false.
  - apply (bits_above L 64 i); lia.
  - symmetry. apply andb_false_iff. right. apply Z.ltb_ge. lia.
Qed.

Lemma field_updated_same (t lv L : Z) :
  0 <= t -> t * 2 + 2 <= 64 -> 0 <= lv < 4 -> 0 <= L < 2 ^ 64 ->
  field t (updated t lv L) = lv.
Proof.
  intros Ht Ht' Hlv HL. unfold field. apply Z.bits_inj'. intros i Hi.
  rewrite Z.land_spec, Z.shiftr_spec, updated_bits, testbit_3 by lia.
  destruct (Z_lt_ge_dec i 2).
  - replace ((t * 2 <=? i + t * 2) && (i + t * 2 <? t * 2 + 2)) with true.
    2:{ symmetry. apply andb_true_iff. split; [apply Z.leb_le|apply Z.ltb_lt]; lia. }
    replace (i + t * 2 - t * 2) with i by lia.
    replace ((0 <=? i) && (i <? 2)) with true; [by rewrite andb_true_r|].
    symmetry. apply andb_true_iff. split; [apply Z.leb_le|apply Z.ltb_lt]; lia.
  - replace (i <? 2) with false by (symmetry; apply Z.ltb_ge; lia).
    rewrite !andb_false_r. symmetry. apply (bits_above lv 2 i); lia.
Qed.

Lemma field_updated_other (t u lv L : Z) :
  0 <= t -> t * 2 + 2 <= 64 -> 0 <= lv < 4 -> 0 <= L < 2 ^ 64 ->
  0 <= u -> u <> t ->
  field u (updated t lv L) = field u L.
Proof.
  intros Ht Ht' Hlv HL Hu Hne. unfold field. apply Z.bits_inj'. intros i Hi.
  rewrite !Z.land_spec, !Z.shiftr_spec, updated_bits, testbit_3 by lia.
  destruct (Z_lt_ge_dec i 2).
  - replace ((t * 2 <=? i + u * 2) && (i + u * 2 <? t * 2 + 2)) with false;
      [done|].
    symmetry. apply andb_false_iff.
    destruct (Z_lt_ge_dec u t); [left; apply Z.leb_gt|right; apply Z.ltb_ge]; lia.
  - replace (i <? 2) with false by (symmetry; apply Z.ltb_ge; lia).
    by rewrite !andb_false_r.
Qed.

Lemma updated_twice (t lv1 lv2 L : Z) :
  0 <= t -> t * 2 + 2 <= 64 -> 0 <= lv1 < 4 -> 0 <= lv2 < 4 ->
  0 <= L < 2 ^ 64 ->
  updated t lv2 (updated t lv1 L) = updated t lv2 L.
Proof.
  intros Ht Ht' H1 H2 HL. apply Z.bits_inj'. intros i Hi.
  pose proof (updated_range t lv1 L Ht Ht' H1 HL).
  rewrite !updated_bits by lia.
  by destruct ((t * 2 <=? i) && (i <? t * 2 + 2)).
Qed.

Lemma updated_commute (t u lv1 lv2 L : Z) :
  0 <= t -> t * 2 + 2 <= 64 -> 0 <= u -> u * 2 + 2 <= 64 -> t <> u ->
  0 <= lv1 < 4 -> 0 <= lv2 < 4 -> 0 <= L < 2 ^ 64 ->
  updated t lv1 (updated u lv2 L) = updated u lv2 (updated t lv1 L).
Proof.
  intros Ht Ht' Hu Hu' Hne H1 H2 HL. apply Z.bits_inj'. intros i Hi.
  pose proof (updated_range t lv1 L Ht Ht' H1 HL).
  pose proof (updated_range u lv2 L Hu Hu' H2 HL).
  rewrite !updated_bits by lia.
  destruct ((t * 2 <=? i) && (i <? t * 2 + 2)) eqn:E1;
    destruct ((u * 2 <=? i) && (i <? u * 2 + 2)) eqn:E2; try done.
  apply andb_true_iff in E1 as [E1 E1'], E2 as [E2 E2'].
  apply Z.leb_le in E1, E2. apply Z.ltb_lt in E1', E2'. lia.
Qed.

Section Tables.
Variables acLogLevels acLogTags : list String.string.

Lemma parse_known (tag level : String.string) (t lv : nat) (L : Z) :
  first_at acLogTags tag t -> first_at acLogLevels level lv ->
  (t <= 14)%nat -> (lv <= 3)%nat ->
  ParseAndUpdateLogLevels acLogLevels acLogTags tag level L
  = Ret (updated (Z.of_nat t) (Z.of_nat lv) L).
Proof.
  intros Htag Hlevel Ht Hlv. unfold ParseAndUpdateLogLevels.
  rewrite (first_match_first_at _ _ 0 _ Htag),
    (first_match_first_at _ _ 0 _ Hlevel).
  rewrite !Z.add_0_l.
  replace (Z.of_nat t =? -1) with false by (symmetry; apply Z.eqb_neq; lia).
  replace (Z.of_nat lv =? -1) with false by (symmetry; apply Z.eqb_neq; lia).
  cbn [orb]. unfold ull_shl, int_shl.
  replace (0 <=? Z.of_nat t * 2) with true by (symmetry; apply Z.leb_le; lia).
  replace (Z.of_nat t * 2 <? 64) with true by (symmetry; apply Z.ltb_lt; lia).
  replace (0 <=? Z.of_nat lv) with true by (symmetry; apply Z.leb_le; lia).
  replace (Z.of_nat t * 2 <? 32) with true by (symmetry; apply Z.ltb_lt; lia).
  replace (Z.shiftl (Z.of_nat lv) (Z.of_nat t * 2) <=? INT_MAX) with true;
    [reflexivity|].
  symmetry. apply Z.leb_le. rewrite Z.shiftl_mul_pow2 by lia.
  pose proof (Z.pow_le_mono_r 2 (Z.of_nat t * 2) 28 ltac:(lia) ltac:(lia)) as Hp.
  assert (0 < 2 ^ (Z.of_nat t * 2)) by (apply Z.pow_pos_nonneg; lia).
  change (2 ^ 28) with 268435456 in Hp. unfold INT_MAX.
  change (2 ^ 31) with 2147483648. nia.
Qed.

End Tables.

Lemma first_at_index_differs (table : list String.string) s1 s2 k1 k2 :
  first_at table s1 k1 -> first_at table s2 k2 -> s1 <> s2 -> k1 <> k2.
Proof. intros [H1 _] [H2 _] Hne ->. congruence. Qed.

(** X16.  ParseAndUpdateLogLevels sets one two-bit field and nothing
    else.  For a tag first found at index t <= 14 of acLogTags and a level
    first found at index lv <= 3 of acLogLevels, the shifts are defined,
    the new word is again a 64-bit value, its field t reads lv, and every
    other field reads what it read before. *)
Theorem loglevel_update_sets_one_field
    (acLogLevels acLogTags : list String.string)
    (tag level : String.string) (t lv : nat) (L : Z) :
  first_at acLogTags tag t ->
  first_at acLogLevels level lv ->
  (t <= 14)%nat ->
  (lv <= 3)%nat ->
  0 <= L < 2 ^ 64 ->
  exists L',
    ParseAndUpdateLogLevels acLogLevels acLogTags tag level L = Ret L'
    /\ 0 <= L' < 2 ^ 64
    /\ field (Z.of_nat t) L' = Z.of_nat lv
    /\ forall u, 0 <= u -> u <> Z.of_nat t -> field u L' = field u L.
Proof.
  intros Htag Hlevel Ht Hlv HL.
  exists (updated (Z.of_nat t) (Z.of_nat lv) L).
  split; [by apply parse_known|].
  split; [apply updated_range; lia|].
  split; [apply field_updated_same; lia|].
  intros u Hu Hne. apply field_updated_other; lia.
Qed.

Lemma sample_tag_accel : first_at sample_tags "LOG_ACCEL" 2.
Proof.
  split; [reflexivity|].
  intros [|[|j]] Hj; [discriminate|discriminate|lia].
Defined.

Lemma sample_tag_timer : first_at sample_tags "LOG_TIMER" 1.
Proof.
  split; [reflexivity|]. intros [|j] Hj; [discriminate|lia].
Defined.

Lemma sample_level_debug : first_at sample_levels "LOG_DEBUG" 3.
Proof.
  split; [reflexivity|].
  intros [|[|[|j]]] Hj; [discriminate|discriminate|discriminate|lia].
Defined.

Lemma sample_level_error : first_at sample_levels "LOG_ERROR" 1.
Proof.
  split; [reflexivity|]. intros [|j] Hj; [discriminate|lia].
Defined.

Lemma loglevel_update_sets_one_field_witness :
  exists L',
    ParseAndUpdateLogLevels sample_levels sample_tags "LOG_ACCEL"
      "LOG_DEBUG" 0x15 = Ret L'
    /\ field 2 L' = 3 /\ field 0 L' = 1 /\ field 1 L' = 1.
Proof.
  destruct (loglevel_update_sets_one_field sample_levels sample_tags
              "LOG_ACCEL" "LOG_DEBUG" 2 3 0x15
              sample_tag_accel sample_level_debug
              ltac:(lia) ltac:(lia) ltac:(lia))
    as (L' & Hrun & _ & Hset & Hkeep).
  exists L'. split; [exact Hrun|]. split; [exact Hset|].
  split; [exact (Hkeep 0 ltac:(lia) ltac:(lia))
         |exact (Hkeep 1 ltac:(lia) ltac:(lia))].
Defined.

(** X17.  ParseAndUpdateLogLevels ignores a name it does not know: when
    the tag is not in acLogTags, or the level is not in acLogLevels, the
    word is returned as it was. *)
Theorem loglevel_update_ignores_unknown_names
    (acLogLevels acLogTags : list String.string)
    (tag level : String.string) (L : Z) :
  tag ∉ acLogTags \/ level ∉ acLogLevels ->
  ParseAndUpdateLogLevels acLogLevels acLogTags tag level L = Ret L.
Proof.
  intros Hunknown. unfold ParseAndUpdateLogLevels.
  destruct Hunknown as [Htag|Hlevel].
  - by rewrite (first_match_absent _ _ 0 Htag).
  - rewrite (first_match_absent _ _ 0 Hlevel). cbn [Z.eqb Pos.eqb].
    by rewrite orb_true_r.
Qed.

Lemma loglevel_update_ignores_unknown_names_witness :
  ParseAndUpdateLogLevels sample_levels sample_tags "LOG_ACCEL"
    "LOG_DEGUB" 0x15 = Ret 0x15.
Proof.
  apply loglevel_update_ignores_unknown_names. right. intros Hin.
  repeat (apply elem_of_cons in Hin as [Hin|Hin]; [discriminate|]).
  by apply elem_of_nil in Hin.
Defined.

(** X18.  The last assignment to a tag wins: updating the same tag twice
    gives the word that the second update alone gives. *)
Theorem loglevel_last_assignment_wins
    (acLogLevels acLogTags : list String.string)
    (tag level1 level2 : String.string) (t lv1 lv2 : nat) (L : Z) :
  first_at acLogTags tag t ->
  first_at acLogLevels level1 lv1 ->
  first_at acLogLevels level2 lv2 ->
  (t <= 14)%nat ->
  (lv1 <= 3)%nat ->
  (lv2 <= 3)%nat ->
  0 <= L < 2 ^ 64 ->
  exists L1 L2,
    ParseAndUpdateLogLevels acLogLevels acLogTags tag level1 L = Ret L1
    /\ ParseAndUpdateLogLevels acLogLevels acLogTags tag level2 L1 = Ret L2
    /\ ParseAndUpdateLogLevels acLogLevels acLogTags tag level2 L = Ret L2.
Proof.
  intros Htag H1 H2 Ht Hlv1 Hlv2 HL.
  exists (updated (Z.of_nat t) (Z.of_nat lv1) L),
    (updated (Z.of_nat t) (Z.of_nat lv2) L).
  rewrite !(parse_known _ _ tag _ t) with (lv := lv1) by done.
  rewrite !(parse_known _ _ tag _ t) with (lv := lv2) by done.
  split; [done|]. split; [|done]. f_equal. apply updated_twice; lia.
Qed.

Lemma loglevel_last_assignment_wins_witness :
  exists L1,
    ParseAndUpdateLogLevels sample_levels sample_tags "LOG_ACCEL"
      "LOG_ERROR" 0 = Ret L1
    /\ ParseAndUpdateLogLevels sample_levels sample_tags "LOG_ACCEL"
         "LOG_DEBUG" L1 = Ret 0x30.
Proof.
  destruct (loglevel_last_assignment_wins sample_levels sample_tags
              "LOG_ACCEL" "LOG_ERROR" "LOG_DEBUG" 2 1 3 0
              sample_tag_accel sample_level_error sample_level_debug
              ltac:(lia) ltac:(lia) ltac:(lia) ltac:(lia))
    as (L1 & L2 & Hrun1 & Hrun2 & Hdirect).
  exists L1. split; [exact Hrun1|].
  rewrite Hrun2, <- Hdirect. reflexivity.
Defined.

(** X19.  Assignments to different tags do not interfere: two updates
    for different tags give the same word in either order. *)
Theorem loglevel_updates_commute
    (acLogLevels acLogTags : list String.string)
    (tag1 tag2 level1 level2 : String.string) (t1 t2 lv1 lv2 : nat)
    (L : Z) :
  first_at acLogTags tag1 t1 ->
  first_at acLogTags tag2 t2 ->
  tag1 <> tag2 ->
  first_at acLogLevels level1 lv1 ->
  first_at acLogLevels level2 lv2 ->
  (t1 <= 14)%nat ->
  (t2 <= 14)%nat ->
  (lv1 <= 3)%nat ->
  (lv2 <= 3)%nat ->
  0 <= L < 2 ^ 64 ->
  exists L1 L2 L',
    ParseAndUpdateLogLevels acLogLevels acLogTags tag1 level1 L = Ret L1
    /\ ParseAndUpdateLogLevels acLogLevels acLogTags tag2 level2 L1 = Ret L'
    /\ ParseAndUpdateLogLevels acLogLevels acLogTags tag2 level2 L = Ret L2
    /\ ParseAndUpdateLogLevels acLogLevels acLogTags tag1 level1 L2 = Ret L'.
Proof.
  intros Ht1 Ht2 Hne H1 H2 Hb1 Hb2 Hlv1 Hlv2 HL.
  pose proof (first_at_index_differs _ _ _ _ _ Ht1 Ht2 Hne) as Hidx.
  exists (updated (Z.of_nat t1) (Z.of_nat lv1) L),
    (updated (Z.of_nat t2) (Z.of_nat lv2) L),
    (updated (Z.of_nat t2) (Z.of_nat lv2)
       (updated (Z.of_nat t1) (Z.of_nat lv1) L)).
  rewrite !(parse_known _ _ tag1 level1 t1 lv1) by done.
  rewrite !(parse_known _ _ tag2 level2 t2 lv2) by done.
  split; [done|]. split; [done|]. split; [done|].
  f_equal. apply updated_commute; lia.
Qed.

Lemma loglevel_updates_commute_witness :
  exists L1 L2,
    ParseAndUpdateLogLevels sample_levels sample_tags "LOG_ACCEL"
      "LOG_DEBUG" 0 = Ret L1
    /\ ParseAndUpdateLogLevels sample_levels sample_tags "LOG_TIMER"
         "LOG_ERROR" 0 = Ret L2
    /\ ParseAndUpdateLogLevels sample_levels sample_tags "LOG_TIMER"
         "LOG_ERROR" L1
       = ParseAndUpdateLogLevels sample_levels sample_tags "LOG_ACCEL"
           "LOG_DEBUG" L2.
Proof.
  destruct (loglevel_updates_commute sample_levels sample_tags
              "LOG_ACCEL" "LOG_TIMER" "LOG_DEBUG" "LOG_ERROR" 2 1 3 1 0
              sample_tag_accel sample_tag_timer ltac:(discriminate)
              sample_level_debug sample_level_error
              ltac:(lia) ltac:(lia) ltac:(lia) ltac:(lia) ltac:(lia))
    as (L1 & L2 & L' & Hrun1 & Hrun12 & Hrun2 & Hrun21).
  exists L1, L2. split; [exact Hrun1|]. split; [exact Hrun2|].
  by rewrite Hrun12, Hrun21.
Defined.

End LogLevelsProofs.

(* ===================================================================== *)
(** ** Properties of probe and remove *)
(* ===================================================================== *)

Module ProbeProofs.
Import Board Probe BoardProofs.

Section Frame.
Context {World : Type} `{Kernel World}.

Lemma between_same_trace (p0 p p' : pins World) A F :
  trace p' = trace p -> between p0 p A F -> between p0 p' A F.
Proof. intros Ht (new & Hn & HA & HF). exists new. by rewrite Ht. Qed.

Lemma between_set_value (p0 p : pins World) A F g v :
  between p0 p A F -> between p0 (gpio_set_value g v p) A F.
Proof.
  intros (new & Ht & HA & HF). exists (new ++ [EvGpioSetValue g v]).
  unfold gpio_set_value, emit. cbn [trace].
  rewrite Ht, acquired_app, freed_app, HA, HF.
  by rewrite <- app_assoc, !app_nil_r.
Qed.

Lemma between_set_bootmode (p0 p : pins World) A F m bootmode :
  between p0 p A F ->
  between p0 (m4sensorhub_set_bootmode m bootmode p).2 A F.
Proof.
  intros Hb. unfold m4sensorhub_set_bootmode. destruct m as [m|]; [|done].
  cbn [snd].
  destruct bootmode as [|[[|[]|]|[|[]|]|]]; try done;
    by do 2 apply between_set_value.
Qed.

Lemma between_hw_reset (p0 p : pins World) A F m :
  between p0 p A F -> between p0 (m4sensorhub_hw_reset m p) A F.
Proof.
  intros Hb. unfold m4sensorhub_hw_reset. destruct m as [m|]; [|done].
  destruct (i2c_client m) as [a|]; [|done].
  destruct (a =? 57).
  - pose proof (between_set_bootmode _ _ _ _ (Some m) BOOTMODE01 Hb) as Hb'.
    destruct (m4sensorhub_set_bootmode (Some m) BOOTMODE01 p) as [err p1].
    cbn [snd] in Hb'. destruct (err <? 0); [done|].
    apply (between_emit _ _ _ _ (EvMsleep 400) eq_refl eq_refl).
    apply between_set_value.
    apply (between_emit _ _ _ _ (EvUsleepRange 10000 12000)
             eq_refl eq_refl).
    apply between_set_value.
    by apply (between_emit _ _ _ _ (EvUsleepRange 5000 10000)
                eq_refl eq_refl).
  - pose proof (between_set_bootmode _ _ _ _ (Some m) BOOTMODE00 Hb) as Hb'.
    destruct (m4sensorhub_set_bootmode (Some m) BOOTMODE00 p) as [err p1].
    cbn [snd] in Hb'. destruct (err <? 0); [done|].
    apply between_set_value.
    apply (between_emit _ _ _ _ (EvUsleepRange 5000 10000)
             eq_refl eq_refl).
    apply between_set_value.
    apply (between_emit _ _ _ _ (EvUsleepRange 5000 10000)
             eq_refl eq_refl).
    by apply between_set_value.
Qed.

Lemma between_trans (p0 p1 p2 : pins World) A1 F1 A2 F2 :
  between p0 p1 A1 F1 -> between p1 p2 A2 F2 ->
  between p0 p2 (A1 ++ A2) (F1 ++ F2).
Proof.
  intros (n1 & H1 & HA1 & HF1) (n2 & H2 & HA2 & HF2). exists (n1 ++ n2).
  rewrite H2, H1, acquired_app, freed_app.
  by rewrite <- app_assoc, HA1, HA2, HF1, HF2.
Qed.

Lemma lookup_and_request_sign node name label (p p' : pins World) gpio err :
  gpio_request_contract ->
  lookup_and_request node name label p = (gpio, err, p') -> err <= 0.
Proof.
  intros Hc. unfold lookup_and_request.
  destruct (of_get_named_gpio_flags node name <? 0).
  - intros [= <- <- <-]. unfold ENODEV. lia.
  - pose proof (Hc (of_get_named_gpio_flags node name) label (world p)) as Hr.
    destruct (gpio_request _ label (world p)) as [e w].
    intros [= <- <- <-]. exact Hr.
Qed.

Lemma hw_init_ret_nonpos (m m' : m4sensorhub_data) node (p p' : pins World)
    ret :
  gpio_request_contract ->
  m4sensorhub_hw_init (Some m) node p = Ret (ret, m', p') -> ret <= 0.
Proof.
  intros Hc. unfold m4sensorhub_hw_init.
  destruct node as [n|]; [|intros [= <- <- <-]; unfold ENODATA; lia].
  destruct (fw_filename n) as [fp|];
    [|intros [= <- <- <-]; unfold EINVAL; lia].
  repeat
    (match goal with
     | |- context [lookup_and_request ?nd ?nm ?lb ?q] =>
         let E := fresh "E" in
         destruct (lookup_and_request nd nm lb q) as [[? ?] ?] eqn:E;
         apply (lookup_and_request_sign _ _ _ _ _ _ _ Hc) in E
     end;
     match goal with
     | |- context [negb (?e =? 0)] =>
         destruct (e =? 0);
         cbn [negb];
         [|unfold hw_init_error_enable, hw_init_error_boot1,
             hw_init_error_boot0, hw_init_error_wake, hw_init_error_reset,
             hw_init_error;
           intros [= <- <- <-]; done]
     end).
  intros [= <- <- <-]. lia.
Qed.


Lemma registered_app b t1 t2 :
  misc_device_registered b (t1 ++ t2)
  = misc_device_registered (misc_device_registered b t1) t2.
Proof. apply fold_left_app. Qed.

Lemma present_app b t1 t2 :
  sysfs_group_present b (t1 ++ t2)
  = sysfs_group_present (sysfs_group_present b t1) t2.
Proof. apply fold_left_app. Qed.

(** What the tail shared by the error labels of probe does. *)
Lemma err_hw_free_outcome (d : driver World) (p0 : pins World) A :
  between p0 (lines d) A [] ->
  Forall (fun g => 0 <= g) (gpios_of (hwconfig (board d))) ->
  let d' := err_hw_free d in
  between p0 (lines d') A (gpios_of (hwconfig (board d)))
  /\ clientdata d' = false
  /\ i2c_client (board d') = None
  /\ Forall (fun g => g < 0) (gpios_of (hwconfig (board d')))
  /\ chan d' = chan d
  /\ calls d' = calls d
  /\ m4sensorhub_debug d' = m4sensorhub_debug d.
Proof.
  intros Hb Hpos d'. subst d'. unfold err_hw_free.
  cbn [board lines set_board set_clientdata].
  destruct (hw_free_outcome (set_i2c_client None (board d)) (lines d))
    as (m1 & p1 & Hfree & Hb1 & Hneg & _ & Hcl & _).
  rewrite Hfree. cbn [from_option id].
  cbn [set_lines set_board lines clientdata board chan calls
         m4sensorhub_debug].
  cbn [set_i2c_client hwconfig] in Hb1.
  rewrite (filter_all_held _ Hpos) in Hb1.
  split; [|by repeat split].
  apply (between_trans _ _ _ _ _ _ _ Hb) in Hb1.
  by rewrite app_nil_r in Hb1.
Qed.


Lemma running_frame (f : World -> World) (c : call) (d : driver World) :
  let d' := running f c d in
  trace (lines d') = trace (lines d)
  /\ board d' = board d
  /\ chan d' = chan d
  /\ clientdata d' = clientdata d
  /\ m4sensorhub_debug d' = m4sensorhub_debug d
  /\ calls d' = calls d ++ [c].
Proof. done. Qed.

Lemma returning_frame (f : World -> Z * World) (c : Z -> call)
    (d : driver World) :
  let d' := (returning f c d).2 in
  trace (lines d') = trace (lines d)
  /\ board d' = board d
  /\ chan d' = chan d
  /\ clientdata d' = clientdata d
  /\ client_irq d' = client_irq d
  /\ m4sensorhub_debug d' = m4sensorhub_debug d
  /\ calls d' = calls d ++ [c (returning f c d).1].
Proof. unfold returning. by destruct (f (world (lines d))). Qed.

(** The state an error label starts from, and the one it ends in: every
    GPIO held is freed, the client data is unlinked, and [undo] are the
    calls made on the way. *)
Definition unwinds (l : driver World -> driver World) (undo : list call)
  : Prop :=
  forall (d : driver World) (p0 : pins World) A,
    between p0 (lines d) A [] ->
    Forall (fun g => 0 <= g) (gpios_of (hwconfig (board d))) ->
    between p0 (lines (l d)) A (gpios_of (hwconfig (board d)))
    /\ clientdata (l d) = false
    /\ Panic.mode (chan (l d)) = Panic.mode (chan d)
    /\ (Panic.panicdata (chan d) = None ->
        Panic.panicdata (chan (l d)) = None)
    /\ calls (l d) = calls d ++ undo
    /\ m4sensorhub_debug (l d) = m4sensorhub_debug d.

Lemma err_hw_free_unwinds : unwinds err_hw_free [].
Proof.
  intros d p0 A Hb Hpos.
  destruct (err_hw_free_outcome d p0 A Hb Hpos)
    as (Hb' & Hcd & _ & _ & Hch & Hcalls & Hdbg).
  rewrite Hch, Hcalls, app_nil_r. by repeat split.
Qed.

Lemma unwinds_after_running (l : driver World -> driver World) undo f c :
  unwinds l undo -> unwinds (fun d => l (running f c d)) (c :: undo).
Proof.
  intros Hl d p0 A Hb Hpos.
  destruct (running_frame f c d) as (Ht & Hbd & Hch & _ & Hdbg & Hcalls).
  destruct (Hl (running f c d) p0 A) as (Hb' & Hcd & Hmode & Hpd & Hc' & Hd').
  { by apply (between_same_trace _ (lines d)). }
  { by rewrite Hbd. }
  rewrite Hbd in Hb'. rewrite Hch in Hmode, Hpd.
  rewrite Hcalls, <- app_assoc in Hc'. rewrite Hdbg in Hd'.
  by repeat split.
Qed.

Lemma err_deregister_unwinds : unwinds err_deregister [CallMiscDeregister].
Proof. apply (unwinds_after_running _ _ _ _ err_hw_free_unwinds). Qed.

Lemma err_unregister_control_group_unwinds :
  unwinds err_unregister_control_group
    [CallSysfsRemoveGroup; CallMiscDeregister].
Proof. apply (unwinds_after_running _ _ _ _ err_deregister_unwinds). Qed.

Lemma err_reg_shutdown_unwinds :
  unwinds err_reg_shutdown
    [CallRegShutdown; CallSysfsRemoveGroup; CallMiscDeregister].
Proof.
  apply (unwinds_after_running _ _ _ _ err_unregister_control_group_unwinds).
Qed.

(** err_panic_shutdown also clears panicdata, whatever it was. *)
Lemma err_panic_shutdown_unwinds (d : driver World) (p0 : pins World) A :
  between p0 (lines d) A [] ->
  Forall (fun g => 0 <= g) (gpios_of (hwconfig (board d))) ->
  let d' := err_panic_shutdown d in
  between p0 (lines d') A (gpios_of (hwconfig (board d)))
  /\ clientdata d' = false
  /\ Panic.mode (chan d') = Panic.mode (chan d)
  /\ Panic.panicdata (chan d') = None
  /\ calls d'
     = calls d ++ [CallRegShutdown; CallSysfsRemoveGroup; CallMiscDeregister]
  /\ m4sensorhub_debug d' = m4sensorhub_debug d.
Proof.
  intros Hb Hpos d'. subst d'. unfold err_panic_shutdown.
  set (d1 := set_chan _ d).
  destruct (err_reg_shutdown_unwinds d1 p0 A Hb Hpos)
    as (Hb' & Hcd & Hmode & Hpd & Hcalls & Hdbg).
  assert (Hch : Panic.mode (chan d1) = Panic.mode (chan d)
                /\ Panic.panicdata (chan d1) = None).
  { subst d1. cbn [chan set_chan Panic.m4sensorhub_panic_shutdown].
    by destruct (Panic.panicdata (chan d)) eqn:E. }
  destruct Hch as [Hm1 Hp1]. rewrite Hm1 in Hmode.
  specialize (Hpd Hp1). by repeat split.
Qed.

(** What m4sensorhub_probe leaves behind. *)
Lemma probe_outcome (client_addr : Z) (node : option device_node)
    (debug_level : Z) (config_debug_fs : bool) (d : driver World) :
  gpio_request_contract ->
  clientdata d = false ->
  Panic.panicdata (chan d) = None ->
  exists ret d' new,
    m4sensorhub_probe client_addr node debug_level config_debug_fs d
    = Ret (ret, d')
    /\ m4sensorhub_debug d' = M4SH_INFO
    /\ Panic.mode (chan d') = UNINITIALIZED
    /\ calls d' = calls d ++ new
    /\ ((0 <= ret
         /\ between (lines d) (lines d') (gpios_of (hwconfig (board d'))) []
         /\ Forall (fun g => 0 <= g) (gpios_of (hwconfig (board d')))
         /\ i2c_client (board d') = Some client_addr
         /\ filename (board d') <> None
         /\ clientdata d' = true
         /\ client_irq d' = gpio_to_irq (irq_gpio (hwconfig (board d')))
         /\ (exists pd,
               Panic.panicdata (chan d') = Some pd
               /\ PanicSpec.well_formed pd
               /\ PanicSpec.populated_slots pd = [])
         /\ exists r1 r2,
              0 <= r1 /\ 0 <= r2
              /\ new = [CallMiscRegister r1; CallSysfsCreateGroup r2;
                        CallRequestFirmwareNowait (filename (board d')) ret])
        \/ (ret < 0
            /\ (exists A F, between (lines d) (lines d') A F /\ F ≡ₚ A)
            /\ clientdata d' = false
            /\ Panic.panicdata (chan d') = None
            /\ misc_device_registered false new = false
            /\ sysfs_group_present false new = false)).
Proof.
  intros Hc Hcd Hpd. unfold m4sensorhub_probe.
  set (d0 := set_chan _ (set_debug M4SH_INFO _)).
  assert (Hd0 : lines d0 = lines d /\ calls d0 = calls d
                /\ clientdata d0 = clientdata d
                /\ Panic.panicdata (chan d0) = Panic.panicdata (chan d)
                /\ board d0 = board d).
  { subst d0. by destruct (negb (debug_level =? 0)), config_debug_fs. }
  destruct Hd0 as (Hl0 & Hc0 & Hcd0 & Hpd0 & Hb0).
  assert (Hdbg : m4sensorhub_debug d0 = M4SH_INFO) by done.
  assert (Hmode : Panic.mode (chan d0) = UNINITIALIZED) by done.
  clearbody d0.
  destruct (i2c_check_functionality (world (lines d0))); cbn [negb].
  2:{ exists (- ENODEV), d0, []. split; [done|]. split; [done|].
      split; [done|]. split; [by rewrite app_nil_r|]. right.
      split; [unfold ENODEV; lia|]. split.
      { exists [], []. split; [|done]. rewrite Hl0. apply between_refl. }
      split; [congruence|]. split; [congruence|]. done. }
  cbn [board set_board lines].
  destruct (hw_init_outcome (set_i2c_client (Some client_addr) (board d0))
              node (lines d0))
    as (err & m & p & Hinit & Hcl & Hout).
  rewrite Hinit.
  pose proof (hw_init_ret_nonpos _ _ _ _ _ _ Hc Hinit) as Herr.
  cbn [set_i2c_client i2c_client] in Hcl.
  destruct Hout as [(-> & Hacq & Hpos & n & _ & _ & Hfn & _)
                   |(Hne & (A & HA) & Hfn)].
  2:{ replace (err <? 0) with true by (symmetry; apply Z.ltb_lt; lia).
      eexists _, _, []. split; [reflexivity|].
      cbn [set_lines set_board m4sensorhub_debug chan calls lines
             clientdata].
      split; [done|]. split; [done|]. split; [by rewrite app_nil_r|].
      right. split; [lia|]. split.
      { exists A, (rev A). rewrite <- Hl0. split; [done|].
        symmetry. apply Permutation_rev. }
      split; [congruence|]. split; [congruence|]. done. }
  cbn [Z.ltb Z.compare].
  set (d1 := set_clientdata true _).
  assert (Hd1 : lines d1 = p /\ board d1 = m /\ chan d1 = chan d0
                /\ calls d1 = calls d0 /\ clientdata d1 = true
                /\ m4sensorhub_debug d1 = M4SH_INFO) by done.
  destruct Hd1 as (Hl1 & Hb1 & Hch1 & Hk1 & Hcd1 & Hdbg1). clearbody d1.
  (* misc_register *)
  pose proof (returning_frame misc_register CallMiscRegister d1) as F.
  destruct (returning misc_register CallMiscRegister d1) as [r1 d2].
  cbn [fst snd] in F. destruct F as (Ht2 & Hb2 & Hch2 & Hcd2 & _ & Hdbg2 & Hk2).
  assert (Hacq2 : between (lines d) (lines d2) (gpios_of (hwconfig m)) []).
  { apply (between_same_trace _ p); [by rewrite Ht2, Hl1|by rewrite <- Hl0]. }
  assert (Hpos2 : Forall (fun g => 0 <= g) (gpios_of (hwconfig (board d2))))
    by (by rewrite Hb2, Hb1).
  destruct (r1 <? 0) eqn:E1.
  { destruct (err_hw_free_unwinds d2 (lines d) _ Hacq2 Hpos2)
      as (Hb' & Hcd' & Hmode' & Hpd' & Hk' & Hdbg').
    exists r1, (err_hw_free d2), [CallMiscRegister r1].
    split; [done|]. split; [congruence|]. split; [congruence|].
    split; [rewrite Hk', Hk2, Hk1, Hc0; by rewrite app_nil_r|]. right.
    split; [by apply Z.ltb_lt|]. split; [eexists _, _; split; [exact Hb'|by rewrite Hb2, Hb1]|].
    split; [done|]. split; [apply Hpd'; congruence|].
    cbn. by rewrite E1. }
  (* sysfs_create_group *)
  pose proof (returning_frame sysfs_create_group CallSysfsCreateGroup d2) as F.
  destruct (returning sysfs_create_group CallSysfsCreateGroup d2) as [r2 d3].
  cbn [fst snd] in F. destruct F as (Ht3 & Hb3 & Hch3 & Hcd3 & _ & Hdbg3 & Hk3).
  assert (Hacq3 : between (lines d) (lines d3) (gpios_of (hwconfig m)) [])
    by (by apply (between_same_trace _ (lines d2))).
  assert (Hpos3 : Forall (fun g => 0 <= g) (gpios_of (hwconfig (board d3))))
    by (by rewrite Hb3).
  destruct (r2 <? 0) eqn:E2.
  { destruct (err_deregister_unwinds d3 (lines d) _ Hacq3 Hpos3)
      as (Hb' & Hcd' & Hmode' & Hpd' & Hk' & Hdbg').
    exists r2, (err_deregister d3),
      [CallMiscRegister r1; CallSysfsCreateGroup r2; CallMiscDeregister].
    split; [done|]. split; [congruence|]. split; [congruence|].
    split; [rewrite Hk', Hk3, Hk2, Hk1, Hc0; by rewrite <- !app_assoc|].
    right.
    split; [by apply Z.ltb_lt|]. split; [eexists _, _; split; [exact Hb'|by rewrite Hb3, Hb2, Hb1]|].
    split; [done|]. split; [apply Hpd'; congruence|].
    cbn. by rewrite E2. }
  (* the interrupt line *)
  assert (Hirq : 0 <= irq_gpio (hwconfig (board d3))).
  { rewrite Hb3, Hb2, Hb1. by inversion Hpos. }
  apply Z.leb_le in Hirq as Hirq'. rewrite Hirq'. cbn [negb].
  (* m4sensorhub_panic_init *)
  set (d4 := set_client_irq _ d3).
  destruct (kzalloc (world (lines d4))) as [ok w].
  set (d5 := set_kernel w d4).
  assert (Hd5 : trace (lines d5) = trace (lines d3) /\ board d5 = board d3
                /\ chan d5 = chan d3 /\ calls d5 = calls d3
                /\ clientdata d5 = clientdata d3
                /\ client_irq d5 = gpio_to_irq (irq_gpio (hwconfig (board d3)))
                /\ m4sensorhub_debug d5 = m4sensorhub_debug d3) by done.
  destruct Hd5 as (Ht5 & Hb5 & Hch5 & Hk5 & Hcd5 & Hirq5 & Hdbg5).
  clearbody d5. clear d4.
  unfold Panic.m4sensorhub_panic_init. destruct ok.
  2:{ replace (- ENOMEM <? 0) with true by done. cbn [from_option id].
      set (d6 := set_chan (chan d5) d5).
      assert (Hd6 : d6 = d5) by (subst d6; by destruct d5).
      rewrite Hd6. clear d6 Hd6.
      destruct (err_reg_shutdown_unwinds d5 (lines d) (gpios_of (hwconfig m)))
        as (Hb' & Hcd' & Hmode' & Hpd' & Hk' & Hdbg').
      { by apply (between_same_trace _ (lines d3)). }
      { by rewrite Hb5. }
      exists (- ENOMEM), (err_reg_shutdown d5),
        [CallMiscRegister r1; CallSysfsCreateGroup r2; CallRegShutdown;
         CallSysfsRemoveGroup; CallMiscDeregister].
      split; [done|]. split; [congruence|]. split; [congruence|].
      split; [rewrite Hk', Hk5, Hk3, Hk2, Hk1, Hc0; by rewrite <- !app_assoc|].
      right.
      split; [done|]. split; [eexists _, _; split; [exact Hb'|by rewrite Hb5, Hb3, Hb2, Hb1]|].
      split; [done|]. split; [apply Hpd'; congruence|]. done. }
  cbn [Z.ltb Z.compare from_option id].
  set (pd := {| Panic.lock := false; Panic.funcs := _ |}).
  set (d6 := set_chan _ d5).
  assert (Hd6 : trace (lines d6) = trace (lines d5) /\ board d6 = board d5
                /\ Panic.panicdata (chan d6) = Some pd
                /\ Panic.mode (chan d6) = Panic.mode (chan d5)
                /\ calls d6 = calls d5
                /\ clientdata d6 = clientdata d5
                /\ client_irq d6 = client_irq d5
                /\ m4sensorhub_debug d6 = m4sensorhub_debug d5) by done.
  destruct Hd6 as (Ht6 & Hb6 & Hpd6 & Hm6 & Hk6 & Hcd6 & Hirq6 & Hdbg6).
  clearbody d6.
  (* request_firmware_nowait *)
  pose proof (returning_frame (request_firmware_nowait (filename (board d6)))
                (CallRequestFirmwareNowait (filename (board d6))) d6) as F.
  destruct (returning (request_firmware_nowait (filename (board d6)))
              (CallRequestFirmwareNowait (filename (board d6))) d6)
    as [r3 d7].
  cbn [fst snd] in F.
  destruct F as (Ht7 & Hb7 & Hch7 & Hcd7 & Hirq7 & Hdbg7 & Hk7).
  assert (Hacq7 : between (lines d) (lines d7) (gpios_of (hwconfig m)) []).
  { apply (between_same_trace _ (lines d3)); [congruence|done]. }
  assert (Hbm : board d7 = m) by congruence.
  destruct (r3 <? 0) eqn:E3.
  { destruct (err_panic_shutdown_unwinds d7 (lines d) _ Hacq7)
      as (Hb' & Hcd' & Hmode' & Hpd' & Hk' & Hdbg').
    { by rewrite Hbm. }
    exists r3, (err_panic_shutdown d7),
      [CallMiscRegister r1; CallSysfsCreateGroup r2;
       CallRequestFirmwareNowait (filename (board d6)) r3; CallRegShutdown;
       CallSysfsRemoveGroup; CallMiscDeregister].
    split; [done|]. split; [congruence|]. split; [congruence|].
    split.
    { rewrite Hk', Hk7, Hk6, Hk5, Hk3, Hk2, Hk1, Hc0.
      by rewrite <- !app_assoc. }
    right.
    split; [by apply Z.ltb_lt|]. split; [eexists _, _; split; [exact Hb'|by rewrite Hbm]|].
    split; [done|]. split; [done|]. done. }
  exists r3, d7,
    [CallMiscRegister r1; CallSysfsCreateGroup r2;
     CallRequestFirmwareNowait (filename (board d7)) r3].
  split; [done|]. split; [congruence|]. split; [congruence|].
  split.
  { rewrite Hk7, Hk6, Hk5, Hk3, Hk2, Hk1, Hc0, Hb7.
    by rewrite <- !app_assoc. }
  left. apply Z.ltb_ge in E1, E2, E3.
  split; [done|]. split; [by rewrite Hbm|]. split; [by rewrite Hbm|].
  split; [by rewrite Hbm|]. split; [by rewrite Hbm|].
  split; [congruence|]. split; [congruence|]. split.
  { exists pd. rewrite Hch7. by repeat split. }
  by exists r1, r2.
Qed.



(** What m4sensorhub_remove leaves behind on a bound client. *)
Lemma remove_outcome (d : driver World) :
  clientdata d = true ->
  Forall (fun g => 0 <= g) (gpios_of (hwconfig (board d))) ->
  exists d',
    m4sensorhub_remove d = (0, d')
    /\ between (lines d) (lines d') [] (gpios_of (hwconfig (board d)))
    /\ clientdata d' = false
    /\ i2c_client (board d') = None
    /\ Forall (fun g => g < 0) (gpios_of (hwconfig (board d')))
    /\ Panic.panicdata (chan d') = None
    /\ Panic.mode (chan d') = Panic.mode (chan d)
    /\ calls d'
       = calls d ++ [CallIrqShutdown; CallRegShutdown; CallSysfsRemoveGroup;
                     CallMiscDeregister].
Proof.
  intros Hcd Hpos. unfold m4sensorhub_remove. rewrite Hcd. cbn [negb].
  set (d1 := set_chan _ (running m4sensorhub_irq_shutdown CallIrqShutdown d)).
  assert (Hd1 : trace (lines d1) = trace (lines d) /\ board d1 = board d
                /\ Panic.mode (chan d1) = Panic.mode (chan d)
                /\ Panic.panicdata (chan d1) = None
                /\ calls d1 = calls d ++ [CallIrqShutdown]).
  { subst d1.
    cbn [chan set_chan running log set_kernel set_lines
           Panic.m4sensorhub_panic_shutdown].
    by destruct (Panic.panicdata (chan d)) eqn:E. }
  destruct Hd1 as (Ht1 & Hb1 & Hm1 & Hp1 & Hk1). clearbody d1.
  set (d2 := running sysfs_remove_group _ (running _ _ d1)).
  assert (Hd2 : trace (lines d2) = trace (lines d1) /\ board d2 = board d1
                /\ chan d2 = chan d1
                /\ calls d2
                   = calls d1 ++ [CallRegShutdown; CallSysfsRemoveGroup]).
  { subst d2. cbn. by rewrite <- app_assoc. }
  destruct Hd2 as (Ht2 & Hb2 & Hch2 & Hk2). clearbody d2.
  set (d3 := running misc_deregister _ (set_lines _ d2)).
  assert (Hd3 : between (lines d) (lines d3) [] [] /\ board d3 = board d2
                /\ chan d3 = chan d2
                /\ calls d3 = calls d2 ++ [CallMiscDeregister]).
  { subst d3. split; [|done].
    apply (between_same_trace _
             (m4sensorhub_hw_reset (Some (board d2)) (lines d2))); [done|].
    apply between_hw_reset. apply (between_same_trace _ (lines d)).
    - congruence.
    - apply between_refl. }
  destruct Hd3 as (Hbt3 & Hb3 & Hch3 & Hk3). clearbody d3.
  cbn [board lines set_board set_clientdata].
  destruct (hw_free_outcome (set_i2c_client None (board d3)) (lines d3))
    as (m1 & p1 & Hfree & Hbt & Hneg & _ & Hcl & _).
  rewrite Hfree. cbn [from_option id].
  eexists. split; [reflexivity|].
  cbn [set_lines set_board lines clientdata board chan calls].
  cbn [set_i2c_client hwconfig] in Hbt.
  rewrite Hb3, Hb2, Hb1 in Hbt. rewrite (filter_all_held _ Hpos) in Hbt.
  split; [exact (between_trans _ _ _ _ _ _ _ Hbt3 Hbt)|].
  split; [done|]. split; [done|]. split; [done|].
  cbn. rewrite Hch3, Hch2, Hk3, Hk2, Hk1.
  split; [done|]. split; [done|]. by rewrite <- !app_assoc.
Qed.

Lemma remove_unbound (d : driver World) :
  clientdata d = false -> m4sensorhub_remove d = (0, d).
Proof. intros Hcd. unfold m4sensorhub_remove. by rewrite Hcd. Qed.

End Frame.

Lemma grudging_keeps_contract :
  @gpio_request_contract unit grudging_gpiolib.
Proof. intros g l w. cbn. destruct (g =? 7); lia. Defined.



(** X21.  m4sensorhub_remove undoes a successful m4sensorhub_probe: it
    returns 0, frees exactly the six GPIOs that probe acquired, each once,
    leaves the client data, the i2c client and panicdata NULL and every
    GPIO number negative, and leaves neither the misc device nor the sysfs
    group registered; a second remove does nothing. *)
Theorem remove_undoes_probe
    {World : Type} (K : Kernel World)
    (client_addr : Z) (node : option device_node)
    (debug_level : Z) (config_debug_fs : bool) (d d1 : driver World)
    (ret : Z) :
  gpio_request_contract ->
  clientdata d = false ->
  Panic.panicdata (chan d) = None ->
  m4sensorhub_probe client_addr node debug_level config_debug_fs d
  = Ret (ret, d1) ->
  0 <= ret ->
  exists d2 new,
    m4sensorhub_remove d1 = (0, d2)
    /\ between (lines d) (lines d2) (gpios_of (hwconfig (board d1)))
         (gpios_of (hwconfig (board d1)))
    /\ clientdata d2 = false
    /\ i2c_client (board d2) = None
    /\ Panic.panicdata (chan d2) = None
    /\ Forall (fun g => g < 0) (gpios_of (hwconfig (board d2)))
    /\ calls d2 = calls d ++ new
    /\ misc_device_registered false new = false
    /\ sysfs_group_present false new = false
    /\ m4sensorhub_remove d2 = (0, d2).
Proof.
  intros Hc Hcd Hpd Hrun Hret.
  destruct (probe_outcome client_addr node debug_level config_debug_fs d
              Hc Hcd Hpd)
    as (ret' & d' & new & Hrun' & _ & _ & Hcalls & Hout).
  rewrite Hrun in Hrun'. injection Hrun' as <- <-.
  destruct Hout as [(_ & Hacq & Hpos & _ & _ & Hcd1 & _ & _ & r1 & r2 & _ & _ & ->)
                   |(Hneg & _)]; [|lia].
  destruct (remove_outcome d1 Hcd1 Hpos)
    as (d2 & Hrem & Hbt & Hcd2 & Hcl2 & Hneg2 & Hpd2 & _ & Hcalls2).
  exists d2. eexists. split; [exact Hrem|].
  split.
  { pose proof (between_trans _ _ _ _ _ _ _ Hacq Hbt) as Hb.
    by rewrite app_nil_r in Hb. }
  split; [done|]. split; [done|]. split; [done|]. split; [done|].
  split; [rewrite Hcalls2, Hcalls, <- app_assoc; reflexivity|].
  split; [done|]. split; [done|]. by apply remove_unbound.
Qed.

Lemma remove_undoes_probe_witness :
  exists d1 d2,
    @m4sensorhub_probe _ (sample_kernel 0) 0x18 (Some (sample_node 13))
      0 false unbound
    = Ret (0, d1)
    /\ acquired (trace (lines d1)) = [11; 12; 13; 14; 15; 16]
    /\ @m4sensorhub_remove _ (sample_kernel 0) d1 = (0, d2)
    /\ clientdata d2 = false.
Proof.
  eexists.
  assert (Hcomp :
    @m4sensorhub_probe _ (sample_kernel 0) 0x18 (Some (sample_node 13))
      0 false unbound
    = Ret (0, _)) by (vm_compute; reflexivity).
  destruct (remove_undoes_probe (sample_kernel 0) 0x18
              (Some (sample_node 13)) 0 false unbound _ 0
              grudging_keeps_contract eq_refl eq_refl Hcomp ltac:(lia))
    as (d2 & new & Hrem & _ & Hcd2 & _).
  exists d2. split; [exact Hcomp|]. split; [vm_compute; reflexivity|].
  split; [exact Hrem|exact Hcd2].
Defined.

End ProbeProofs.
